(** * DirectMLSuperResolution: the Upscaler pipeline

    A shallow embedding of [Samples/DirectMLSuperResolution/DirectMLSuperResolution.h]
    (the header followed by the implementation of [class Upscaler] and of the
    exported flat functions), with the properties of its tensor layout policy,
    weight preprocessing, resource lifecycle and frame recording.

    Conventions.
    - [uint32_t], [UINT], [uint64_t] and [LONG] values are integers of [Z];
      every C++ operation on them is written with its wrap-around.
    - A C++ call can end in four ways, see [outcome].
    - Objects of the platform (the Direct3D 12 device, the DirectML helpers,
      the half-precision compressor) are parameters of the development. *)

From Stdlib Require Import ZArith Lia List Permutation.
From stdpp Require Import base functions gmap strings list.

Local Open Scope Z_scope.

(** ** Machine integers *)

Module UInt.

Definition wrap32 (z : Z) : Z := z mod 2 ^ 32.
Definition wrap64 (z : Z) : Z := z mod 2 ^ 64.

Definition add32 (a b : Z) : Z := wrap32 (a + b).
Definition sub32 (a b : Z) : Z := wrap32 (a - b).
Definition mul32 (a b : Z) : Z := wrap32 (a * b).

(** Unsigned division; callers only divide by non-zero constants. *)
Definition div32 (a b : Z) : Z := a / b.

(** Conversion of a 32-bit value to the signed 32-bit [int] or [LONG]
    (two's complement, as on every Windows target). *)
Definition to_int32 (z : Z) : Z :=
  let u := wrap32 z in if u <? 2 ^ 31 then u else u - 2 ^ 32.

Definition is_uint32 (z : Z) : Prop := 0 <= z < 2 ^ 32.
Definition is_int32 (z : Z) : Prop := - 2 ^ 31 <= z < 2 ^ 31.

End UInt.

Import UInt.

Notation "a +32 b" := (add32 a b) (at level 50, left associativity).
Notation "a -32 b" := (sub32 a b) (at level 50, left associativity).
Notation "a *32 b" := (mul32 a b) (at level 40, left associativity).

(** ** Tensor layout and strides *)

Inductive TensorLayout : Type :=
| Default
| NHWC.

(** A [uint32_t[4]] array: tensor sizes or strides. *)
Record uint32x4 : Type := U4 { at0 : Z; at1 : Z; at2 : Z; at3 : Z }.

Definition all_uint32 (a : uint32x4) : Prop :=
  is_uint32 (at0 a) /\ is_uint32 (at1 a) /\ is_uint32 (at2 a) /\ is_uint32 (at3 a).

(** The data model's invariant on a tensor shape: every dimension is positive. *)
Definition positive_dims (a : uint32x4) : Prop :=
  0 < at0 a /\ 0 < at1 a /\ 0 < at2 a /\ 0 < at3 a.

(** The number of elements of a tensor of that shape, as a mathematical integer. *)
Definition element_total (a : uint32x4) : Z := at0 a * at1 a * at2 a * at3 a.

(** Component-wise order on shapes. *)
Definition dims_le (a b : uint32x4) : Prop :=
  at0 a <= at0 b /\ at1 a <= at1 b /\ at2 a <= at2 b /\ at3 a <= at3 b.

(** [Upscaler::GetStrides]. *)
Definition GetStrides (sizes : uint32x4) (layout : TensorLayout) : uint32x4 :=
  match layout with
  | NHWC =>
      {| at0 := at1 sizes *32 at2 sizes *32 at3 sizes;
         at1 := 1;
         at2 := at1 sizes *32 at3 sizes;
         at3 := at1 sizes |}
  | Default =>
      {| at0 := at1 sizes *32 at2 sizes *32 at3 sizes;
         at1 := at2 sizes *32 at3 sizes;
         at2 := at3 sizes;
         at3 := 1 |}
  end.

(** ** The platform's tensor buffer size *)

Inductive DML_TENSOR_DATA_TYPE : Type :=
| DML_TENSOR_DATA_TYPE_FLOAT32
| DML_TENSOR_DATA_TYPE_FLOAT16.

Definition elementSizeInBytes (t : DML_TENSOR_DATA_TYPE) : Z :=
  match t with
  | DML_TENSOR_DATA_TYPE_FLOAT32 => 4
  | DML_TENSOR_DATA_TYPE_FLOAT16 => 2
  end.

(** Modelled from the spec: [DMLCalcBufferTensorSize] is the platform's
    tensor-buffer-size function (DirectML.h), which is not part of the sources.
    The size is computed from (shape, strides): the linear index of the last
    element is the sum of [(sizes[i] - 1) * strides[i]], accumulated in a
    [UINT]; the element count is that index plus one. *)
Definition indexOfLastElement (sizes strides : uint32x4) : Z :=
  0 +32 (at0 sizes -32 1) *32 at0 strides
    +32 (at1 sizes -32 1) *32 at1 strides
    +32 (at2 sizes -32 1) *32 at2 strides
    +32 (at3 sizes -32 1) *32 at3 strides.

(** Modelled from the spec: the element count a (shape, strides) pair implies,
    the maximum linear index plus one. *)
Definition impliedElementCount (sizes strides : uint32x4) : Z :=
  indexOfLastElement sizes strides + 1.

(** Modelled from the spec: [DMLCalcBufferTensorSize] (DirectML.h, not part of
    the sources): the implied element count times the element size, as a
    [UINT64], rounded up to a multiple of four bytes. *)
Definition DMLCalcBufferTensorSize
    (dataType : DML_TENSOR_DATA_TYPE) (sizes strides : uint32x4) : Z :=
  let minimumImpliedSizeInBytes :=
    wrap64 (impliedElementCount sizes strides * elementSizeInBytes dataType) in
  Z.land (wrap64 (minimumImpliedSizeInBytes + 3)) (wrap64 (Z.lnot 3)).

(** The buffer size [Upscaler::CreateWeightResource] asks the device for. *)
Definition weightBufferSize (m_tensorLayout : TensorLayout) (tensorSizes : uint32x4) : Z :=
  let strides := GetStrides tensorSizes m_tensorLayout in
  DMLCalcBufferTensorSize DML_TENSOR_DATA_TYPE_FLOAT16 tensorSizes strides.

(** ** Outcomes of a call *)

(** How a call of the embedded C++ code can end. *)
Inductive outcome (A : Type) : Type :=
| Done (a : A)        (** the call returns *)
| Thrown              (** [DX::ThrowIfFailed] threw on a failed [HRESULT] *)
| AssertionFailed     (** an [assert] fired (a build without [NDEBUG]) *)
| Undefined.          (** no defined behaviour: an element access out of range,
                          a null pointer dereferenced *)

Arguments Done {A} a.
Arguments Thrown {A}.
Arguments AssertionFailed {A}.
Arguments Undefined {A}.

#[global] Instance outcome_ret : MRet outcome := fun A a => Done a.

#[global] Instance outcome_bind : MBind outcome := fun A B k m =>
  match m with
  | Done a => k a
  | Thrown => Thrown
  | AssertionFailed => AssertionFailed
  | Undefined => Undefined
  end.

(** [DX::ThrowIfFailed] applied to a call that yields an object on success. *)
Definition ThrowIfFailed {A : Type} (hr : option A) : outcome A :=
  match hr with
  | Some a => Done a
  | None => Thrown
  end.

(** [assert(e)]: compiled out when [NDEBUG] is defined. *)
Definition assert (NDEBUG : bool) (e : bool) : outcome unit :=
  if NDEBUG then Done tt else if e then Done tt else AssertionFailed.

(** [for (uint32_t i = first; ...; i++)] run for [count] iterations. *)
Fixpoint for_range {S : Type} (count : nat) (i : Z)
    (body : Z -> S -> outcome S) (s : S) : outcome S :=
  match count with
  | O => Done s
  | Datatypes.S count' => s' ← body i s; for_range count' (i + 1) body s'
  end.

(** [for (uint32_t i = 0; i < bound; i++)] for a loop-invariant [bound]: the
    counter never wraps, it stops at [bound <= UINT32_MAX]. *)
Definition for_uint32 {S : Type} (bound : Z)
    (body : Z -> S -> outcome S) (s : S) : outcome S :=
  for_range (Z.to_nat bound) 0 body s.

(** [v[idx]] on a [std::vector]: undefined out of range. *)
Definition vector_at {A : Type} (v : list A) (idx : Z) : outcome A :=
  match v !! Z.to_nat idx with
  | Some x => Done x
  | None => Undefined
  end.

(** [v.push_back(x)]. *)
Definition push_back {A : Type} (v : list A) (x : A) : list A := v ++ [x].

(** ** The Direct3D 12 device *)

Inductive D3D12_HEAP_TYPE : Type :=
| D3D12_HEAP_TYPE_DEFAULT
| D3D12_HEAP_TYPE_UPLOAD.

Inductive D3D12_HEAP_FLAGS : Type :=
| D3D12_HEAP_FLAG_NONE
| D3D12_HEAP_FLAG_SHARED.

Inductive D3D12_RESOURCE_FLAGS : Type :=
| D3D12_RESOURCE_FLAG_NONE
| D3D12_RESOURCE_FLAG_ALLOW_UNORDERED_ACCESS
| D3D12_RESOURCE_FLAG_ALLOW_SIMULTANEOUS_ACCESS.

Inductive D3D12_RESOURCE_STATES : Type :=
| D3D12_RESOURCE_STATE_COMMON
| D3D12_RESOURCE_STATE_GENERIC_READ
| D3D12_RESOURCE_STATE_NON_PIXEL_SHADER_RESOURCE
| D3D12_RESOURCE_STATE_PIXEL_SHADER_RESOURCE
| D3D12_RESOURCE_STATE_UNORDERED_ACCESS
| D3D12_RESOURCE_STATE_RENDER_TARGET.

(** [CD3DX12_RESOURCE_DESC]: a buffer of [Width] bytes or a 2D texture. *)
Inductive D3D12_RESOURCE_DESC : Type :=
| Buffer (Width : Z) (Flags : D3D12_RESOURCE_FLAGS)
| Texture2D (Width Height : Z) (Flags : D3D12_RESOURCE_FLAGS).

(** A committed resource, known by the arguments that created it. *)
Record ID3D12Resource : Type := Resource {
  res_heap : D3D12_HEAP_TYPE;
  res_heap_flags : D3D12_HEAP_FLAGS;
  res_desc : D3D12_RESOURCE_DESC;
}.

Inductive D3D12_DESCRIPTOR_HEAP_TYPE : Type :=
| D3D12_DESCRIPTOR_HEAP_TYPE_CBV_SRV_UAV
| D3D12_DESCRIPTOR_HEAP_TYPE_RTV.

Inductive D3D12_DESCRIPTOR_HEAP_FLAGS : Type :=
| D3D12_DESCRIPTOR_HEAP_FLAG_NONE
| D3D12_DESCRIPTOR_HEAP_FLAG_SHADER_VISIBLE.

Definition HANDLE : Type := Z.

(** The calls the pipeline makes on [ID3D12Device] and on the resources it
    returns; [None] stands for a failed [HRESULT]. *)
Record ID3D12Device : Type := {
  CreateCommittedResource :
    D3D12_HEAP_TYPE -> D3D12_HEAP_FLAGS -> D3D12_RESOURCE_DESC ->
    D3D12_RESOURCE_STATES -> option ID3D12Resource;
  Map : ID3D12Resource -> option unit;
  GetGPUVirtualAddress : ID3D12Resource -> Z;
  CreateSharedHandle : ID3D12Resource -> option HANDLE;
  CreateDescriptorHeap :
    D3D12_DESCRIPTOR_HEAP_TYPE -> D3D12_DESCRIPTOR_HEAP_FLAGS -> Z -> option unit;
}.

(** ** Weight preprocessing *)

(** A [const char*]: null or a string. *)
Definition cstr : Type := option string.

Definition is_null (p : cstr) : bool :=
  match p with None => true | Some _ => false end.

(** One [uploadBatch.Upload(resource, 0, &weightsData, 1)]: the resource and
    the FP16 values [weightsData.pData] points to. *)
Record Upload : Type := { upload_resource : ID3D12Resource; upload_data : list Z }.

Definition ResourceUploadBatch : Type := list Upload.

(** [Upscaler::CreateWeightResource]: a buffer on the default heap, sized from
    the strides of the layout. *)
Definition CreateWeightResource (device : ID3D12Device) (m_tensorLayout : TensorLayout)
    (tensorSizes : uint32x4) : outcome ID3D12Resource :=
  let strides := GetStrides tensorSizes m_tensorLayout in
  let bufferSize :=
    DMLCalcBufferTensorSize DML_TENSOR_DATA_TYPE_FLOAT16 tensorSizes strides in
  let resourceDesc := Buffer bufferSize D3D12_RESOURCE_FLAG_ALLOW_UNORDERED_ACCESS in
  ThrowIfFailed
    (CreateCommittedResource device D3D12_HEAP_TYPE_DEFAULT D3D12_HEAP_FLAG_NONE
       resourceDesc D3D12_RESOURCE_STATE_COMMON).

Section WeightPreprocessor.

(** [float], its multiplication, and [Float16Compressor::compress] (from
    Float16Compressor.h), which yields a [uint16_t]. *)
Context {float : Type}.
Variable fmul : float -> float -> float.
Variable compress : float -> Z.

(** Whether the translation unit is compiled with [NDEBUG]. *)
Variable NDEBUG : bool.

Variable device : ID3D12Device.
Variable m_tensorLayout : TensorLayout.

(** Modelled from the spec: [WeightsType] and [WeightMapType] are declared in
    LoadWeights.h, which is not part of the sources. The weight set is a
    mapping from layer name (string) to a flat sequence of 32-bit floats:
    [std::vector<float>] and [std::map<std::string, WeightsType>]. *)
Abbreviation WeightsType := (list float).
Abbreviation WeightMapType := (gmap string (list float)).

(** [weights[name]] for a [const char* name], on the non-const reference
    [WeightMapType& weights]: [std::map::operator[]] inserts a
    value-initialised (empty) vector under a key that is absent; building the
    [std::string] key from a null pointer is undefined. *)
Definition map_subscript (weights : WeightMapType) (name : cstr)
    : outcome (WeightsType * WeightMapType) :=
  match name with
  | None => Undefined
  | Some key =>
      match weights !! key with
      | Some v => Done (v, weights)
      | None => Done ([], <[key := []]> weights)
      end
  end.

(** [useScaleShift ? filterWeights[idx] * scaleWeights[n] : filterWeights[idx]]. *)
Definition scaledWeight (useScaleShift : bool)
    (filterWeights scaleWeights : WeightsType) (idx n : Z) : outcome float :=
  if useScaleShift then
    f ← vector_at filterWeights idx;
    s ← vector_at scaleWeights n;
    mret (fmul f s)
  else vector_at filterWeights idx.

(** The body of the [NHWC] case: the three nested loops over h, w, c. *)
Definition emit_NHWC (useScaleShift : bool) (filterWeights scaleWeights : WeightsType)
    (C H W n : Z) (filterWeightsFP16 : list Z) : outcome (list Z) :=
  for_uint32 H (fun h =>
    for_uint32 W (fun w =>
      for_uint32 C (fun c filterWeightsFP16 =>
        let idx := w +32 h *32 W +32 c *32 H *32 W +32 n *32 C *32 H *32 W in
        scaledWeight ← scaledWeight useScaleShift filterWeights scaleWeights idx n;
        mret (push_back filterWeightsFP16 (compress scaledWeight)))))
    filterWeightsFP16.

(** The body of the [default] case: one loop over the C*H*W weights of n. *)
Definition emit_Default (useScaleShift : bool) (filterWeights scaleWeights : WeightsType)
    (C H W n : Z) (filterWeightsFP16 : list Z) : outcome (list Z) :=
  for_uint32 (C *32 H *32 W) (fun i filterWeightsFP16 =>
      let idx := n *32 C *32 H *32 W +32 i in
      scaledWeight ← scaledWeight useScaleShift filterWeights scaleWeights idx n;
      mret (push_back filterWeightsFP16 (compress scaledWeight)))
    filterWeightsFP16.

(** The loop over the N output channels, on the pair
    ([filterWeightsFP16], [biasWeightsFP16]). *)
Definition convertWeights (useScaleShift : bool)
    (filterWeights scaleWeights shiftWeights : WeightsType) (filterSizes : uint32x4)
    : outcome (list Z * list Z) :=
  let N := at0 filterSizes in
  let C := at1 filterSizes in
  let H := at2 filterSizes in
  let W := at3 filterSizes in
  for_uint32 N (fun n '(filterWeightsFP16, biasWeightsFP16) =>
      filterWeightsFP16 ←
        match m_tensorLayout with
        | NHWC => emit_NHWC useScaleShift filterWeights scaleWeights C H W n filterWeightsFP16
        | Default => emit_Default useScaleShift filterWeights scaleWeights C H W n filterWeightsFP16
        end;
      if useScaleShift then
        shift ← vector_at shiftWeights n;
        mret (filterWeightsFP16, push_back biasWeightsFP16 (compress shift))
      else mret (filterWeightsFP16, biasWeightsFP16))
    ([], []).

(** What a call of [CreateWeightTensors] leaves behind: the weight map and the
    upload batch it was given by reference, and the resources stored through
    its two out-pointers ([None]: nothing stored). *)
Record WeightTensors : Type := {
  weights_after : WeightMapType;
  uploadBatch_after : ResourceUploadBatch;
  filterWeightResource : ID3D12Resource;
  biasWeightResource : option ID3D12Resource;
}.

(** [Upscaler::CreateWeightTensors]. [biasWeightResourceOut] tells whether the
    optional out-pointer of that name is non-null. *)
Definition CreateWeightTensors (weights : WeightMapType)
    (convLayerName scaleLayerName shiftLayerName : cstr)
    (filterSizes : uint32x4) (uploadBatch : ResourceUploadBatch)
    (biasWeightResourceOut : bool) : outcome WeightTensors :=
  useScaleShift ←
    (if is_null scaleLayerName
     then _ ← assert NDEBUG (is_null shiftLayerName); mret false
     else mret true);
  filterWeightResourceOut ← CreateWeightResource device m_tensorLayout filterSizes;
  biasWeightResourceOut ←
    (if useScaleShift then
       let biasSizes := U4 1 (at0 filterSizes) 1 1 in
       if biasWeightResourceOut
       then bias ← CreateWeightResource device m_tensorLayout biasSizes; mret (Some bias)
       else Undefined
     else mret None);
  '(filterWeights, weights) ← map_subscript weights convLayerName;
  '(scaleWeights, shiftWeights, weights) ←
    (if useScaleShift then
       '(scaleWeights, weights) ← map_subscript weights scaleLayerName;
       '(shiftWeights, weights) ← map_subscript weights shiftLayerName;
       mret (scaleWeights, shiftWeights, weights)
     else mret ([], [], weights));
  '(filterWeightsFP16, biasWeightsFP16) ←
    convertWeights useScaleShift filterWeights scaleWeights shiftWeights filterSizes;
  let uploadBatch :=
    push_back uploadBatch
      {| upload_resource := filterWeightResourceOut; upload_data := filterWeightsFP16 |} in
  uploadBatch ←
    (if useScaleShift : bool then
       match biasWeightResourceOut with
       | Some bias =>
           Done (push_back uploadBatch
                   {| upload_resource := bias; upload_data := biasWeightsFP16 |})
       | None => Undefined
       end
     else Done uploadBatch);
  mret {| weights_after := weights;
          uploadBatch_after := uploadBatch;
          filterWeightResource := filterWeightResourceOut;
          biasWeightResource := biasWeightResourceOut |}.

End WeightPreprocessor.

(** ** Positions in a filter tensor

    Used to state what [CreateWeightTensors] emits; all are mathematical
    integers. *)

(** (n, c, h, w) is a coordinate of a tensor of shape [sizes]. *)
Definition in_shape (sizes : uint32x4) (n c h w : Z) : Prop :=
  0 <= n < at0 sizes /\ 0 <= c < at1 sizes /\ 0 <= h < at2 sizes /\ 0 <= w < at3 sizes.

(** The index of (n, c, h, w) in the source (NCHW) order of the weight file. *)
Definition indexNCHW (sizes : uint32x4) (n c h w : Z) : Z :=
  n * at1 sizes * at2 sizes * at3 sizes + c * at2 sizes * at3 sizes + h * at3 sizes + w.

(** The position of (n, h, w, c) in channel-minor (NHWC) order. *)
Definition indexNHWC (sizes : uint32x4) (n c h w : Z) : Z :=
  ((n * at2 sizes + h) * at3 sizes + w) * at1 sizes + c.

(** Where the weight of coordinate (n, c, h, w) is expected in the emitted
    sequence of a layout. *)
Definition emitted_position (layout : TensorLayout) (sizes : uint32x4) (n c h w : Z) : nat :=
  match layout with
  | Default => Z.to_nat (indexNCHW sizes n c h w)
  | NHWC => Z.to_nat (indexNHWC sizes n c h w)
  end.

(** The source indices in the order the NHWC loops visit them. *)
Definition order_NHWC (sizes : uint32x4) : list Z :=
  n ← seqZ 0 (at0 sizes); h ← seqZ 0 (at2 sizes); w ← seqZ 0 (at3 sizes);
  c ← seqZ 0 (at1 sizes); [indexNCHW sizes n c h w].

Section Reference.

Context {float : Type}.
Variable fmul : float -> float -> float.
Variable compress : float -> Z.

(** Some [float], returned by [weightAt] out of range only. *)
Variable d : float.

Definition weightAt (v : list float) (idx : Z) : float := nth (Z.to_nat idx) v d.

(** The half-precision value emitted for source index [idx]; its output
    channel is [idx / (C*H*W)]. *)
Definition emittedAt (useScaleShift : bool) (filterWeights scaleWeights : list float)
    (sizes : uint32x4) (idx : Z) : Z :=
  let n := idx / (at1 sizes * at2 sizes * at3 sizes) in
  compress (if useScaleShift
            then fmul (weightAt filterWeights idx) (weightAt scaleWeights n)
            else weightAt filterWeights idx).

(** The bias vector: one compressed shift per output channel, or nothing. *)
Definition biasAt (useScaleShift : bool) (shiftWeights : list float)
    (sizes : uint32x4) : list Z :=
  if useScaleShift
  then (fun n => compress (weightAt shiftWeights n)) <$> seqZ 0 (at0 sizes)
  else [].

End Reference.

(** ** The [Upscaler] object *)

(** The members of [class Upscaler] that own an object: the
    [std::unique_ptr] and [Microsoft::WRL::ComPtr] members, in declaration
    order; the two arrays have [c_numConvLayers] elements. *)
Inductive member : Type :=
| m_deviceResources
| m_SRVDescriptorHeap
| m_RTVDescriptorHeap
| m_tensorRenderRootSignature
| m_tensorRenderPipelineState
| m_videoTexture
| m_finalResultTexture
| m_vertexBuffer
| m_indexBuffer
| m_computePSO
| m_computeRootSignature
| m_dmlDevice
| m_dmlCommandRecorder
| m_dmlDescriptorHeap
| m_modelInput
| m_modelOutput
| m_modelConvFilterWeights (i : nat)
| m_modelConvBiasWeights (i : nat)
| m_modelPersistentResource
| m_modelTemporaryResource
| m_dmlGraph
| m_dmlBindingTable
| m_dmlOpInitializer.

#[global] Instance member_eq_dec : EqDecision member.
Proof. solve_decision. Defined.

Definition c_numConvLayers : nat := 7.
Definition c_backBufferCount : Z := 8.

(** What an owning member can hold. *)
Inductive object : Type :=
| DeviceResources (backBufferCount : Z)
| DescriptorHeap (type : D3D12_DESCRIPTOR_HEAP_TYPE)
    (flags : D3D12_DESCRIPTOR_HEAP_FLAGS) (count : Z)
| CommittedResource (r : ID3D12Resource)
| RootSignature
| PipelineState
| DMLDevice
| DMLCommandRecorder
| DMLCompiledOperator
| DMLBindingTable
| DMLOperatorInitializer.

(** Descriptor and root-parameter indices. *)
Definition e_descTexture : Z := 0.
Definition e_descModelInput : Z := 1.
Definition e_descModelOutput : Z := 2.
Definition e_descFinalResultTextureSrv : Z := 3.
Definition e_srvDescCount : Z := 4.
Definition e_descFinalResultTextureRtv : Z := 0.
Definition e_rtvDescCount : Z := 1.
Definition e_crpIdxCB : Z := 0.
Definition e_crpIdxSRV : Z := 1.
Definition e_crpIdxUAV : Z := 2.
Definition e_rrpIdxCB : Z := 0.
Definition e_rrpIdxSRV : Z := 1.

Record D3D12_VERTEX_BUFFER_VIEW : Type := {
  vbv_BufferLocation : Z; vbv_SizeInBytes : Z; vbv_StrideInBytes : Z }.

Record D3D12_INDEX_BUFFER_VIEW : Type := {
  ibv_BufferLocation : Z; ibv_SizeInBytes : Z; ibv_Format_R16_UINT : bool }.

(** [class Upscaler]: the owning members as a store from member to object
    ([None]: null), and the plain data members. *)
Record Upscaler : Type := {
  owned : member -> option object;
  m_VideoTextureHandle : HANDLE;
  m_finalResultTextureHandle : HANDLE;
  m_srcTextureHeight : Z;
  m_srcTextureWidth : Z;
  m_vertexBufferView : D3D12_VERTEX_BUFFER_VIEW;
  m_indexBufferView : D3D12_INDEX_BUFFER_VIEW;
  m_tensorLayout : TensorLayout;
}.

(** [member = value] for an owning member, and [member.Reset()]. *)
Definition assign (m : member) (o : option object) (this : Upscaler) : Upscaler :=
  {| owned := <[m := o]> (owned this);
     m_VideoTextureHandle := m_VideoTextureHandle this;
     m_finalResultTextureHandle := m_finalResultTextureHandle this;
     m_srcTextureHeight := m_srcTextureHeight this;
     m_srcTextureWidth := m_srcTextureWidth this;
     m_vertexBufferView := m_vertexBufferView this;
     m_indexBufferView := m_indexBufferView this;
     m_tensorLayout := m_tensorLayout this |}.

Definition Reset (m : member) (this : Upscaler) : Upscaler := assign m None this.

(** [Upscaler::Upscaler()]. [m_finalResultTextureHandle] is not in the
    initialiser list: it starts with whatever value [indeterminate] the storage
    holds. *)
Definition Upscaler_constructor (indeterminate : HANDLE) : Upscaler :=
  {| owned := <[m_deviceResources := Some (DeviceResources c_backBufferCount)]> (fun _ => None);
     m_VideoTextureHandle := 0;
     m_finalResultTextureHandle := indeterminate;
     m_srcTextureHeight := 0;
     m_srcTextureWidth := 0;
     m_vertexBufferView :=
       {| vbv_BufferLocation := 0; vbv_SizeInBytes := 0; vbv_StrideInBytes := 0 |};
     m_indexBufferView :=
       {| ibv_BufferLocation := 0; ibv_SizeInBytes := 0; ibv_Format_R16_UINT := false |};
     m_tensorLayout := Default |}.

(** [p->...] on an owning member: undefined when it is null. *)
Definition deref (this : Upscaler) (m : member) : outcome object :=
  match owned this m with
  | Some o => Done o
  | None => Undefined
  end.

(** *** Device loss *)

(** The [for] loop of [OnDeviceLost] over the [c_numConvLayers] weight slots. *)
Fixpoint reset_weights (count : nat) (i : nat) (this : Upscaler) : Upscaler :=
  match count with
  | O => this
  | S count' =>
      reset_weights count' (S i)
        (Reset (m_modelConvBiasWeights i) (Reset (m_modelConvFilterWeights i) this))
  end.

(** [Upscaler::OnDeviceLost]. *)
Definition OnDeviceLost (this : Upscaler) : Upscaler :=
  let this := Reset m_tensorRenderPipelineState this in
  let this := Reset m_tensorRenderRootSignature this in
  let this := Reset m_videoTexture this in
  let this := Reset m_finalResultTexture this in
  let this := Reset m_indexBuffer this in
  let this := Reset m_vertexBuffer this in
  let this := Reset m_SRVDescriptorHeap this in
  let this := Reset m_RTVDescriptorHeap this in
  let this := Reset m_computePSO this in
  let this := Reset m_computeRootSignature this in
  let this := Reset m_dmlDevice this in
  let this := Reset m_dmlCommandRecorder this in
  let this := Reset m_modelInput this in
  let this := Reset m_modelOutput this in
  let this := Reset m_dmlOpInitializer this in
  let this := Reset m_dmlGraph this in
  let this := Reset m_modelTemporaryResource this in
  let this := Reset m_modelPersistentResource this in
  let this := reset_weights c_numConvLayers 0 this in
  Reset m_dmlDescriptorHeap this.

(** The device-dependent objects the pipeline owns: textures, vertex and index
    buffers, descriptor heaps, pipeline states, root signatures, the DML device
    and command recorder, the model input and output buffers, the 7 filter and
    7 bias weight buffers, the persistent and temporary scratch buffers, the
    compiled graph, its binding table and the operator initializer. *)
Definition device_dependent : list member :=
  [m_videoTexture; m_finalResultTexture; m_vertexBuffer; m_indexBuffer;
   m_SRVDescriptorHeap; m_RTVDescriptorHeap; m_dmlDescriptorHeap;
   m_tensorRenderPipelineState; m_computePSO;
   m_tensorRenderRootSignature; m_computeRootSignature;
   m_dmlDevice; m_dmlCommandRecorder; m_modelInput; m_modelOutput]
  ++ (m_modelConvFilterWeights <$> seq 0 c_numConvLayers)
  ++ (m_modelConvBiasWeights <$> seq 0 c_numConvLayers)
  ++ [m_modelPersistentResource; m_modelTemporaryResource;
      m_dmlGraph; m_dmlBindingTable; m_dmlOpInitializer].

(** A pipeline in which every device-dependent member holds an object. *)
Definition all_built (this : Upscaler) : Prop :=
  forall m, m ∈ device_dependent -> is_Some (owned this m).

(** *** Destruction *)

(** What the teardown of an [Upscaler] does, in order. *)
Inductive Event : Type :=
| WaitForGpu                       (** [m_deviceResources->WaitForGpu()] *)
| ReleaseMember (m : member)       (** the destructor of an owning member *)
| OperatorDelete.                  (** the storage is given back *)

(** The owning members in declaration order. *)
Definition declared_members : list member :=
  [m_deviceResources; m_SRVDescriptorHeap; m_RTVDescriptorHeap;
   m_tensorRenderRootSignature; m_tensorRenderPipelineState;
   m_videoTexture; m_finalResultTexture; m_vertexBuffer; m_indexBuffer;
   m_computePSO; m_computeRootSignature; m_dmlDevice; m_dmlCommandRecorder;
   m_dmlDescriptorHeap; m_modelInput; m_modelOutput]
  ++ (m_modelConvFilterWeights <$> seq 0 c_numConvLayers)
  ++ (m_modelConvBiasWeights <$> seq 0 c_numConvLayers)
  ++ [m_modelPersistentResource; m_modelTemporaryResource;
      m_dmlGraph; m_dmlBindingTable; m_dmlOpInitializer].

(** [Upscaler::~Upscaler]: the body, then the members are destroyed in the
    reverse of their declaration order. *)
Definition Upscaler_destructor (this : Upscaler) : list Event :=
  match owned this m_deviceResources with
  | Some _ => [WaitForGpu]
  | None => []
  end
  ++ (ReleaseMember <$> reverse declared_members).

(** The static type of the operand of a [delete] expression. *)
Inductive operand_type : Type :=
| pointer_to_Upscaler
| pointer_to_void.

(** [delete p]. Through an [Upscaler*] the destructor runs and then the
    storage is deallocated. Through a [void*] there is no class type to
    destroy: the compiler (which warns that the behaviour is undefined) emits
    the deallocation only. *)
Definition delete_expression (t : operand_type) (p : Upscaler) : list Event :=
  match t with
  | pointer_to_Upscaler => Upscaler_destructor p ++ [OperatorDelete]
  | pointer_to_void => [OperatorDelete]
  end.

(** [DeleteUpscaler(void* pUPScaler)]: [delete pUPScaler;]. *)
Definition DeleteUpscaler (pUPScaler : Upscaler) : list Event :=
  delete_expression pointer_to_void pUPScaler.

(** [GetMaxBackBuffers]. *)
Definition GetMaxBackBuffers : Z := c_backBufferCount.

(** ** Building the resources *)

(** [sizeof(Vertex)] ([XMFLOAT4] and [XMFLOAT2]), [sizeof(s_vertexData)] (4
    vertices) and [sizeof(s_indexData)] (6 [uint16_t]). *)
Definition sizeof_Vertex : Z := 24.
Definition sizeof_s_vertexData : Z := 4 * sizeof_Vertex.
Definition sizeof_s_indexData : Z := 6 * 2.

Definition set_source_size (width height : Z) (this : Upscaler) : Upscaler :=
  {| owned := owned this;
     m_VideoTextureHandle := m_VideoTextureHandle this;
     m_finalResultTextureHandle := m_finalResultTextureHandle this;
     m_srcTextureHeight := height;
     m_srcTextureWidth := width;
     m_vertexBufferView := m_vertexBufferView this;
     m_indexBufferView := m_indexBufferView this;
     m_tensorLayout := m_tensorLayout this |}.

Definition set_vertexBufferView (v : D3D12_VERTEX_BUFFER_VIEW) (this : Upscaler) : Upscaler :=
  {| owned := owned this;
     m_VideoTextureHandle := m_VideoTextureHandle this;
     m_finalResultTextureHandle := m_finalResultTextureHandle this;
     m_srcTextureHeight := m_srcTextureHeight this;
     m_srcTextureWidth := m_srcTextureWidth this;
     m_vertexBufferView := v;
     m_indexBufferView := m_indexBufferView this;
     m_tensorLayout := m_tensorLayout this |}.

Definition set_indexBufferView (v : D3D12_INDEX_BUFFER_VIEW) (this : Upscaler) : Upscaler :=
  {| owned := owned this;
     m_VideoTextureHandle := m_VideoTextureHandle this;
     m_finalResultTextureHandle := m_finalResultTextureHandle this;
     m_srcTextureHeight := m_srcTextureHeight this;
     m_srcTextureWidth := m_srcTextureWidth this;
     m_vertexBufferView := m_vertexBufferView this;
     m_indexBufferView := v;
     m_tensorLayout := m_tensorLayout this |}.

Definition set_VideoTextureHandle (h : HANDLE) (this : Upscaler) : Upscaler :=
  {| owned := owned this;
     m_VideoTextureHandle := h;
     m_finalResultTextureHandle := m_finalResultTextureHandle this;
     m_srcTextureHeight := m_srcTextureHeight this;
     m_srcTextureWidth := m_srcTextureWidth this;
     m_vertexBufferView := m_vertexBufferView this;
     m_indexBufferView := m_indexBufferView this;
     m_tensorLayout := m_tensorLayout this |}.

Section Pipeline.

(** [m_deviceResources->GetD3DDevice()]. *)
Variable device : ID3D12Device.

(** [m_deviceResources->CreateDeviceResources()], which throws when it fails. *)
Variable CreateDeviceResources : outcome unit.

(** [Upscaler::CreateDirectMLResources] and
    [Upscaler::InitializeDirectMLResources] are declared in the class; their
    bodies are not part of the sources. *)
Variable CreateDirectMLResources : Upscaler -> outcome Upscaler.
Variable InitializeDirectMLResources : Upscaler -> outcome Upscaler.

(** [std::make_unique<DescriptorHeap>(device, type, flags, count)]. *)
Definition make_DescriptorHeap (type : D3D12_DESCRIPTOR_HEAP_TYPE)
    (flags : D3D12_DESCRIPTOR_HEAP_FLAGS) (count : Z) : outcome object :=
  _ ← ThrowIfFailed (CreateDescriptorHeap device type flags count);
  mret (DescriptorHeap type flags count).

(** [Upscaler::CreateTextureResources]. *)
Definition CreateTextureResources (this : Upscaler) : outcome Upscaler :=
  (* vertex buffer for the full-screen quad *)
  vertexBuffer ←
    ThrowIfFailed
      (CreateCommittedResource device D3D12_HEAP_TYPE_UPLOAD D3D12_HEAP_FLAG_NONE
         (Buffer sizeof_s_vertexData D3D12_RESOURCE_FLAG_NONE)
         D3D12_RESOURCE_STATE_GENERIC_READ);
  let this := assign m_vertexBuffer (Some (CommittedResource vertexBuffer)) this in
  _ ← ThrowIfFailed (Map device vertexBuffer);
  let this :=
    set_vertexBufferView
      {| vbv_BufferLocation := GetGPUVirtualAddress device vertexBuffer;
         vbv_StrideInBytes := sizeof_Vertex;
         vbv_SizeInBytes := sizeof_s_vertexData |} this in
  (* index buffer *)
  indexBuffer ←
    ThrowIfFailed
      (CreateCommittedResource device D3D12_HEAP_TYPE_UPLOAD D3D12_HEAP_FLAG_NONE
         (Buffer sizeof_s_indexData D3D12_RESOURCE_FLAG_NONE)
         D3D12_RESOURCE_STATE_GENERIC_READ);
  let this := assign m_indexBuffer (Some (CommittedResource indexBuffer)) this in
  _ ← ThrowIfFailed (Map device indexBuffer);
  let this :=
    set_indexBufferView
      {| ibv_BufferLocation := GetGPUVirtualAddress device indexBuffer;
         ibv_Format_R16_UINT := true;
         ibv_SizeInBytes := sizeof_s_indexData |} this in
  (* texture that receives the video frames *)
  let desc :=
    Texture2D (m_srcTextureWidth this) (m_srcTextureHeight this)
      D3D12_RESOURCE_FLAG_ALLOW_SIMULTANEOUS_ACCESS in
  videoTexture ←
    ThrowIfFailed
      (CreateCommittedResource device D3D12_HEAP_TYPE_DEFAULT D3D12_HEAP_FLAG_SHARED
         desc D3D12_RESOURCE_STATE_NON_PIXEL_SHADER_RESOURCE);
  let this := assign m_videoTexture (Some (CommittedResource videoTexture)) this in
  _ ← deref this m_SRVDescriptorHeap;
  handle ← ThrowIfFailed (CreateSharedHandle device videoTexture);
  mret (set_VideoTextureHandle handle this).

(** [Upscaler::CreateDeviceDependentResources]. *)
Definition CreateDeviceDependentResources (this : Upscaler) : outcome Upscaler :=
  _ ← deref this m_deviceResources;
  srv ← make_DescriptorHeap D3D12_DESCRIPTOR_HEAP_TYPE_CBV_SRV_UAV
          D3D12_DESCRIPTOR_HEAP_FLAG_SHADER_VISIBLE e_srvDescCount;
  let this := assign m_SRVDescriptorHeap (Some srv) this in
  rtv ← make_DescriptorHeap D3D12_DESCRIPTOR_HEAP_TYPE_RTV
          D3D12_DESCRIPTOR_HEAP_FLAG_NONE e_rtvDescCount;
  let this := assign m_RTVDescriptorHeap (Some rtv) this in
  this ← CreateTextureResources this;
  this ← CreateDirectMLResources this;
  InitializeDirectMLResources this.

(** [Upscaler::OnDeviceRestored]. *)
Definition OnDeviceRestored (this : Upscaler) : outcome Upscaler :=
  CreateDeviceDependentResources this.

(** [Upscaler::Initialize]; [width] and [height] are [int]s, stored in
    [uint32_t] members. The result carries the values written through
    [pSrcSharedHandle] and [pDstSharedHandle]. *)
Definition Initialize (this : Upscaler) (width height : Z)
    : outcome (Upscaler * HANDLE * HANDLE) :=
  let this := set_source_size (wrap32 width) (wrap32 height) this in
  _ ← deref this m_deviceResources;
  _ ← CreateDeviceResources;
  this ← CreateDeviceDependentResources this;
  mret (this, m_VideoTextureHandle this, m_finalResultTextureHandle this).

(** [CreateUpscaler]: a new [Upscaler], initialised. *)
Definition CreateUpscaler (indeterminate : HANDLE) (src_width src_height : Z)
    : outcome (Upscaler * HANDLE * HANDLE) :=
  let upscaler := Upscaler_constructor indeterminate in
  Initialize upscaler src_width src_height.

End Pipeline.

(** ** Recording a frame *)

(** [struct ImageLayoutCB]. *)
Record ImageLayoutCB : Type := { Height : Z; Width : Z; UseNhwc : bool }.

(** [D3D12_VIEWPORT]; its [FLOAT] members always hold integers here, and are
    given by their value. *)
Record D3D12_VIEWPORT : Type := {
  TopLeftX : Z; TopLeftY : Z; vp_Width : Z; vp_Height : Z; MinDepth : Z; MaxDepth : Z }.

(** [D3D12_RECT], four [LONG]s. *)
Record D3D12_RECT : Type := {
  rect_left : Z; rect_top : Z; rect_right : Z; rect_bottom : Z }.

Inductive D3D12_RESOURCE_BARRIER : Type :=
| Transition (resource : option object) (before after : D3D12_RESOURCE_STATES)
| UAV.

(** The calls recorded on the command list of a frame, and the two calls on
    the device resources around them. *)
Inductive Command : Type :=
| Prepare
| SetDescriptorHeaps (heaps : list object)
| SetComputeRootSignature (signature : option object)
| SetComputeRoot32BitConstants (index count : Z) (data : ImageLayoutCB) (offset : Z)
| SetComputeRootDescriptorTable (index descriptor : Z)
| SetPipelineState (state : option object)
| Dispatch (x y z : Z)
| ResourceBarrier (barriers : list D3D12_RESOURCE_BARRIER)
| RecordDispatch (graph bindingTable : option object)
| OMSetRenderTargets (descriptor : Z)
| ClearRenderTargetView (descriptor : Z)
| RSSetViewports (viewport : D3D12_VIEWPORT)
| RSSetScissorRects (rect : D3D12_RECT)
| SetGraphicsRootSignature (signature : option object)
| SetGraphicsRoot32BitConstants (index count : Z) (data : ImageLayoutCB) (offset : Z)
| SetGraphicsRootDescriptorTable (index descriptor : Z)
| IASetPrimitiveTopology_TRIANGLELIST
| IASetVertexBuffers (view : D3D12_VERTEX_BUFFER_VIEW)
| IASetIndexBuffer (view : D3D12_INDEX_BUFFER_VIEW)
| DrawIndexedInstanced (indexCount instanceCount startIndex baseVertex startInstance : Z)
| SubmitWork (inputWaitFence : HANDLE) (inputWaitFenceValue : Z).

(** [DivUp]: divide and round up, on [UINT]s. *)
Definition DivUp (a b : Z) : Z := div32 (a +32 b -32 1) b.

(** [static_cast<FLOAT>(z)] of an integer: the nearest number with a 24-bit
    significand, ties to even. The result is an integer. *)
Definition FLOAT_of_LONG (z : Z) : Z :=
  let a := Z.abs z in
  let e := Z.log2 a - 23 in
  if e <=? 0 then z
  else
    let q := a / 2 ^ e in
    let r := a mod 2 ^ e in
    let half := 2 ^ (e - 1) in
    let q' :=
      if r <? half then q
      else if half <? r then q + 1
      else if Z.even q then q else q + 1 in
    Z.sgn z * (q' * 2 ^ e).

Definition is_NHWC (layout : TensorLayout) : bool :=
  match layout with NHWC => true | Default => false end.

(** [Upscaler::Render]: the calls it makes, in order. The fence it hands back
    comes from [SubmitWork], which belongs to the device resources. *)
Definition Render (this : Upscaler) (inputWaitFence : HANDLE) (inputWaitFenceValue : Z)
    : outcome (list Command) :=
  _ ← deref this m_deviceResources;
  (* image to tensor *)
  srvHeap ← deref this m_SRVDescriptorHeap;
  let imageLayoutCB :=
    {| Height := m_srcTextureHeight this;
       Width := m_srcTextureWidth this;
       UseNhwc := is_NHWC (m_tensorLayout this) |} in
  let imageToTensor :=
    [SetDescriptorHeaps [srvHeap];
     SetComputeRootSignature (owned this m_computeRootSignature);
     SetComputeRoot32BitConstants e_crpIdxCB 3 imageLayoutCB 0;
     SetComputeRootDescriptorTable e_crpIdxSRV e_descTexture;
     SetComputeRootDescriptorTable e_crpIdxUAV e_descModelInput;
     SetPipelineState (owned this m_computePSO);
     Dispatch (DivUp (m_srcTextureWidth this) 32) (DivUp (m_srcTextureHeight this) 16) 1;
     ResourceBarrier [UAV]] in
  (* the DirectML graph *)
  dmlHeap ← deref this m_dmlDescriptorHeap;
  _ ← deref this m_dmlCommandRecorder;
  let graph :=
    [SetDescriptorHeaps [dmlHeap];
     RecordDispatch (owned this m_dmlGraph) (owned this m_dmlBindingTable)] in
  (* tensor to image *)
  _ ← deref this m_RTVDescriptorHeap;
  let barriers :=
    [Transition (owned this m_finalResultTexture)
       D3D12_RESOURCE_STATE_PIXEL_SHADER_RESOURCE D3D12_RESOURCE_STATE_RENDER_TARGET;
     Transition (owned this m_modelOutput)
       D3D12_RESOURCE_STATE_UNORDERED_ACCESS D3D12_RESOURCE_STATE_PIXEL_SHADER_RESOURCE;
     UAV] in
  let bottom := to_int32 (m_srcTextureHeight this *32 2) in
  let right := to_int32 (m_srcTextureWidth this *32 2) in
  let texScissor :=
    {| rect_left := 0; rect_top := 0; rect_right := right; rect_bottom := bottom |} in
  let texViewport :=
    {| TopLeftX := 0; TopLeftY := 0;
       vp_Width := FLOAT_of_LONG right; vp_Height := FLOAT_of_LONG bottom;
       MinDepth := 0; MaxDepth := 0 |} in
  let imageLayoutCB :=
    {| Height := m_srcTextureHeight this *32 2;
       Width := m_srcTextureWidth this *32 2;
       UseNhwc := is_NHWC (m_tensorLayout this) |} in
  let tensorToImage :=
    [ResourceBarrier barriers;
     OMSetRenderTargets e_descFinalResultTextureRtv;
     ClearRenderTargetView e_descFinalResultTextureRtv;
     RSSetViewports texViewport;
     RSSetScissorRects texScissor;
     SetGraphicsRootSignature (owned this m_tensorRenderRootSignature);
     SetPipelineState (owned this m_tensorRenderPipelineState);
     SetDescriptorHeaps [srvHeap];
     SetGraphicsRoot32BitConstants e_rrpIdxCB 3 imageLayoutCB 0;
     SetGraphicsRootDescriptorTable e_rrpIdxSRV e_descModelOutput;
     IASetPrimitiveTopology_TRIANGLELIST;
     IASetVertexBuffers (m_vertexBufferView this);
     IASetIndexBuffer (m_indexBufferView this);
     DrawIndexedInstanced 6 1 0 0 0] in
  mret ([Prepare] ++ imageToTensor ++ graph ++ tensorToImage
        ++ [SubmitWork inputWaitFence inputWaitFenceValue]).

(** [RenderUpscale]: the handle is cast back to [Upscaler*]. *)
Definition RenderUpscale (pUPScaler : Upscaler) (inputWaitFence : HANDLE)
    (inputWaitFenceValue : Z) : outcome (list Command) :=
  Render pUPScaler inputWaitFence inputWaitFenceValue.

(** The tensor-to-image pass of a recorded frame: what it sets as viewport,
    scissor rectangle and constant block. *)
Definition viewports (commands : list Command) : list D3D12_VIEWPORT :=
  omap (fun c => match c with RSSetViewports v => Some v | _ => None end) commands.

Definition scissors (commands : list Command) : list D3D12_RECT :=
  omap (fun c => match c with RSSetScissorRects r => Some r | _ => None end) commands.

Definition graphics_constants (commands : list Command) : list (Z * Z * ImageLayoutCB * Z) :=
  omap (fun c => match c with
                 | SetGraphicsRoot32BitConstants i n data o => Some (i, n, data, o)
                 | _ => None
                 end) commands.

(** The compute grids a recorded frame dispatches. *)
Definition dispatches (commands : list Command) : list (Z * Z * Z) :=
  omap (fun c => match c with Dispatch x y z => Some (x, y, z) | _ => None end) commands.

(** ** Predicates of the statements *)

(** An outcome that is neither an exception nor a failed assertion. *)
Definition benign {A : Type} (o : outcome A) : Prop :=
  match o with
  | Done _ | Undefined => True
  | Thrown | AssertionFailed => False
  end.

(** The precondition of [CreateWeightTensors] on its optional names: the scale
    and shift names are both null or both non-null. *)
Definition names_paired (scaleLayerName shiftLayerName : cstr) : Prop :=
  is_null scaleLayerName = is_null shiftLayerName.

(** [k] is the ceiling of [a / b]. *)
Definition ceiling_of (a b k : Z) : Prop := b * (k - 1) < a <= b * k.

(** ** Sample platform *)

(** The device creates no 2D texture that is empty or wider or higher than
    [limit]. *)
Definition respects_texture_limit (limit : Z) (device : ID3D12Device) : Prop :=
  forall heap heapFlags width height flags state r,
    CreateCommittedResource device heap heapFlags (Texture2D width height flags) state = Some r ->
    1 <= width <= limit /\ 1 <= height <= limit.

(** The limit of Direct3D 12 on the width and height of a 2D texture. *)
Definition D3D12_REQ_TEXTURE2D_U_OR_V_DIMENSION : Z := 16384.

(** A device that grants every request within that limit. *)
Definition sample_device : ID3D12Device :=
  {| CreateCommittedResource := fun heap heapFlags desc _ =>
       match desc with
       | Buffer _ _ => Some (Resource heap heapFlags desc)
       | Texture2D width height _ =>
           if (1 <=? width) && (width <=? D3D12_REQ_TEXTURE2D_U_OR_V_DIMENSION)
              && (1 <=? height) && (height <=? D3D12_REQ_TEXTURE2D_U_OR_V_DIMENSION)
           then Some (Resource heap heapFlags desc) else None
       end;
     Map := fun _ => Some tt;
     GetGPUVirtualAddress := fun _ => 4096;
     CreateSharedHandle := fun _ => Some 1;
     CreateDescriptorHeap := fun _ _ _ => Some tt |}.

(** What is assumed of a function whose body is not in the sources: it leaves
    the source size and the two descriptor heaps of the frame passes as they
    are. *)
Definition keeps_frame_state (f : Upscaler -> outcome Upscaler) : Prop :=
  forall this this', f this = Done this' ->
    m_srcTextureWidth this' = m_srcTextureWidth this /\
    m_srcTextureHeight this' = m_srcTextureHeight this /\
    owned this' m_deviceResources = owned this m_deviceResources /\
    owned this' m_SRVDescriptorHeap = owned this m_SRVDescriptorHeap /\
    owned this' m_RTVDescriptorHeap = owned this m_RTVDescriptorHeap.

(** And the two of them build the DirectML objects [Render] goes through. *)
Definition builds_DirectML (create initialize : Upscaler -> outcome Upscaler) : Prop :=
  forall this this1 this2, create this = Done this1 -> initialize this1 = Done this2 ->
    is_Some (owned this2 m_dmlDescriptorHeap) /\ is_Some (owned this2 m_dmlCommandRecorder).

(** Stand-ins for the two functions, for examples: they store the DirectML
    objects and touch nothing else. *)
Definition sample_CreateDirectMLResources (this : Upscaler) : outcome Upscaler :=
  mret (assign m_dmlGraph (Some DMLCompiledOperator)
         (assign m_dmlCommandRecorder (Some DMLCommandRecorder)
           (assign m_dmlDevice (Some DMLDevice) this))).

Definition sample_InitializeDirectMLResources (this : Upscaler) : outcome Upscaler :=
  mret (assign m_dmlBindingTable (Some DMLBindingTable)
         (assign m_dmlOpInitializer (Some DMLOperatorInitializer)
           (assign m_dmlDescriptorHeap
              (Some (DescriptorHeap D3D12_DESCRIPTOR_HEAP_TYPE_CBV_SRV_UAV
                       D3D12_DESCRIPTOR_HEAP_FLAG_SHADER_VISIBLE 64)) this))).

(** A pipeline created on the sample platform for a 64 x 64 source. *)
Definition sample_pipeline : outcome (Upscaler * HANDLE * HANDLE) :=
  CreateUpscaler sample_device (Done tt)
    sample_CreateDirectMLResources sample_InitializeDirectMLResources 0 64 64.

(** An object of the kind each owning member holds, for a 64 x 64 source. *)
Definition built_object (m : member) : object :=
  match m with
  | m_deviceResources => DeviceResources c_backBufferCount
  | m_SRVDescriptorHeap =>
      DescriptorHeap D3D12_DESCRIPTOR_HEAP_TYPE_CBV_SRV_UAV
        D3D12_DESCRIPTOR_HEAP_FLAG_SHADER_VISIBLE e_srvDescCount
  | m_RTVDescriptorHeap =>
      DescriptorHeap D3D12_DESCRIPTOR_HEAP_TYPE_RTV
        D3D12_DESCRIPTOR_HEAP_FLAG_NONE e_rtvDescCount
  | m_dmlDescriptorHeap =>
      DescriptorHeap D3D12_DESCRIPTOR_HEAP_TYPE_CBV_SRV_UAV
        D3D12_DESCRIPTOR_HEAP_FLAG_SHADER_VISIBLE 64
  | m_tensorRenderRootSignature | m_computeRootSignature => RootSignature
  | m_tensorRenderPipelineState | m_computePSO => PipelineState
  | m_videoTexture =>
      CommittedResource
        (Resource D3D12_HEAP_TYPE_DEFAULT D3D12_HEAP_FLAG_SHARED
           (Texture2D 64 64 D3D12_RESOURCE_FLAG_ALLOW_SIMULTANEOUS_ACCESS))
  | m_finalResultTexture =>
      CommittedResource
        (Resource D3D12_HEAP_TYPE_DEFAULT D3D12_HEAP_FLAG_SHARED
           (Texture2D 128 128 D3D12_RESOURCE_FLAG_ALLOW_SIMULTANEOUS_ACCESS))
  | m_vertexBuffer =>
      CommittedResource
        (Resource D3D12_HEAP_TYPE_UPLOAD D3D12_HEAP_FLAG_NONE
           (Buffer sizeof_s_vertexData D3D12_RESOURCE_FLAG_NONE))
  | m_indexBuffer =>
      CommittedResource
        (Resource D3D12_HEAP_TYPE_UPLOAD D3D12_HEAP_FLAG_NONE
           (Buffer sizeof_s_indexData D3D12_RESOURCE_FLAG_NONE))
  | m_dmlDevice => DMLDevice
  | m_dmlCommandRecorder => DMLCommandRecorder
  | m_modelInput | m_modelOutput | m_modelConvFilterWeights _ | m_modelConvBiasWeights _
  | m_modelPersistentResource | m_modelTemporaryResource =>
      CommittedResource
        (Resource D3D12_HEAP_TYPE_DEFAULT D3D12_HEAP_FLAG_NONE
           (Buffer 4 D3D12_RESOURCE_FLAG_ALLOW_UNORDERED_ACCESS))
  | m_dmlGraph => DMLCompiledOperator
  | m_dmlBindingTable => DMLBindingTable
  | m_dmlOpInitializer => DMLOperatorInitializer
  end.

(** A pipeline in which every owning member holds an object. *)
Definition fully_built : Upscaler :=
  {| owned := fun m => Some (built_object m);
     m_VideoTextureHandle := 1;
     m_finalResultTextureHandle := 2;
     m_srcTextureHeight := 64;
     m_srcTextureWidth := 64;
     m_vertexBufferView :=
       {| vbv_BufferLocation := 4096; vbv_SizeInBytes := sizeof_s_vertexData;
          vbv_StrideInBytes := sizeof_Vertex |};
     m_indexBufferView :=
       {| ibv_BufferLocation := 4096; ibv_SizeInBytes := sizeof_s_indexData;
          ibv_Format_R16_UINT := true |};
     m_tensorLayout := NHWC |}.

(** A filter of 2^32 weights, as many as the shape (1, 65536, 65536, 1) has
    elements. *)
Definition filter_65536x65536 : list Z := replicate (Z.to_nat (2 ^ 32)) 10.

(** ** Further notions of the statements *)

(** The offset, in elements, that a set of strides gives the element of
    coordinate (n, c, h, w) of a tensor: each coordinate times the stride of
    its dimension, summed. *)
Definition tensor_offset (strides : uint32x4) (n c h w : Z) : Z :=
  n * at0 strides + c * at1 strides + h * at2 strides + w * at3 strides.

(** The weight vectors hold every value the conversion loops read for a
    shape: N*C*H*W filter weights and, with scale and shift, N of each. *)
Definition weights_suffice {float : Type} (useScaleShift : bool)
    (filterWeights scaleWeights shiftWeights : list float) (sizes : uint32x4) : Prop :=
  (Z.to_nat (element_total sizes) <= length filterWeights)%nat /\
  (useScaleShift = true ->
   (Z.to_nat (at0 sizes) <= length scaleWeights)%nat /\
   (Z.to_nat (at0 sizes) <= length shiftWeights)%nat).

(** The weight map [after] holds what [before] holds, and besides at most
    empty vectors under some of the [names]. *)
Definition grown_by {float : Type} (names : list cstr)
    (before after : gmap string (list float)) : Prop :=
  (forall key v, before !! key = Some v -> after !! key = Some v) /\
  (forall key v, after !! key = Some v ->
     before !! key = Some v \/ (before !! key = None /\ v = [] /\ Some key ∈ names)).


(** The descriptor indices a recorded frame takes from the SRV heap
    ([m_SRVDescriptorHeap->GetGpuHandle]) and from the RTV heap
    ([m_RTVDescriptorHeap->GetCpuHandle]). *)
Definition srv_descriptors (commands : list Command) : list Z :=
  omap (fun c => match c with
                 | SetComputeRootDescriptorTable _ descriptor
                 | SetGraphicsRootDescriptorTable _ descriptor => Some descriptor
                 | _ => None
                 end) commands.

Definition rtv_descriptors (commands : list Command) : list Z :=
  omap (fun c => match c with
                 | OMSetRenderTargets descriptor
                 | ClearRenderTargetView descriptor => Some descriptor
                 | _ => None
                 end) commands.

(** * Properties *)

(** ** Machine arithmetic *)

Lemma wrap32_small z : 0 <= z < 2 ^ 32 -> wrap32 z = z.
Proof. intros Hz. unfold wrap32. apply Z.mod_small. exact Hz. Qed.

Lemma wrap32_range z : 0 <= wrap32 z < 2 ^ 32.
Proof. unfold wrap32. apply Z.mod_pos_bound. lia. Qed.

Lemma wrap32_idemp z : wrap32 (wrap32 z) = wrap32 z.
Proof. apply wrap32_small, wrap32_range. Qed.

Lemma mul32_wrap_l a b : wrap32 a *32 b = wrap32 (a * b).
Proof. unfold mul32, wrap32. apply Zmult_mod_idemp_l. Qed.

Lemma mul32_wrap_r a b : a *32 wrap32 b = wrap32 (a * b).
Proof. unfold mul32, wrap32. apply Zmult_mod_idemp_r. Qed.

Lemma add32_wrap_l a b : wrap32 a +32 b = wrap32 (a + b).
Proof. unfold add32, wrap32. apply Zplus_mod_idemp_l. Qed.

Lemma add32_wrap_r a b : a +32 wrap32 b = wrap32 (a + b).
Proof. unfold add32, wrap32. apply Zplus_mod_idemp_r. Qed.

Lemma mul32_assoc3 a b c : a *32 b *32 c = wrap32 (a * b * c).
Proof. unfold mul32 at 2. apply mul32_wrap_l. Qed.

Lemma wrap64_small z : 0 <= z < 2 ^ 64 -> wrap64 z = z.
Proof. intros Hz. unfold wrap64. apply Z.mod_small. exact Hz. Qed.

(** Clearing the two low bits of a 64-bit value rounds it down to a multiple
    of four. *)
Lemma land_not3 x : 0 <= x < 2 ^ 64 -> Z.land x (wrap64 (Z.lnot 3)) = 4 * (x / 4).
Proof.
  intros Hx.
  replace (wrap64 (Z.lnot 3)) with (Z.shiftl (Z.ones 62) 2) by reflexivity.
  replace (4 * (x / 4)) with (Z.shiftl (Z.shiftr x 2) 2)
    by (rewrite Z.shiftl_mul_pow2, Z.shiftr_div_pow2 by lia; change (2 ^ 2) with 4; lia).
  apply Z.bits_inj'. intros i Hi.
  rewrite Z.land_spec.
  destruct (Z.ltb_spec i 2) as [Hlt | Hge].
  - rewrite !Z.shiftl_spec_low by lia. apply andb_false_r.
  - rewrite !Z.shiftl_spec by lia. rewrite Z.shiftr_spec by lia.
    replace (i - 2 + 2) with i by lia.
    destruct (Z.ltb_spec i 64) as [Hlt64 | Hge64].
    + rewrite Z.ones_spec_low by lia. apply andb_true_r.
    + rewrite Z.ones_spec_high by lia. rewrite andb_false_r.
      symmetry. destruct (Z.eq_dec x 0) as [-> | Hx0]; [apply Z.bits_0 |].
      apply Z.bits_above_log2; [lia |].
      assert (Z.log2 x < 64) by (apply Z.log2_lt_pow2; lia). lia.
Qed.

(** ** Strides (C2) *)

Section Strides.

Variables N C H W : Z.

Let shape := U4 N C H W.

Lemma GetStrides_Default_wrapped :
  GetStrides shape Default = U4 (wrap32 (C * H * W)) (wrap32 (H * W)) W 1.
Proof. unfold GetStrides, shape; cbn. rewrite mul32_assoc3. reflexivity. Qed.

Lemma GetStrides_NHWC_wrapped :
  GetStrides shape NHWC = U4 (wrap32 (C * H * W)) 1 (wrap32 (C * W)) C.
Proof. unfold GetStrides, shape; cbn. rewrite mul32_assoc3. reflexivity. Qed.

Lemma inner_products_fit :
  positive_dims shape -> C * H * W < 2 ^ 32 ->
  0 <= C * H * W < 2 ^ 32 /\ 0 <= H * W < 2 ^ 32 /\ 0 <= C * W < 2 ^ 32.
Proof. unfold positive_dims, shape; cbn. intros (_ & HC & HH & HW) Hfit. nia. Qed.

End Strides.

(** C2 (as amended). [GetStrides] is a total function of (shape, layout); the
    strides it returns are (C*H*W, H*W, W, 1) under the Default layout and
    (C*H*W, 1, C*W, C) under the NHWC layout, each product reduced modulo 2^32
    as the [uint32_t] multiplication does; they are the exact products for every
    shape of positive sizes whose C*H*W fits in 32 bits. *)
Theorem GetStrides_layouts (N C H W : Z) :
  GetStrides (U4 N C H W) Default = U4 (wrap32 (C * H * W)) (wrap32 (H * W)) W 1 /\
  GetStrides (U4 N C H W) NHWC = U4 (wrap32 (C * H * W)) 1 (wrap32 (C * W)) C /\
  (positive_dims (U4 N C H W) -> C * H * W < 2 ^ 32 ->
   GetStrides (U4 N C H W) Default = U4 (C * H * W) (H * W) W 1 /\
   GetStrides (U4 N C H W) NHWC = U4 (C * H * W) 1 (C * W) C).
Proof.
  split; [apply GetStrides_Default_wrapped |].
  split; [apply GetStrides_NHWC_wrapped |].
  intros Hpos Hfit.
  destruct (inner_products_fit N C H W Hpos Hfit) as (H1 & H2 & H3).
  rewrite GetStrides_Default_wrapped, GetStrides_NHWC_wrapped.
  rewrite !wrap32_small by assumption. split; reflexivity.
Qed.

Lemma GetStrides_layouts_witness :
  positive_dims (U4 32 1 5 5) /\
  GetStrides (U4 32 1 5 5) Default = U4 25 25 5 1 /\
  GetStrides (U4 32 1 5 5) NHWC = U4 25 1 5 1.
Proof.
  split; [unfold positive_dims; cbn; lia |].
  apply (GetStrides_layouts 32 1 5 5); [unfold positive_dims; cbn; lia | lia].
Defined.

(** At the shape (1, 65536, 65536, 1) the product C*H*W is 2^32: the stride the
    code stores is 0, not C*H*W. *)
Lemma GetStrides_exact_products_fail :
  positive_dims (U4 1 65536 65536 1) /\ all_uint32 (U4 1 65536 65536 1) /\
  GetStrides (U4 1 65536 65536 1) Default
    <> U4 (65536 * 65536 * 1) (65536 * 1) 1 1 /\
  at0 (GetStrides (U4 1 65536 65536 1) Default) = 0.
Proof.
  repeat split; try (unfold is_uint32; cbn; lia); try (cbn; lia).
  intros Heq. apply (f_equal at0) in Heq. vm_compute in Heq. discriminate Heq.
Qed.

(** ** Buffer sizes (C8) *)

Lemma wrap32_add_inner_r a b : wrap32 (a + wrap32 b) = wrap32 (a + b).
Proof. apply (add32_wrap_r a b). Qed.

Lemma wrap32_sum4 a b c d :
  0 +32 wrap32 a +32 wrap32 b +32 wrap32 c +32 wrap32 d = wrap32 (a + b + c + d).
Proof.
  rewrite (add32_wrap_r 0 a), Z.add_0_l.
  rewrite (add32_wrap_l a), wrap32_add_inner_r.
  rewrite (add32_wrap_l (a + b)), wrap32_add_inner_r.
  rewrite (add32_wrap_l (a + b + c)), wrap32_add_inner_r.
  reflexivity.
Qed.

Lemma wrap32_mul_inner_r a b : wrap32 (a * wrap32 b) = wrap32 (a * b).
Proof. apply (mul32_wrap_r a b). Qed.

Lemma stride_term s t : (s -32 1) *32 t = wrap32 ((s - 1) * t).
Proof. unfold sub32. apply mul32_wrap_l. Qed.

(** Whatever the layout, and even when products wrap, the last linear index is
    the element total minus one, modulo 2^32. *)
Lemma indexOfLastElement_GetStrides sizes layout :
  indexOfLastElement sizes (GetStrides sizes layout) = wrap32 (element_total sizes - 1).
Proof.
  destruct sizes as [N C H W]. unfold indexOfLastElement, element_total.
  destruct layout; cbn [GetStrides at0 at1 at2 at3];
    rewrite !stride_term, ?mul32_assoc3; unfold mul32;
    rewrite ?wrap32_mul_inner_r, wrap32_sum4; f_equal; ring.
Qed.

Lemma element_total_pos sizes : positive_dims sizes -> 0 < element_total sizes.
Proof.
  destruct sizes as [N C H W]. unfold positive_dims, element_total; cbn.
  intros (HN & HC & HH & HW). repeat apply Z.mul_pos_pos; assumption.
Qed.

Lemma element_total_mono s' s :
  positive_dims s' -> dims_le s' s -> element_total s' <= element_total s.
Proof.
  destruct s' as [N' C' H' W'], s as [N C H W].
  unfold positive_dims, dims_le, element_total; cbn.
  intros (HN & HC & HH & HW) (LN & LC & LH & LW).
  repeat apply Z.mul_le_mono_nonneg; try lia; repeat apply Z.mul_nonneg_nonneg; lia.
Qed.

Lemma impliedElementCount_fit sizes layout :
  positive_dims sizes -> element_total sizes < 2 ^ 32 ->
  impliedElementCount sizes (GetStrides sizes layout) = element_total sizes.
Proof.
  intros Hpos Hfit. pose proof (element_total_pos sizes Hpos) as Htot.
  unfold impliedElementCount. rewrite indexOfLastElement_GetStrides.
  rewrite wrap32_small by lia. lia.
Qed.

Lemma indexOfLastElement_range sizes strides :
  0 <= indexOfLastElement sizes strides < 2 ^ 32.
Proof. unfold indexOfLastElement. exact (wrap32_range _). Qed.

Lemma DMLCalcBufferTensorSize_count dataType sizes strides :
  DMLCalcBufferTensorSize dataType sizes strides =
  4 * ((impliedElementCount sizes strides * elementSizeInBytes dataType + 3) / 4).
Proof.
  unfold DMLCalcBufferTensorSize.
  assert (0 <= impliedElementCount sizes strides <= 2 ^ 32) as Hc.
  { pose proof (indexOfLastElement_range sizes strides).
    unfold impliedElementCount. lia. }
  assert (1 <= elementSizeInBytes dataType <= 4) as He by (destruct dataType; cbn; lia).
  cbv zeta. rewrite (wrap64_small (_ * _)) by nia.
  rewrite (wrap64_small (_ + 3)) by nia.
  apply land_not3. nia.
Qed.

Lemma weightBufferSize_fit layout sizes :
  positive_dims sizes -> element_total sizes < 2 ^ 32 ->
  weightBufferSize layout sizes = 4 * ((element_total sizes * 2 + 3) / 4).
Proof.
  intros Hpos Hfit. unfold weightBufferSize. cbv zeta.
  rewrite DMLCalcBufferTensorSize_count, impliedElementCount_fit by assumption.
  reflexivity.
Qed.

(** The two layouts ask for the same number of bytes, for every shape. *)
Lemma weightBufferSize_layout_independent sizes :
  weightBufferSize Default sizes = weightBufferSize NHWC sizes.
Proof.
  unfold weightBufferSize. cbv zeta. rewrite !DMLCalcBufferTensorSize_count.
  unfold impliedElementCount. rewrite !indexOfLastElement_GetStrides. reflexivity.
Qed.

(** C8 (as amended). For every shape (N, C, H, W) of positive dimensions whose
    element total N*C*H*W fits in 32 bits, the maximum linear index plus one is
    N*C*H*W under both stride sets, the Default and NHWC layouts give the same
    buffer size, and the buffer size does not decrease when any dimension
    grows (within such shapes). *)
Theorem buffer_size_layouts_monotone (sizes : uint32x4) :
  positive_dims sizes -> element_total sizes < 2 ^ 32 ->
  (forall layout,
     impliedElementCount sizes (GetStrides sizes layout) = element_total sizes) /\
  weightBufferSize Default sizes = weightBufferSize NHWC sizes /\
  (forall layout smaller,
     positive_dims smaller -> dims_le smaller sizes ->
     weightBufferSize layout smaller <= weightBufferSize layout sizes).
Proof.
  intros Hpos Hfit. split; [| split].
  - intros layout. apply impliedElementCount_fit; assumption.
  - apply weightBufferSize_layout_independent.
  - intros layout smaller Hpos' Hle.
    pose proof (element_total_mono smaller sizes Hpos' Hle) as Hmono.
    rewrite !weightBufferSize_fit by (assumption || lia).
    apply Z.mul_le_mono_nonneg_l; [lia |].
    apply Z.div_le_mono; lia.
Qed.

Lemma buffer_size_layouts_monotone_witness :
  (forall layout,
     impliedElementCount (U4 32 1 5 5) (GetStrides (U4 32 1 5 5) layout) = 800) /\
  weightBufferSize Default (U4 32 1 5 5) = weightBufferSize NHWC (U4 32 1 5 5) /\
  (forall layout smaller,
     positive_dims smaller -> dims_le smaller (U4 32 1 5 5) ->
     weightBufferSize layout smaller <= weightBufferSize layout (U4 32 1 5 5)).
Proof.
  apply (buffer_size_layouts_monotone (U4 32 1 5 5)).
  - unfold positive_dims; cbn; lia.
  - unfold element_total; cbn; lia.
Defined.

(** At the shape (2, 1, 65536, 65536), all dimensions positive, the batch
    stride wraps to 0 and the maximum linear index plus one is 2^32, half of
    N*C*H*W; and growing H from 1 to 2 at (1, 1, _, 4294967295) makes the
    buffer smaller. *)
Lemma buffer_size_all_shapes_fail :
  positive_dims (U4 2 1 65536 65536) /\ all_uint32 (U4 2 1 65536 65536) /\
  impliedElementCount (U4 2 1 65536 65536) (GetStrides (U4 2 1 65536 65536) Default)
    <> element_total (U4 2 1 65536 65536) /\
  dims_le (U4 1 1 1 4294967295) (U4 1 1 2 4294967295) /\
  weightBufferSize Default (U4 1 1 2 4294967295)
    < weightBufferSize Default (U4 1 1 1 4294967295).
Proof.
  repeat split; try (unfold is_uint32; cbn; lia); try (cbn; lia).
  vm_compute. discriminate.
Qed.

(** ** Loops *)

Lemma bind_Done {A B : Type} (a : A) (k : A -> outcome B) : (Done a ≫= k) = k a.
Proof. reflexivity. Qed.

Lemma bind_Done_inv {A B : Type} (m : outcome A) (k : A -> outcome B) (b : B) :
  m ≫= k = Done b -> exists a, m = Done a /\ k a = Done b.
Proof. destruct m as [a | | |]; cbn; intros Hk; try discriminate. exists a. auto. Qed.

(** A loop whose every iteration appends a block appends the blocks in order. *)
Lemma for_range_blocks {B : Type} (blk : Z -> list B) (body : Z -> list B -> outcome (list B))
    (count : nat) (i0 : Z) (acc : list B) :
  (forall i acc', i0 <= i < i0 + Z.of_nat count -> body i acc' = Done (acc' ++ blk i)) ->
  for_range count i0 body acc = Done (acc ++ (seqZ i0 (Z.of_nat count) ≫= blk)).
Proof.
  revert i0 acc. induction count as [| count IH]; intros i0 acc Hbody.
  - cbn. rewrite seqZ_nil by lia. cbn. rewrite app_nil_r. reflexivity.
  - cbn [for_range]. rewrite Hbody by lia. rewrite bind_Done.
    rewrite IH by (intros; apply Hbody; lia).
    rewrite (seqZ_cons i0) by lia. rewrite bind_cons, <- app_assoc.
    replace (Z.pred (Z.of_nat (S count))) with (Z.of_nat count) by lia.
    reflexivity.
Qed.

Lemma for_uint32_blocks {B : Type} (blk : Z -> list B) (body : Z -> list B -> outcome (list B))
    (bound : Z) (acc : list B) :
  (forall i acc', 0 <= i < bound -> body i acc' = Done (acc' ++ blk i)) ->
  for_uint32 bound body acc = Done (acc ++ (seqZ 0 bound ≫= blk)).
Proof.
  intros Hbody. unfold for_uint32.
  destruct (Z.le_gt_cases bound 0) as [Hle | Hgt].
  - replace (Z.to_nat bound) with O by lia. cbn. rewrite seqZ_nil by lia.
    cbn. rewrite app_nil_r. reflexivity.
  - rewrite (for_range_blocks blk) by (intros; apply Hbody; lia).
    rewrite Z2Nat.id by lia. reflexivity.
Qed.

(** The same for a loop on a pair of vectors. *)
Lemma for_range_blocks2 {B1 B2 : Type} (blk1 : Z -> list B1) (blk2 : Z -> list B2)
    (body : Z -> list B1 * list B2 -> outcome (list B1 * list B2))
    (count : nat) (i0 : Z) (acc : list B1 * list B2) :
  (forall i a1 a2, i0 <= i < i0 + Z.of_nat count ->
     body i (a1, a2) = Done (a1 ++ blk1 i, a2 ++ blk2 i)) ->
  for_range count i0 body acc =
  Done (acc.1 ++ (seqZ i0 (Z.of_nat count) ≫= blk1),
        acc.2 ++ (seqZ i0 (Z.of_nat count) ≫= blk2)).
Proof.
  revert i0 acc. induction count as [| count IH]; intros i0 [a1 a2] Hbody.
  - cbn. rewrite seqZ_nil by lia. cbn. rewrite !app_nil_r. reflexivity.
  - cbn [for_range]. rewrite Hbody by lia. rewrite bind_Done.
    rewrite IH by (intros; apply Hbody; lia).
    rewrite (seqZ_cons i0) by lia. rewrite !bind_cons. cbn [fst snd].
    rewrite <- !app_assoc.
    replace (Z.pred (Z.of_nat (S count))) with (Z.of_nat count) by lia.
    reflexivity.
Qed.

Lemma for_uint32_blocks2 {B1 B2 : Type} (blk1 : Z -> list B1) (blk2 : Z -> list B2)
    (body : Z -> list B1 * list B2 -> outcome (list B1 * list B2))
    (bound : Z) (acc : list B1 * list B2) :
  0 < bound ->
  (forall i a1 a2, 0 <= i < bound -> body i (a1, a2) = Done (a1 ++ blk1 i, a2 ++ blk2 i)) ->
  for_uint32 bound body acc =
  Done (acc.1 ++ (seqZ 0 bound ≫= blk1), acc.2 ++ (seqZ 0 bound ≫= blk2)).
Proof.
  intros Hpos Hbody. unfold for_uint32.
  rewrite (for_range_blocks2 blk1 blk2) by (intros; apply Hbody; lia).
  rewrite Z2Nat.id by lia. reflexivity.
Qed.

(** ** Lists of blocks *)

Lemma bind_nil_r {A B : Type} (l : list A) : (l ≫= fun _ => @nil B) = [].
Proof. induction l as [| a l IH]; [reflexivity |]. rewrite bind_cons. exact IH. Qed.

Lemma length_bind_uniform {A B : Type} (f : A -> list B) (len : nat) (l : list A) :
  (forall a, length (f a) = len) -> length (l ≫= f) = (length l * len)%nat.
Proof.
  intros Hlen. induction l as [| a l IH]; [reflexivity |].
  rewrite bind_cons, length_app, Hlen, IH. cbn. lia.
Qed.

Lemma lookup_bind_uniform {A B : Type} (f : A -> list B) (len : nat) (l : list A)
    (k j : nat) (a : A) :
  (forall a, length (f a) = len) -> l !! k = Some a -> (j < len)%nat ->
  (l ≫= f) !! (k * len + j)%nat = f a !! j.
Proof.
  intros Hlen. revert k. induction l as [| a0 l IH]; intros k Hk Hj; [discriminate |].
  rewrite bind_cons. destruct k as [| k]; cbn in Hk.
  - injection Hk as ->. rewrite lookup_app_l by (rewrite Hlen; lia). reflexivity.
  - rewrite lookup_app_r by (rewrite Hlen; lia). rewrite Hlen.
    replace (S k * len + j - len)%nat with (k * len + j)%nat by lia.
    apply IH; assumption.
Qed.

Lemma bind_app_distr_perm {A B : Type} (g h : A -> list B) (l : list A) :
  (l ≫= fun a => g a ++ h a) ≡ₚ (l ≫= g) ++ (l ≫= h).
Proof.
  induction l as [| a l IH]; [reflexivity |].
  rewrite !bind_cons, IH. rewrite <- !app_assoc. apply Permutation_app_head.
  rewrite !app_assoc. apply Permutation_app_tail. apply Permutation_app_comm.
Qed.

(** Two nested enumerations can be exchanged, up to the order of the result. *)
Lemma bind_swap_perm {A B C : Type} (f : A -> B -> list C) (la : list A) (lb : list B) :
  (la ≫= fun a => lb ≫= fun b => f a b) ≡ₚ (lb ≫= fun b => la ≫= fun a => f a b).
Proof.
  induction la as [| a la IH].
  - cbn. rewrite bind_nil_r. reflexivity.
  - rewrite bind_cons, IH.
    rewrite <- bind_app_distr_perm.
    apply Permutation_refl'. apply list_bind_ext; [| reflexivity].
    intros b. rewrite bind_cons. reflexivity.
Qed.

(** Consecutive blocks of [len] integers make one interval. *)
Lemma seqZ_blocks (base len : Z) (count : nat) :
  0 <= len ->
  (seqZ 0 (Z.of_nat count) ≫= fun k => seqZ (base + k * len) len)
  = seqZ base (Z.of_nat count * len).
Proof.
  intros Hlen. induction count as [| count IH].
  - cbn. rewrite seqZ_nil by lia. reflexivity.
  - rewrite seqZ_S, bind_app, IH, bind_singleton.
    replace (Z.of_nat (S count) * len) with (Z.of_nat count * len + len) by lia.
    rewrite seqZ_app by nia. rewrite Z.add_0_l. reflexivity.
Qed.

Lemma seqZ_blocks_Z (base len count : Z) :
  0 <= len -> 0 <= count ->
  (seqZ 0 count ≫= fun k => seqZ (base + k * len) len) = seqZ base (count * len).
Proof.
  intros Hlen Hcount. rewrite <- (Z2Nat.id count) by lia. apply seqZ_blocks, Hlen.
Qed.

Lemma seqZ_singletons (base len : Z) :
  (seqZ 0 len ≫= fun k => [base + k]) = seqZ base len.
Proof.
  destruct (Z.le_gt_cases len 0) as [Hle | Hgt].
  - rewrite !seqZ_nil by lia. reflexivity.
  - rewrite <- (Z.mul_1_r len) at 2. rewrite <- seqZ_blocks_Z by lia.
    apply list_bind_ext; [| reflexivity]. intros k.
    rewrite seqZ_cons, seqZ_nil by lia. f_equal. lia.
Qed.

Lemma bind_perm_ext {A B : Type} (f g : A -> list B) (l : list A) :
  (forall a, f a ≡ₚ g a) -> l ≫= f ≡ₚ l ≫= g.
Proof.
  intros Hfg. induction l as [| a l IH]; [reflexivity |].
  rewrite !bind_cons, Hfg, IH. reflexivity.
Qed.

Lemma fmap_bind_distr {A B C : Type} (F : B -> C) (g : A -> list B) (l : list A) :
  (l ≫= fun a => F <$> g a) = F <$> (l ≫= g).
Proof.
  induction l as [| a l IH]; [reflexivity |].
  rewrite !bind_cons, fmap_app, IH. reflexivity.
Qed.

Lemma bind_singletons_fmap {A B : Type} (F : A -> B) (l : list A) :
  (l ≫= fun a => [F a]) = F <$> l.
Proof.
  induction l as [| a l IH]; [reflexivity |].
  rewrite bind_cons, IH. reflexivity.
Qed.

Lemma lookup_bind_seqZ {B : Type} (f : Z -> list B) (len count k j : Z) :
  (forall a, length (f a) = Z.to_nat len) ->
  0 <= k < count -> 0 <= j < len ->
  (seqZ 0 count ≫= f) !! Z.to_nat (k * len + j) = f k !! Z.to_nat j.
Proof.
  intros Hlen Hk Hj.
  replace (Z.to_nat (k * len + j)) with (Z.to_nat k * Z.to_nat len + Z.to_nat j)%nat by nia.
  apply lookup_bind_uniform; [exact Hlen | | lia].
  rewrite lookup_seqZ_lt by lia. f_equal. lia.
Qed.

(** ** The NHWC visiting order *)

Section Order.

Variable sizes : uint32x4.

Let N := at0 sizes.
Let C := at1 sizes.
Let H := at2 sizes.
Let W := at3 sizes.

Hypothesis Hpos : positive_dims sizes.

Lemma dims_pos : 0 < N /\ 0 < C /\ 0 < H /\ 0 < W.
Proof using Hpos. exact Hpos. Qed.

(** The weights of one output channel, visited h-major then w then c, are the
    interval of that channel in the source order. *)
Lemma channel_order_perm (n : Z) :
  (seqZ 0 H ≫= fun h => seqZ 0 W ≫= fun w => seqZ 0 C ≫= fun c => [indexNCHW sizes n c h w])
  ≡ₚ seqZ (n * C * H * W) (C * H * W).
Proof using Hpos.
  destruct dims_pos as (HN & HC & HH & HW).
  rewrite (bind_perm_ext _ (fun h => seqZ 0 C ≫= fun c => seqZ 0 W ≫= fun w =>
                                       [indexNCHW sizes n c h w]))
    by (intros h; apply bind_swap_perm).
  rewrite bind_swap_perm.
  apply Permutation_refl'.
  transitivity (seqZ 0 C ≫= fun c => seqZ (n * C * H * W + c * (H * W)) (H * W)).
  - apply list_bind_ext; [| reflexivity]. intros c.
    rewrite <- (seqZ_blocks_Z _ W H) by lia.
    apply list_bind_ext; [| reflexivity]. intros h.
    rewrite <- (seqZ_singletons (n * C * H * W + c * (H * W) + h * W) W).
    apply list_bind_ext; [| reflexivity]. intros w.
    unfold indexNCHW. fold C H W. f_equal. ring.
  - rewrite seqZ_blocks_Z by nia.
    replace (C * (H * W)) with (C * H * W) by ring. reflexivity.
Qed.

Lemma order_NHWC_perm : order_NHWC sizes ≡ₚ seqZ 0 (element_total sizes).
Proof using Hpos.
  destruct dims_pos as (HN & HC & HH & HW).
  unfold order_NHWC. fold N C H W.
  rewrite (bind_perm_ext _ (fun n => seqZ (0 + n * (C * H * W)) (C * H * W))).
  - rewrite seqZ_blocks_Z by nia. apply Permutation_refl'.
    unfold element_total. fold N C H W.
    replace (N * (C * H * W)) with (N * C * H * W) by ring. reflexivity.
  - intros n. rewrite channel_order_perm. apply Permutation_refl'.
    replace (0 + n * (C * H * W)) with (n * C * H * W) by ring. reflexivity.
Qed.

Lemma length_order_NHWC : length (order_NHWC sizes) = Z.to_nat (element_total sizes).
Proof using Hpos. rewrite order_NHWC_perm. apply length_seqZ. Qed.

Lemma in_shape_index_bounds n c h w :
  in_shape sizes n c h w ->
  0 <= c * H * W + h * W + w < C * H * W /\
  0 <= indexNCHW sizes n c h w < element_total sizes /\
  0 <= indexNHWC sizes n c h w < element_total sizes.
Proof.
  unfold in_shape, indexNCHW, indexNHWC, element_total. fold N C H W.
  intros (Hn & Hc & Hh & Hw).
  assert (0 <= h * W + w < H * W) as Hhw by nia.
  assert (0 <= c * (H * W) + (h * W + w) < C * (H * W)) as Hchw by nia.
  assert (0 <= n * (C * (H * W)) + (c * (H * W) + (h * W + w)) < N * (C * (H * W))) as Hall by nia.
  assert (0 <= w * C + c < W * C) as Hwc by nia.
  assert (0 <= h * (W * C) + (w * C + c) < H * (W * C)) as Hhwc by nia.
  assert (0 <= n * (H * (W * C)) + (h * (W * C) + (w * C + c)) < N * (H * (W * C))) as Hall' by nia.
  split; [| split].
  - replace (c * H * W + h * W + w) with (c * (H * W) + (h * W + w)) by ring.
    replace (C * H * W) with (C * (H * W)) by ring. exact Hchw.
  - replace (n * C * H * W + c * H * W + h * W + w)
      with (n * (C * (H * W)) + (c * (H * W) + (h * W + w))) by ring.
    replace (N * C * H * W) with (N * (C * (H * W))) by ring. exact Hall.
  - replace (((n * H + h) * W + w) * C + c)
      with (n * (H * (W * C)) + (h * (W * C) + (w * C + c))) by ring.
    replace (N * C * H * W) with (N * (H * (W * C))) by ring. exact Hall'.
Qed.

(** The weight visited at NHWC position (n, h, w, c) is the one of source index
    (n, c, h, w). *)
Lemma lookup_order_NHWC n c h w :
  in_shape sizes n c h w ->
  order_NHWC sizes !! Z.to_nat (indexNHWC sizes n c h w) = Some (indexNCHW sizes n c h w).
Proof using Hpos.
  destruct dims_pos as (HN & HC & HH & HW).
  intros Hin. pose proof Hin as (Hn & Hc & Hh & Hw).
  fold N C H W in Hn, Hc, Hh, Hw.
  unfold order_NHWC, indexNHWC. fold N C H W.
  assert (length_c : forall n h w,
    length (seqZ 0 C ≫= fun c => [indexNCHW sizes n c h w]) = Z.to_nat C).
  { intros. rewrite (length_bind_uniform _ 1%nat) by reflexivity.
    rewrite length_seqZ. lia. }
  assert (length_w : forall n h,
    length (seqZ 0 W ≫= fun w => seqZ 0 C ≫= fun c => [indexNCHW sizes n c h w])
    = Z.to_nat (W * C)).
  { intros. rewrite (length_bind_uniform _ (Z.to_nat C)) by (intros; apply length_c).
    rewrite length_seqZ. nia. }
  assert (length_h : forall n,
    length (seqZ 0 H ≫= fun h => seqZ 0 W ≫= fun w => seqZ 0 C ≫= fun c =>
              [indexNCHW sizes n c h w]) = Z.to_nat (H * (W * C))).
  { intros. rewrite (length_bind_uniform _ (Z.to_nat (W * C))) by (intros; apply length_w).
    rewrite length_seqZ. nia. }
  replace (((n * H + h) * W + w) * C + c)
    with (n * (H * (W * C)) + (h * (W * C) + (w * C + c))) by ring.
  assert (0 <= w * C + c < W * C) as Hwc by nia.
  assert (0 <= h * (W * C) + (w * C + c) < H * (W * C)) as Hhwc by nia.
  rewrite (lookup_bind_seqZ _ (H * (W * C))) by (apply length_h || assumption).
  rewrite (lookup_bind_seqZ _ (W * C)) by (apply length_w || assumption).
  rewrite (lookup_bind_seqZ _ C) by (apply length_c || assumption).
  replace (Z.to_nat c) with (Z.to_nat (c * 1 + 0)) by lia.
  rewrite (lookup_bind_seqZ _ 1) by (reflexivity || lia).
  reflexivity.
Qed.

(** The output channel of a source index. *)
Lemma channel_of_index n c h w :
  in_shape sizes n c h w -> indexNCHW sizes n c h w / (C * H * W) = n.
Proof.
  intros Hin. destruct (in_shape_index_bounds n c h w Hin) as (Hr & _ & _).
  unfold indexNCHW. fold C H W.
  symmetry. apply (Z.div_unique _ _ n (c * H * W + h * W + w)); [lia | ring].
Qed.

End Order.

(** ** Index arithmetic of the weight loops *)

Lemma mul32_assoc4 a b c e : a *32 b *32 c *32 e = wrap32 (a * b * c * e).
Proof. rewrite (mul32_assoc3 a b c). apply mul32_wrap_l. Qed.

Lemma idx_Default_wrapped n C H W i :
  n *32 C *32 H *32 W +32 i = wrap32 (n * C * H * W + i).
Proof. rewrite mul32_assoc4. apply add32_wrap_l. Qed.

Lemma idx_NHWC_wrapped n C H W c h w :
  w +32 h *32 W +32 c *32 H *32 W +32 n *32 C *32 H *32 W
  = wrap32 (n * C * H * W + c * H * W + h * W + w).
Proof.
  rewrite mul32_assoc4, mul32_assoc3. unfold mul32 at 1.
  rewrite (add32_wrap_r w), (add32_wrap_l (w + h * W)), wrap32_add_inner_r.
  rewrite (add32_wrap_l (w + h * W + c * H * W)), wrap32_add_inner_r.
  f_equal. ring.
Qed.

Lemma channel_total_bounds sizes :
  positive_dims sizes -> element_total sizes < 2 ^ 32 ->
  0 < at1 sizes * at2 sizes * at3 sizes < 2 ^ 32.
Proof.
  destruct sizes as [N C H W]. unfold positive_dims, element_total; cbn.
  intros (HN & HC & HH & HW) Hfit.
  assert (0 < C * H * W) by (repeat apply Z.mul_pos_pos; assumption).
  nia.
Qed.

(** ** What the weight loops emit *)

Section Emission.

Context {float : Type}.
Variable fmul : float -> float -> float.
Variable compress : float -> Z.
Variable d : float.

Variable useScaleShift : bool.
Variables filterWeights scaleWeights shiftWeights : list float.
Variable sizes : uint32x4.

Let N := at0 sizes.
Let C := at1 sizes.
Let H := at2 sizes.
Let W := at3 sizes.

Hypothesis Hpos : positive_dims sizes.
Hypothesis Hfit : element_total sizes < 2 ^ 32.
Hypothesis Hfilter : length filterWeights = Z.to_nat (element_total sizes).
Hypothesis Hscale :
  useScaleShift = true ->
  (Z.to_nat N <= length scaleWeights)%nat /\ (Z.to_nat N <= length shiftWeights)%nat.

Lemma vector_at_in_range (v : list float) (idx : Z) :
  (Z.to_nat idx < length v)%nat -> vector_at v idx = Done (weightAt d v idx).
Proof.
  intros Hlt. unfold vector_at, weightAt.
  destruct (lookup_lt_is_Some_2 v (Z.to_nat idx) Hlt) as [x Hx].
  rewrite Hx. rewrite (nth_lookup_Some _ _ _ _ Hx). reflexivity.
Qed.

Lemma channel_total_fits : 0 < C * H * W < 2 ^ 32.
Proof using Hpos Hfit. exact (channel_total_bounds sizes Hpos Hfit). Qed.

Lemma scaledWeight_in_shape n c h w :
  in_shape sizes n c h w ->
  exists x,
    scaledWeight fmul useScaleShift filterWeights scaleWeights (indexNCHW sizes n c h w) n
    = Done x /\
    compress x
    = emittedAt fmul compress d useScaleShift filterWeights scaleWeights sizes
        (indexNCHW sizes n c h w).
Proof using Hpos Hfit Hfilter Hscale.
  intros Hin.
  destruct (in_shape_index_bounds sizes n c h w Hin) as (_ & Hidx & _).
  pose proof Hin as (Hn & _).
  unfold scaledWeight, emittedAt. cbv zeta.
  rewrite (channel_of_index sizes n c h w Hin).
  rewrite (vector_at_in_range filterWeights) by lia.
  destruct useScaleShift.
  - destruct Hscale as (Hsc & _); [reflexivity |].
    rewrite bind_Done, (vector_at_in_range scaleWeights) by (fold N in Hn; lia).
    eexists; split; reflexivity.
  - eexists; split; reflexivity.
Qed.

Lemma emit_NHWC_blocks n acc :
  0 <= n < N ->
  emit_NHWC fmul compress useScaleShift filterWeights scaleWeights C H W n acc
  = Done (acc ++ (emittedAt fmul compress d useScaleShift filterWeights scaleWeights sizes <$>
                  (seqZ 0 H ≫= fun h => seqZ 0 W ≫= fun w => seqZ 0 C ≫= fun c =>
                     [indexNCHW sizes n c h w]))).
Proof using Hpos Hfit Hfilter Hscale.
  intros Hn. unfold emit_NHWC.
  rewrite <- !fmap_bind_distr.
  apply for_uint32_blocks. intros h acc1 Hh.
  rewrite <- !fmap_bind_distr.
  apply for_uint32_blocks. intros w acc2 Hw.
  rewrite <- !fmap_bind_distr.
  apply for_uint32_blocks. intros c acc3 Hc.
  assert (in_shape sizes n c h w) as Hin by (unfold in_shape; fold N C H W; lia).
  destruct (in_shape_index_bounds sizes n c h w Hin) as (_ & Hidx & _).
  rewrite idx_NHWC_wrapped.
  change (n * C * H * W + c * H * W + h * W + w) with (indexNCHW sizes n c h w).
  rewrite wrap32_small by lia.
  destruct (scaledWeight_in_shape n c h w Hin) as (x & -> & Hx).
  rewrite bind_Done. cbn. unfold push_back. rewrite Hx. reflexivity.
Qed.

Lemma emit_Default_blocks n acc :
  0 <= n < N ->
  emit_Default fmul compress useScaleShift filterWeights scaleWeights C H W n acc
  = Done (acc ++ (emittedAt fmul compress d useScaleShift filterWeights scaleWeights sizes <$>
                  seqZ (n * C * H * W) (C * H * W))).
Proof using Hpos Hfit Hfilter Hscale.
  intros Hn. unfold emit_Default.
  pose proof channel_total_fits as Hchw.
  rewrite mul32_assoc3, wrap32_small by lia.
  rewrite <- (seqZ_singletons (n * C * H * W)), <- fmap_bind_distr.
  apply for_uint32_blocks. intros i acc1 Hi.
  (* the i-th weight of channel n is the one of some coordinate (n, c, h, w) *)
  destruct Hpos as (HN & HC & HH & HW). fold N C H W in HN, HC, HH, HW.
  set (c := i / (H * W)). set (r := i mod (H * W)).
  set (h := r / W). set (w := r mod W).
  assert (0 < H * W) as HHW by nia.
  assert (i = c * (H * W) + r) as Hi1 by (unfold c, r; rewrite Z.mul_comm; apply Z.div_mod; lia).
  assert (0 <= r < H * W) as Hr by (apply Z.mod_pos_bound; lia).
  assert (r = h * W + w) as Hr1 by (unfold h, w; rewrite Z.mul_comm; apply Z.div_mod; lia).
  assert (0 <= w < W) as Hw by (apply Z.mod_pos_bound; lia).
  assert (0 <= h < H) as Hh.
  { split; [apply Z.div_pos; lia |]. apply Z.div_lt_upper_bound; lia. }
  assert (0 <= c < C) as Hc.
  { split; [apply Z.div_pos; lia |]. apply Z.div_lt_upper_bound; nia. }
  assert (in_shape sizes n c h w) as Hin by (unfold in_shape; fold N C H W; lia).
  assert (n * C * H * W + i = indexNCHW sizes n c h w) as Hidx.
  { unfold indexNCHW. fold C H W. rewrite Hi1 at 1. rewrite Hr1 at 1. ring. }
  destruct (in_shape_index_bounds sizes n c h w Hin) as (_ & Hb & _).
  rewrite idx_Default_wrapped, Hidx, wrap32_small by lia.
  destruct (scaledWeight_in_shape n c h w Hin) as (x & -> & Hx).
  rewrite bind_Done. cbn. unfold push_back. rewrite Hx. reflexivity.
Qed.

Let biasValues : list Z :=
  biasAt compress d useScaleShift shiftWeights sizes.

Lemma convertWeights_Default :
  convertWeights fmul compress Default useScaleShift
    filterWeights scaleWeights shiftWeights sizes
  = Done (emittedAt fmul compress d useScaleShift filterWeights scaleWeights sizes <$>
            seqZ 0 (element_total sizes),
          biasValues).
Proof using Hpos Hfit Hfilter Hscale.
  unfold convertWeights. cbv zeta. fold N C H W.
  pose proof channel_total_fits as Hchw.
  destruct Hpos as (HN & _). fold N in HN.
  rewrite (for_uint32_blocks2
    (fun n => emittedAt fmul compress d useScaleShift filterWeights scaleWeights sizes <$>
                seqZ (0 + n * (C * H * W)) (C * H * W))
    (fun n => if useScaleShift then [compress (weightAt d shiftWeights n)] else [])).
  - cbn [fst snd app]. rewrite fmap_bind_distr, seqZ_blocks_Z by lia.
    unfold element_total, biasValues, biasAt. fold N C H W.
    replace (N * (C * H * W)) with (N * C * H * W) by ring.
    destruct useScaleShift.
    + rewrite bind_singletons_fmap. reflexivity.
    + rewrite bind_nil_r. reflexivity.
  - exact HN.
  - intros n a1 a2 Hn.
    rewrite emit_Default_blocks by exact Hn. rewrite bind_Done.
    replace (0 + n * (C * H * W)) with (n * C * H * W) by ring.
    destruct useScaleShift.
    + destruct Hscale as (_ & Hsh); [reflexivity |].
      rewrite vector_at_in_range by lia. reflexivity.
    + rewrite app_nil_r. reflexivity.
Qed.

Lemma convertWeights_NHWC :
  convertWeights fmul compress NHWC useScaleShift
    filterWeights scaleWeights shiftWeights sizes
  = Done (emittedAt fmul compress d useScaleShift filterWeights scaleWeights sizes <$>
            order_NHWC sizes,
          biasValues).
Proof using Hpos Hfit Hfilter Hscale.
  unfold convertWeights. cbv zeta. fold N C H W.
  destruct Hpos as (HN & _). fold N in HN.
  rewrite (for_uint32_blocks2
    (fun n => emittedAt fmul compress d useScaleShift filterWeights scaleWeights sizes <$>
                (seqZ 0 H ≫= fun h => seqZ 0 W ≫= fun w => seqZ 0 C ≫= fun c =>
                   [indexNCHW sizes n c h w]))
    (fun n => if useScaleShift then [compress (weightAt d shiftWeights n)] else [])).
  - cbn [fst snd app]. rewrite fmap_bind_distr.
    unfold biasValues, biasAt. fold N. fold (order_NHWC sizes).
    destruct useScaleShift.
    + rewrite bind_singletons_fmap. reflexivity.
    + rewrite bind_nil_r. reflexivity.
  - exact HN.
  - intros n a1 a2 Hn.
    rewrite emit_NHWC_blocks by exact Hn. rewrite bind_Done.
    destruct useScaleShift.
    + destruct Hscale as (_ & Hsh); [reflexivity |].
      rewrite vector_at_in_range by lia. reflexivity.
    + rewrite app_nil_r. reflexivity.
Qed.

End Emission.

(** ** The emitted sequences, point by point *)

Lemma lookup_weightAt {float : Type} (d : float) (v : list float) (i : Z) :
  (Z.to_nat i < length v)%nat -> v !! Z.to_nat i = Some (weightAt d v i).
Proof.
  intros Hlt. unfold weightAt.
  destruct (nth_lookup_or_length v (Z.to_nat i) d) as [Hsome | Hlen]; [exact Hsome | lia].
Qed.

Section EmittedValues.

Context {float : Type}.
Variable fmul : float -> float -> float.
Variable compress : float -> Z.
Variable useScaleShift : bool.
Variables filterWeights scaleWeights shiftWeights : list float.
Variable sizes : uint32x4.

Hypothesis Hpos : positive_dims sizes.
Hypothesis Hfit : element_total sizes < 2 ^ 32.
Hypothesis Hfilter : length filterWeights = Z.to_nat (element_total sizes).
Hypothesis Hscale :
  useScaleShift = true ->
  (Z.to_nat (at0 sizes) <= length scaleWeights)%nat /\
  (Z.to_nat (at0 sizes) <= length shiftWeights)%nat.

(** The value of the emitted sequence that stands for coordinate (n, c, h, w):
    the compressed source weight, multiplied by the scale of channel n first
    when scale and shift are used. *)
Lemma emittedAt_in_shape (d : float) n c h w :
  in_shape sizes n c h w ->
  exists v,
    filterWeights !! Z.to_nat (indexNCHW sizes n c h w) = Some v /\
    (useScaleShift = false ->
     emittedAt fmul compress d useScaleShift filterWeights scaleWeights sizes
       (indexNCHW sizes n c h w) = compress v) /\
    (useScaleShift = true ->
     exists s, scaleWeights !! Z.to_nat n = Some s /\
     emittedAt fmul compress d useScaleShift filterWeights scaleWeights sizes
       (indexNCHW sizes n c h w) = compress (fmul v s)).
Proof using Hpos Hfit Hfilter Hscale.
  intros Hin.
  destruct (in_shape_index_bounds sizes n c h w Hin) as (_ & Hidx & _).
  pose proof Hin as (Hn & _).
  exists (weightAt d filterWeights (indexNCHW sizes n c h w)).
  split; [apply lookup_weightAt; lia |].
  unfold emittedAt. cbv zeta. rewrite (channel_of_index sizes n c h w Hin).
  split; intros Huse; rewrite Huse; [reflexivity |].
  exists (weightAt d scaleWeights n). split; [| reflexivity].
  apply lookup_weightAt. destruct (Hscale Huse) as (Hsc & _). lia.
Qed.

Lemma lookup_emitted_Default (d : float) n c h w :
  in_shape sizes n c h w ->
  (emittedAt fmul compress d useScaleShift filterWeights scaleWeights sizes <$>
     seqZ 0 (element_total sizes)) !! emitted_position Default sizes n c h w
  = Some (emittedAt fmul compress d useScaleShift filterWeights scaleWeights sizes
            (indexNCHW sizes n c h w)).
Proof.
  clear Hpos Hfit Hfilter Hscale.
  intros Hin.
  destruct (in_shape_index_bounds sizes n c h w Hin) as (_ & Hidx & _).
  cbn [emitted_position]. rewrite list_lookup_fmap, lookup_seqZ_lt by lia.
  cbn. do 2 f_equal. lia.
Qed.

Lemma lookup_emitted_NHWC (d : float) n c h w :
  in_shape sizes n c h w ->
  (emittedAt fmul compress d useScaleShift filterWeights scaleWeights sizes <$>
     order_NHWC sizes) !! emitted_position NHWC sizes n c h w
  = Some (emittedAt fmul compress d useScaleShift filterWeights scaleWeights sizes
            (indexNCHW sizes n c h w)).
Proof using Hpos.
  intros Hin. cbn [emitted_position].
  rewrite list_lookup_fmap, (lookup_order_NHWC sizes Hpos n c h w Hin). reflexivity.
Qed.

Lemma lookup_biasAt (d : float) n :
  useScaleShift = true -> 0 <= n < at0 sizes ->
  exists b, shiftWeights !! Z.to_nat n = Some b /\
    biasAt compress d useScaleShift shiftWeights sizes !! Z.to_nat n = Some (compress b).
Proof using Hscale.
  clear Hfilter Hfit Hpos.
  intros Huse Hn. destruct (Hscale Huse) as (_ & Hsh).
  exists (weightAt d shiftWeights n). split; [apply lookup_weightAt; lia |].
  unfold biasAt. rewrite Huse, list_lookup_fmap, lookup_seqZ_lt by lia.
  cbn. do 3 f_equal. lia.
Qed.

Lemma length_biasAt (d : float) :
  useScaleShift = true ->
  length (biasAt compress d useScaleShift shiftWeights sizes) = Z.to_nat (at0 sizes).
Proof.
  clear Hpos Hfit Hfilter Hscale.
  intros ->. unfold biasAt. rewrite length_fmap. apply length_seqZ.
Qed.

(** The loops end normally on well-sized weights, for both layouts, and what
    they emit for a layout is the image of that layout's visiting order. *)
Lemma convertWeights_layout (d : float) (layout : TensorLayout) :
  convertWeights fmul compress layout useScaleShift
    filterWeights scaleWeights shiftWeights sizes
  = Done (emittedAt fmul compress d useScaleShift filterWeights scaleWeights sizes <$>
            match layout with
            | Default => seqZ 0 (element_total sizes)
            | NHWC => order_NHWC sizes
            end,
          biasAt compress d useScaleShift shiftWeights sizes).
Proof using Hpos Hfit Hfilter Hscale.
  destruct layout.
  - apply convertWeights_Default; assumption.
  - apply convertWeights_NHWC; assumption.
Qed.

End EmittedValues.

Lemma filterWeights_inhabited {float : Type} (filterWeights : list float) (sizes : uint32x4) :
  positive_dims sizes -> length filterWeights = Z.to_nat (element_total sizes) ->
  exists d : float, True.
Proof.
  intros Hpos Hfilter. pose proof (element_total_pos sizes Hpos) as Htot.
  destruct filterWeights as [| d l]; [cbn in Hfilter; lia | exists d; exact I].
Qed.

(** C3 (as amended). For every filter shape (N, C, H, W) of positive
    dimensions with a weight vector of N*C*H*W values that a 32-bit index can
    address (N*C*H*W < 2^32), the sequence the weight loops of
    [CreateWeightTensors] emit under the NHWC layout is a permutation of the
    one they emit under the Default layout: both have length N*C*H*W, the
    value at NHWC position (n, h, w, c) is the Default-layout value at index
    n*C*H*W + c*H*W + h*W + w, which is the converted source value of that
    index (scaled by scale[n] when scale and shift are used), and the two
    sequences are equal up to order. *)
Theorem NHWC_sequence_permutes_Default {float : Type}
    (fmul : float -> float -> float) (compress : float -> Z) (useScaleShift : bool)
    (filterWeights scaleWeights shiftWeights : list float) (sizes : uint32x4) :
  positive_dims sizes ->
  element_total sizes < 2 ^ 32 ->
  length filterWeights = Z.to_nat (element_total sizes) ->
  (useScaleShift = true ->
   (Z.to_nat (at0 sizes) <= length scaleWeights)%nat /\
   (Z.to_nat (at0 sizes) <= length shiftWeights)%nat) ->
  exists seqDefault seqNHWC bias : list Z,
    convertWeights fmul compress Default useScaleShift
      filterWeights scaleWeights shiftWeights sizes = Done (seqDefault, bias) /\
    convertWeights fmul compress NHWC useScaleShift
      filterWeights scaleWeights shiftWeights sizes = Done (seqNHWC, bias) /\
    length seqDefault = Z.to_nat (element_total sizes) /\
    length seqNHWC = Z.to_nat (element_total sizes) /\
    seqNHWC ≡ₚ seqDefault /\
    forall n c h w, in_shape sizes n c h w ->
      seqNHWC !! Z.to_nat (indexNHWC sizes n c h w)
      = seqDefault !! Z.to_nat (indexNCHW sizes n c h w) /\
      exists v, filterWeights !! Z.to_nat (indexNCHW sizes n c h w) = Some v /\
        (useScaleShift = false ->
         seqNHWC !! Z.to_nat (indexNHWC sizes n c h w) = Some (compress v)) /\
        (useScaleShift = true ->
         exists s, scaleWeights !! Z.to_nat n = Some s /\
           seqNHWC !! Z.to_nat (indexNHWC sizes n c h w) = Some (compress (fmul v s))).
Proof.
  intros Hpos Hfit Hfilter Hscale.
  destruct (filterWeights_inhabited filterWeights sizes Hpos Hfilter) as [d _].
  eexists _, _, _.
  split;
    [apply (convertWeights_layout fmul compress _ _ _ _ sizes
              Hpos Hfit Hfilter Hscale d Default) |].
  split;
    [apply (convertWeights_layout fmul compress _ _ _ _ sizes
              Hpos Hfit Hfilter Hscale d NHWC) |].
  split; [rewrite length_fmap, length_seqZ; reflexivity |].
  split; [rewrite length_fmap; apply length_order_NHWC, Hpos |].
  split; [rewrite (order_NHWC_perm sizes Hpos); reflexivity |].
  intros n c h w Hin.
  pose proof (lookup_emitted_Default fmul compress useScaleShift filterWeights scaleWeights
                sizes d n c h w Hin) as HD.
  pose proof (lookup_emitted_NHWC fmul compress useScaleShift filterWeights scaleWeights
                sizes Hpos d n c h w Hin) as HA.
  cbn [emitted_position] in HD, HA.
  split; [rewrite HA, HD; reflexivity |].
  destruct (emittedAt_in_shape fmul compress useScaleShift filterWeights scaleWeights
              shiftWeights sizes Hpos Hfit Hfilter Hscale d n c h w Hin)
    as (v & Hv & Hplain & Hfused).
  exists v. split; [exact Hv |]. split.
  - intros Huse. rewrite HA, (Hplain Huse). reflexivity.
  - intros Huse. destruct (Hfused Huse) as (s & Hs & Hval).
    exists s. split; [exact Hs |]. rewrite HA, Hval. reflexivity.
Qed.

Lemma NHWC_sequence_permutes_Default_witness :
  exists seqDefault seqNHWC bias : list Z,
    convertWeights Z.mul (fun x => x) Default true
      [10; 11; 12; 13; 14; 15; 16; 17; 18; 19; 20; 21] [2; 3] [100; 200] (U4 2 3 1 2)
    = Done (seqDefault, bias) /\
    convertWeights Z.mul (fun x => x) NHWC true
      [10; 11; 12; 13; 14; 15; 16; 17; 18; 19; 20; 21] [2; 3] [100; 200] (U4 2 3 1 2)
    = Done (seqNHWC, bias) /\
    length seqDefault = 12%nat /\ length seqNHWC = 12%nat /\ seqNHWC ≡ₚ seqDefault.
Proof.
  destruct (NHWC_sequence_permutes_Default Z.mul (fun x => x) true
              [10; 11; 12; 13; 14; 15; 16; 17; 18; 19; 20; 21] [2; 3] [100; 200] (U4 2 3 1 2))
    as (seqDefault & seqNHWC & bias & HD & HA & HlD & HlA & Hperm & _).
  - unfold positive_dims; cbn; lia.
  - unfold element_total; cbn; lia.
  - reflexivity.
  - intros _. cbn. lia.
  - exists seqDefault, seqNHWC, bias. repeat split; assumption.
Defined.

(** At the filter shape (1, 65536, 65536, 1), with its 2^32 weights, the loop
    bound C*H*W of the Default layout wraps to 0: the Default sequence is
    empty, it does not have N*C*H*W values. *)
Lemma Default_sequence_empty_when_count_wraps :
  positive_dims (U4 1 65536 65536 1) /\
  length filter_65536x65536 = Z.to_nat (element_total (U4 1 65536 65536 1)) /\
  exists seqDefault bias,
    convertWeights Z.mul (fun x => x) Default false filter_65536x65536 [] []
      (U4 1 65536 65536 1) = Done (seqDefault, bias) /\
    length seqDefault <> Z.to_nat (element_total (U4 1 65536 65536 1)).
Proof.
  split; [unfold positive_dims; cbn; lia |].
  split; [unfold filter_65536x65536; rewrite length_replicate; reflexivity |].
  exists [], []. split; [reflexivity |].
  change (element_total (U4 1 65536 65536 1)) with 4294967296. cbn [length]. lia.
Qed.

(** The two emitted sequences of the shape (2, 3, 1, 2), computed. *)
Example convertWeights_2312 :
  convertWeights Z.mul (fun x => x) Default true
    [10; 11; 12; 13; 14; 15; 16; 17; 18; 19; 20; 21] [2; 3] [100; 200] (U4 2 3 1 2)
  = Done ([20; 22; 24; 26; 28; 30; 48; 51; 54; 57; 60; 63], [100; 200]) /\
  convertWeights Z.mul (fun x => x) NHWC true
    [10; 11; 12; 13; 14; 15; 16; 17; 18; 19; 20; 21] [2; 3] [100; 200] (U4 2 3 1 2)
  = Done ([20; 24; 28; 22; 26; 30; 48; 54; 60; 51; 57; 63], [100; 200]).
Proof. split; vm_compute; reflexivity. Qed.

(** ** [CreateWeightTensors] on a well-formed layer (C1) *)

Section Preprocess.

Context {float : Type}.
Variable fmul : float -> float -> float.
Variable compress : float -> Z.
Variable NDEBUG : bool.
Variable device : ID3D12Device.
Variable layout : TensorLayout.

Variable weights : gmap string (list float).
Variable conv : string.
Variable filterWeights : list float.
Variable sizes : uint32x4.
Variable uploadBatch : ResourceUploadBatch.
Variable filterResource : ID3D12Resource.

Hypothesis Hpos : positive_dims sizes.
Hypothesis Hfit : element_total sizes < 2 ^ 32.
Hypothesis Hconv : weights !! conv = Some filterWeights.
Hypothesis Hfilter : length filterWeights = Z.to_nat (element_total sizes).
Hypothesis Hcreate : CreateWeightResource device layout sizes = Done filterResource.

Lemma CreateWeightTensors_unfused (d : float) (biasWeightResourceOut : bool) :
  CreateWeightTensors fmul compress NDEBUG device layout
    weights (Some conv) None None sizes uploadBatch biasWeightResourceOut
  = Done {| weights_after := weights;
            uploadBatch_after :=
              uploadBatch ++
              [{| upload_resource := filterResource;
                  upload_data :=
                    emittedAt fmul compress d false filterWeights [] sizes <$>
                      match layout with
                      | Default => seqZ 0 (element_total sizes)
                      | NHWC => order_NHWC sizes
                      end |}];
            filterWeightResource := filterResource;
            biasWeightResource := None |}.
Proof using Hpos Hfit Hconv Hfilter Hcreate.
  unfold CreateWeightTensors. cbn [is_null].
  assert (assert NDEBUG true = Done tt) as -> by (destruct NDEBUG; reflexivity).
  rewrite !bind_Done. rewrite Hcreate, !bind_Done.
  change (mret None ≫= ?k) with (k None). cbv beta.
  unfold map_subscript at 1. rewrite Hconv, !bind_Done.
  rewrite (convertWeights_layout fmul compress false filterWeights [] [] sizes
             Hpos Hfit Hfilter) with (d := d) by discriminate.
  reflexivity.
Qed.

Variables scale shift : string.
Variables scaleWeights shiftWeights : list float.
Variable biasResource : ID3D12Resource.

Hypothesis Hscale : weights !! scale = Some scaleWeights.
Hypothesis Hshift : weights !! shift = Some shiftWeights.
Hypothesis Hscale_len : (Z.to_nat (at0 sizes) <= length scaleWeights)%nat.
Hypothesis Hshift_len : (Z.to_nat (at0 sizes) <= length shiftWeights)%nat.
Hypothesis Hcreate_bias :
  CreateWeightResource device layout (U4 1 (at0 sizes) 1 1) = Done biasResource.

Lemma CreateWeightTensors_fused (d : float) :
  CreateWeightTensors fmul compress NDEBUG device layout
    weights (Some conv) (Some scale) (Some shift) sizes uploadBatch true
  = Done {| weights_after := weights;
            uploadBatch_after :=
              uploadBatch ++
              [{| upload_resource := filterResource;
                  upload_data :=
                    emittedAt fmul compress d true filterWeights scaleWeights sizes <$>
                      match layout with
                      | Default => seqZ 0 (element_total sizes)
                      | NHWC => order_NHWC sizes
                      end |};
               {| upload_resource := biasResource;
                  upload_data := biasAt compress d true shiftWeights sizes |}];
            filterWeightResource := filterResource;
            biasWeightResource := Some biasResource |}.
Proof using Hpos Hfit Hconv Hfilter Hcreate Hscale Hshift Hscale_len Hshift_len Hcreate_bias.
  unfold CreateWeightTensors. cbn [is_null].
  rewrite !bind_Done. rewrite Hcreate, !bind_Done.
  rewrite Hcreate_bias, !bind_Done.
  unfold map_subscript. rewrite Hconv, !bind_Done.
  rewrite Hscale, !bind_Done. rewrite Hshift, !bind_Done.
  rewrite (convertWeights_layout fmul compress true filterWeights scaleWeights shiftWeights
             sizes Hpos Hfit Hfilter) with (d := d) by (intros _; split; assumption).
  rewrite !bind_Done. unfold push_back. rewrite <- app_assoc. reflexivity.
Qed.

End Preprocess.

Lemma lookup_emitted_layout {float : Type} (fmul : float -> float -> float)
    (compress : float -> Z) (useScaleShift : bool) (filterWeights scaleWeights : list float)
    (sizes : uint32x4) (d : float) (layout : TensorLayout) n c h w :
  positive_dims sizes -> in_shape sizes n c h w ->
  (emittedAt fmul compress d useScaleShift filterWeights scaleWeights sizes <$>
     match layout with
     | Default => seqZ 0 (element_total sizes)
     | NHWC => order_NHWC sizes
     end) !! emitted_position layout sizes n c h w
  = Some (emittedAt fmul compress d useScaleShift filterWeights scaleWeights sizes
            (indexNCHW sizes n c h w)).
Proof.
  intros Hpos Hin. destruct layout.
  - apply lookup_emitted_Default, Hin.
  - apply lookup_emitted_NHWC; assumption.
Qed.

Lemma length_emitted_layout {float : Type} (F : Z -> Z) (sizes : uint32x4)
    (layout : TensorLayout) :
  positive_dims sizes ->
  length (F <$> match layout with
                | Default => seqZ 0 (element_total sizes)
                | NHWC => order_NHWC sizes
                end) = Z.to_nat (element_total sizes).
Proof.
  intros Hpos. rewrite length_fmap. destruct layout.
  - apply length_seqZ.
  - apply length_order_NHWC, Hpos.
Qed.

(** C1 (as amended). For a convolution layer of positive dimensions whose
    filter has N*C*H*W weights, a count that a 32-bit index can address
    (N*C*H*W < 2^32), and whose weight buffers the device creates: when the
    scale and shift layers are present in the weight map, with at least N
    values each, [CreateWeightTensors] uploads, for every output channel n, each
    filter weight of channel n as the half-precision conversion of
    weight * scale[n], at the position of the layout, and a bias buffer whose
    n-th entry is the half-precision conversion of shift[n]; when the scale and
    shift names are null, it uploads the half-precision conversion of the
    unscaled weights and neither creates nor uploads a bias buffer. *)
Theorem CreateWeightTensors_fuses_scale_shift {float : Type}
    (fmul : float -> float -> float) (compress : float -> Z)
    (NDEBUG : bool) (device : ID3D12Device) (layout : TensorLayout)
    (weights : gmap string (list float)) (conv : string) (filterWeights : list float)
    (sizes : uint32x4) (uploadBatch : ResourceUploadBatch)
    (filterResource : ID3D12Resource) :
  positive_dims sizes ->
  element_total sizes < 2 ^ 32 ->
  weights !! conv = Some filterWeights ->
  length filterWeights = Z.to_nat (element_total sizes) ->
  CreateWeightResource device layout sizes = Done filterResource ->
  (forall (scale shift : string) (scaleWeights shiftWeights : list float)
          (biasResource : ID3D12Resource),
     weights !! scale = Some scaleWeights ->
     weights !! shift = Some shiftWeights ->
     (Z.to_nat (at0 sizes) <= length scaleWeights)%nat ->
     (Z.to_nat (at0 sizes) <= length shiftWeights)%nat ->
     CreateWeightResource device layout (U4 1 (at0 sizes) 1 1) = Done biasResource ->
     exists filterWeightsFP16 biasWeightsFP16 : list Z,
       CreateWeightTensors fmul compress NDEBUG device layout
         weights (Some conv) (Some scale) (Some shift) sizes uploadBatch true
       = Done {| weights_after := weights;
                 uploadBatch_after :=
                   uploadBatch ++
                   [{| upload_resource := filterResource; upload_data := filterWeightsFP16 |};
                    {| upload_resource := biasResource; upload_data := biasWeightsFP16 |}];
                 filterWeightResource := filterResource;
                 biasWeightResource := Some biasResource |} /\
       length filterWeightsFP16 = Z.to_nat (element_total sizes) /\
       length biasWeightsFP16 = Z.to_nat (at0 sizes) /\
       (forall n c h w, in_shape sizes n c h w ->
          exists v s,
            filterWeights !! Z.to_nat (indexNCHW sizes n c h w) = Some v /\
            scaleWeights !! Z.to_nat n = Some s /\
            filterWeightsFP16 !! emitted_position layout sizes n c h w
            = Some (compress (fmul v s))) /\
       (forall n, 0 <= n < at0 sizes ->
          exists b,
            shiftWeights !! Z.to_nat n = Some b /\
            biasWeightsFP16 !! Z.to_nat n = Some (compress b))) /\
  (forall biasWeightResourceOut : bool,
     exists filterWeightsFP16 : list Z,
       CreateWeightTensors fmul compress NDEBUG device layout
         weights (Some conv) None None sizes uploadBatch biasWeightResourceOut
       = Done {| weights_after := weights;
                 uploadBatch_after :=
                   uploadBatch ++
                   [{| upload_resource := filterResource; upload_data := filterWeightsFP16 |}];
                 filterWeightResource := filterResource;
                 biasWeightResource := None |} /\
       length filterWeightsFP16 = Z.to_nat (element_total sizes) /\
       (forall n c h w, in_shape sizes n c h w ->
          exists v,
            filterWeights !! Z.to_nat (indexNCHW sizes n c h w) = Some v /\
            filterWeightsFP16 !! emitted_position layout sizes n c h w
            = Some (compress v))).
Proof.
  intros Hpos Hfit Hconv Hfilter Hcreate.
  destruct (filterWeights_inhabited filterWeights sizes Hpos Hfilter) as [d _].
  split.
  - intros scale shift scaleWeights shiftWeights biasResource
      Hscale Hshift Hscale_len Hshift_len Hcreate_bias.
    assert (true = true ->
            (Z.to_nat (at0 sizes) <= length scaleWeights)%nat /\
            (Z.to_nat (at0 sizes) <= length shiftWeights)%nat) as Hlens
      by (intros _; split; assumption).
    eexists _, _. split; [| split; [| split; [| split]]].
    + apply (CreateWeightTensors_fused fmul compress NDEBUG device layout weights conv
               filterWeights sizes uploadBatch filterResource Hpos Hfit Hconv Hfilter Hcreate
               scale shift scaleWeights shiftWeights biasResource
               Hscale Hshift Hscale_len Hshift_len Hcreate_bias d).
    + apply (length_emitted_layout (float := float)), Hpos.
    + apply (length_biasAt compress true shiftWeights sizes d). reflexivity.
    + intros n c h w Hin.
      destruct (emittedAt_in_shape fmul compress true filterWeights scaleWeights
                  shiftWeights sizes Hpos Hfit Hfilter Hlens d n c h w Hin)
        as (v & Hv & _ & Hfused).
      destruct (Hfused eq_refl) as (s & Hs & Hval).
      exists v, s. split; [exact Hv |]. split; [exact Hs |].
      rewrite lookup_emitted_layout by assumption. rewrite Hval. reflexivity.
    + intros n Hn.
      apply (lookup_biasAt compress true scaleWeights shiftWeights sizes Hlens d n eq_refl Hn).
  - intros biasWeightResourceOut.
    assert (false = true ->
            (Z.to_nat (at0 sizes) <= length (@nil float))%nat /\
            (Z.to_nat (at0 sizes) <= length (@nil float))%nat) as Hlens by discriminate.
    eexists. split; [| split].
    + apply (CreateWeightTensors_unfused fmul compress NDEBUG device layout weights conv
               filterWeights sizes uploadBatch filterResource Hpos Hfit Hconv Hfilter Hcreate
               d biasWeightResourceOut).
    + apply (length_emitted_layout (float := float)), Hpos.
    + intros n c h w Hin.
      destruct (emittedAt_in_shape fmul compress false filterWeights [] [] sizes
                  Hpos Hfit Hfilter Hlens d n c h w Hin) as (v & Hv & Hplain & _).
      exists v. split; [exact Hv |].
      rewrite lookup_emitted_layout by assumption. rewrite (Hplain eq_refl). reflexivity.
Qed.

Lemma CreateWeightTensors_fuses_scale_shift_witness :
  (exists filterWeightsFP16 biasWeightsFP16 : list Z,
     CreateWeightTensors Z.mul (fun x => x) false sample_device NHWC
       {["conv1/weights" := [10; 11; 12; 13]; "conv1/BatchNorm/scale" := [2; 3];
         "conv1/BatchNorm/shift" := [100; 200]]}
       (Some "conv1/weights") (Some "conv1/BatchNorm/scale") (Some "conv1/BatchNorm/shift")
       (U4 2 2 1 1) [] true
     = Done {| weights_after :=
                 {["conv1/weights" := [10; 11; 12; 13]; "conv1/BatchNorm/scale" := [2; 3];
                   "conv1/BatchNorm/shift" := [100; 200]]};
               uploadBatch_after :=
                 [] ++
                 [{| upload_resource :=
                       Resource D3D12_HEAP_TYPE_DEFAULT D3D12_HEAP_FLAG_NONE
                         (Buffer 8 D3D12_RESOURCE_FLAG_ALLOW_UNORDERED_ACCESS);
                     upload_data := filterWeightsFP16 |};
                  {| upload_resource :=
                       Resource D3D12_HEAP_TYPE_DEFAULT D3D12_HEAP_FLAG_NONE
                         (Buffer 4 D3D12_RESOURCE_FLAG_ALLOW_UNORDERED_ACCESS);
                     upload_data := biasWeightsFP16 |}];
               filterWeightResource :=
                 Resource D3D12_HEAP_TYPE_DEFAULT D3D12_HEAP_FLAG_NONE
                   (Buffer 8 D3D12_RESOURCE_FLAG_ALLOW_UNORDERED_ACCESS);
               biasWeightResource :=
                 Some (Resource D3D12_HEAP_TYPE_DEFAULT D3D12_HEAP_FLAG_NONE
                         (Buffer 4 D3D12_RESOURCE_FLAG_ALLOW_UNORDERED_ACCESS)) |} /\
     length filterWeightsFP16 = 4%nat /\ length biasWeightsFP16 = 2%nat) /\
  (exists filterWeightsFP16 : list Z,
     CreateWeightTensors Z.mul (fun x => x) false sample_device NHWC
       {["conv1/weights" := [10; 11; 12; 13]; "conv1/BatchNorm/scale" := [2; 3];
         "conv1/BatchNorm/shift" := [100; 200]]}
       (Some "conv1/weights") None None (U4 2 2 1 1) [] false
     = Done {| weights_after :=
                 {["conv1/weights" := [10; 11; 12; 13]; "conv1/BatchNorm/scale" := [2; 3];
                   "conv1/BatchNorm/shift" := [100; 200]]};
               uploadBatch_after :=
                 [] ++
                 [{| upload_resource :=
                       Resource D3D12_HEAP_TYPE_DEFAULT D3D12_HEAP_FLAG_NONE
                         (Buffer 8 D3D12_RESOURCE_FLAG_ALLOW_UNORDERED_ACCESS);
                     upload_data := filterWeightsFP16 |}];
               filterWeightResource :=
                 Resource D3D12_HEAP_TYPE_DEFAULT D3D12_HEAP_FLAG_NONE
                   (Buffer 8 D3D12_RESOURCE_FLAG_ALLOW_UNORDERED_ACCESS);
               biasWeightResource := None |} /\
     length filterWeightsFP16 = 4%nat).
Proof.
  destruct (CreateWeightTensors_fuses_scale_shift Z.mul (fun x => x) false sample_device NHWC
              {["conv1/weights" := [10; 11; 12; 13]; "conv1/BatchNorm/scale" := [2; 3];
                "conv1/BatchNorm/shift" := [100; 200]]}
              "conv1/weights" [10; 11; 12; 13] (U4 2 2 1 1) []
              (Resource D3D12_HEAP_TYPE_DEFAULT D3D12_HEAP_FLAG_NONE
                 (Buffer 8 D3D12_RESOURCE_FLAG_ALLOW_UNORDERED_ACCESS)))
    as (Hfused & Hunfused).
  - unfold positive_dims; cbn; lia.
  - unfold element_total; cbn; lia.
  - reflexivity.
  - reflexivity.
  - reflexivity.
  - split.
    + destruct (Hfused "conv1/BatchNorm/scale" "conv1/BatchNorm/shift" [2; 3] [100; 200]
                  (Resource D3D12_HEAP_TYPE_DEFAULT D3D12_HEAP_FLAG_NONE
                     (Buffer 4 D3D12_RESOURCE_FLAG_ALLOW_UNORDERED_ACCESS)))
        as (filterWeightsFP16 & biasWeightsFP16 & Hrun & Hlen & Hlenb & _);
        [reflexivity | reflexivity | cbn; lia | cbn; lia | reflexivity |].
      exists filterWeightsFP16, biasWeightsFP16.
      split; [exact Hrun | split; [exact Hlen | exact Hlenb]].
    + destruct (Hunfused false) as (filterWeightsFP16 & Hrun & Hlen & _).
      exists filterWeightsFP16. split; [exact Hrun | exact Hlen].
Defined.

(** ** The uploads of [CreateWeightTensors] are the converted sequences *)

(** Whenever [CreateWeightTensors] returns, the data of its filter upload (and
    of its bias upload, with scale and shift) are the two sequences of the
    conversion loops, run on the vectors found in the weight map. *)
Lemma CreateWeightTensors_uploads_converted {float : Type}
    (fmul : float -> float -> float) (compress : float -> Z)
    (NDEBUG : bool) (device : ID3D12Device) (layout : TensorLayout)
    (weights : gmap string (list float)) (conv scale shift : cstr)
    (sizes : uint32x4) (uploadBatch : ResourceUploadBatch) (biasOut : bool)
    (r : WeightTensors) :
  CreateWeightTensors fmul compress NDEBUG device layout
    weights conv scale shift sizes uploadBatch biasOut = Done r ->
  exists filterWeights scaleWeights shiftWeights weights1 filterWeightsFP16 biasWeightsFP16,
    map_subscript weights conv = Done (filterWeights, weights1) /\
    convertWeights fmul compress layout (negb (is_null scale))
      filterWeights scaleWeights shiftWeights sizes
    = Done (filterWeightsFP16, biasWeightsFP16) /\
    uploadBatch_after r
    = uploadBatch
      ++ {| upload_resource := filterWeightResource r; upload_data := filterWeightsFP16 |}
      :: match biasWeightResource r with
         | Some bias => [{| upload_resource := bias; upload_data := biasWeightsFP16 |}]
         | None => []
         end.
Proof.
  unfold CreateWeightTensors. intros Hrun.
  apply bind_Done_inv in Hrun as (useScaleShift & Huse & Hrun).
  assert (useScaleShift = negb (is_null scale)) as ->.
  { destruct scale; cbn in Huse.
    - injection Huse as <-. reflexivity.
    - apply bind_Done_inv in Huse as (_ & _ & Huse). injection Huse as <-. reflexivity. }
  apply bind_Done_inv in Hrun as (filterResource & _ & Hrun).
  apply bind_Done_inv in Hrun as (biasResource & Hbias & Hrun).
  apply bind_Done_inv in Hrun as ([filterWeights weights1] & Hconv & Hrun).
  apply bind_Done_inv in Hrun as ([[scaleWeights shiftWeights] weights2] & _ & Hrun).
  apply bind_Done_inv in Hrun as ([filterWeightsFP16 biasWeightsFP16] & Hloops & Hrun).
  apply bind_Done_inv in Hrun as (batch & Hbatch & Hrun).
  injection Hrun as <-. cbn.
  exists filterWeights, scaleWeights, shiftWeights, weights1,
    filterWeightsFP16, biasWeightsFP16.
  split; [exact Hconv |]. split; [exact Hloops |].
  destruct (negb (is_null scale)).
  - destruct biasResource as [bias |]; [| discriminate].
    injection Hbatch as <-. unfold push_back. rewrite <- app_assoc. reflexivity.
  - destruct biasResource as [bias |].
    + cbn in Hbias. discriminate.
    + injection Hbatch as <-. reflexivity.
Qed.

(** At the filter shape (1, 65536, 65536, 1), with the scale and shift layers
    present, the Default layout uploads an empty filter sequence: none of the
    2^32 weights of channel 0 is emitted. *)
Lemma fused_weights_not_emitted_when_count_wraps :
  positive_dims (U4 1 65536 65536 1) /\
  length filter_65536x65536 = Z.to_nat (element_total (U4 1 65536 65536 1)) /\
  filter_65536x65536 !! 0%nat = Some 10 /\
  exists r,
    CreateWeightTensors Z.mul (fun x => x) false sample_device Default
      {["conv1/weights" := filter_65536x65536; "conv1/BatchNorm/scale" := [2];
        "conv1/BatchNorm/shift" := [100]]}
      (Some "conv1/weights") (Some "conv1/BatchNorm/scale") (Some "conv1/BatchNorm/shift")
      (U4 1 65536 65536 1) [] true = Done r /\
    upload_data <$> uploadBatch_after r = [[]; [100]].
Proof.
  split; [unfold positive_dims; cbn; lia |].
  split; [unfold filter_65536x65536; rewrite length_replicate; reflexivity |].
  split; [unfold filter_65536x65536; apply lookup_replicate_2; lia |].
  eexists. split; reflexivity.
Qed.

(** ** Where [CreateWeightTensors] can throw or assert (C4, C10) *)

Lemma benign_bind {A B : Type} (m : outcome A) (k : A -> outcome B) :
  benign m -> (forall a, benign (k a)) -> benign (m ≫= k).
Proof. destruct m; cbn; intros Hm Hk; auto. Qed.

Lemma benign_for_range {S : Type} (body : Z -> S -> outcome S) (count : nat) (i : Z) (s : S) :
  (forall i s, benign (body i s)) -> benign (for_range count i body s).
Proof.
  intros Hbody. revert i s. induction count as [| count IH]; intros i s; cbn [for_range].
  - exact I.
  - apply benign_bind; [apply Hbody | intros s'; apply IH].
Qed.

Lemma benign_for_uint32 {S : Type} (body : Z -> S -> outcome S) (bound : Z) (s : S) :
  (forall i s, benign (body i s)) -> benign (for_uint32 bound body s).
Proof. intros Hbody. apply benign_for_range, Hbody. Qed.

Lemma benign_vector_at {A : Type} (v : list A) (idx : Z) : benign (vector_at v idx).
Proof. unfold vector_at. destruct (v !! Z.to_nat idx); exact I. Qed.

Section Benign.

Context {float : Type}.
Variable fmul : float -> float -> float.
Variable compress : float -> Z.

Lemma benign_map_subscript (weights : gmap string (list float)) (name : cstr) :
  benign (map_subscript weights name).
Proof.
  unfold map_subscript. destruct name as [key |]; [| exact I].
  destruct (weights !! key); exact I.
Qed.

Lemma benign_scaledWeight useScaleShift (filterWeights scaleWeights : list float) idx n :
  benign (scaledWeight fmul useScaleShift filterWeights scaleWeights idx n).
Proof.
  unfold scaledWeight. destruct useScaleShift; [| apply benign_vector_at].
  apply benign_bind; [apply benign_vector_at | intros f].
  apply benign_bind; [apply benign_vector_at | intros s; exact I].
Qed.

Lemma benign_convertWeights layout useScaleShift
    (filterWeights scaleWeights shiftWeights : list float) sizes :
  benign (convertWeights fmul compress layout useScaleShift
            filterWeights scaleWeights shiftWeights sizes).
Proof.
  unfold convertWeights. cbv zeta. apply benign_for_uint32. intros n [acc bias].
  apply benign_bind.
  - destruct layout; [unfold emit_Default | unfold emit_NHWC];
      repeat (apply benign_for_uint32; intros ? ?);
      (apply benign_bind; [apply benign_scaledWeight | intros x; exact I]).
  - intros acc'. destruct useScaleShift; [| exact I].
    apply benign_bind; [apply benign_vector_at | intros x; exact I].
Qed.

Lemma benign_cases {A : Type} (o : outcome A) (P Q : Prop) :
  benign o ->
  match o with
  | Thrown => P
  | AssertionFailed => Q
  | Done _ | Undefined => True
  end.
Proof. destruct o; cbn; intros Hb; auto; contradiction. Qed.

Lemma CreateWeightResource_cases device layout sizes :
  (exists r, CreateWeightResource device layout sizes = Done r) \/
  CreateWeightResource device layout sizes = Thrown.
Proof.
  unfold CreateWeightResource, ThrowIfFailed. cbv zeta.
  destruct (CreateCommittedResource _ _ _ _ _) as [r |]; [left; exists r |]; auto.
Qed.

(** The tail of [CreateWeightTensors], from the first look-up in the weight
    map to the uploads, has no error path. *)
Ltac benign_tail :=
  apply benign_cases;
  apply benign_bind; [apply benign_map_subscript | intros [? ?]];
  apply benign_bind;
  [ first
      [ exact I
      | apply benign_bind; [apply benign_map_subscript | intros [? ?]];
        apply benign_bind; [apply benign_map_subscript | intros [? ?]];
        exact I ]
  | intros [[? ?] ?];
    apply benign_bind; [apply benign_convertWeights | intros [? ?]; exact I] ].

(** [CreateWeightTensors] throws only when the device refuses one of the two
    buffers, and its assertion fires only in a build without [NDEBUG], on a
    null scale name with a non-null shift name. The look-ups in the weight map
    and the conversion loops have no error path. *)
Lemma CreateWeightTensors_error_paths NDEBUG device layout
    (weights : gmap string (list float)) conv scale shift sizes uploadBatch biasOut :
  match CreateWeightTensors fmul compress NDEBUG device layout
          weights conv scale shift sizes uploadBatch biasOut with
  | Thrown =>
      CreateWeightResource device layout sizes = Thrown \/
      CreateWeightResource device layout (U4 1 (at0 sizes) 1 1) = Thrown
  | AssertionFailed => NDEBUG = false /\ scale = None /\ shift <> None
  | Done _ | Undefined => True
  end.
Proof.
  unfold CreateWeightTensors.
  destruct scale as [scaleName |]; cbn [is_null].
  - rewrite bind_Done.
    destruct (CreateWeightResource_cases device layout sizes) as [[filterResource ->] | ->];
      [rewrite bind_Done | cbn; auto].
    destruct biasOut; [| exact I].
    destruct (CreateWeightResource_cases device layout (U4 1 (at0 sizes) 1 1))
      as [[biasResource ->] | Hb]; [rewrite !bind_Done | rewrite Hb; cbn; auto].
    benign_tail.
  - unfold assert.
    destruct NDEBUG; [| destruct shift as [shiftName |]; cbn [is_null]];
      [| cbn; split; [reflexivity | split; [reflexivity | discriminate]] |];
      rewrite !bind_Done;
      (destruct (CreateWeightResource_cases device layout sizes)
         as [[filterResource ->] | ->]; [rewrite !bind_Done | cbn; auto]);
      benign_tail.
Qed.

End Benign.

Lemma for_uint32_first_undefined {S : Type} (body : Z -> S -> outcome S) (bound : Z) (s : S) :
  0 < bound -> body 0 s = Undefined -> for_uint32 bound body s = Undefined.
Proof.
  intros Hpos Hbody. unfold for_uint32.
  destruct (Z.to_nat bound) as [| count] eqn:Hcount; [lia |].
  cbn [for_range]. rewrite Hbody. reflexivity.
Qed.

(** With an empty filter vector the first weight read is out of range. *)
Lemma convertWeights_empty_filter {float : Type} (fmul : float -> float -> float)
    (compress : float -> Z) (layout : TensorLayout) (useScaleShift : bool)
    (scaleWeights shiftWeights : list float) (sizes : uint32x4) :
  positive_dims sizes -> element_total sizes < 2 ^ 32 ->
  convertWeights fmul compress layout useScaleShift [] scaleWeights shiftWeights sizes
  = Undefined.
Proof.
  intros Hpos Hfit. pose proof (channel_total_bounds sizes Hpos Hfit) as Hchw.
  destruct Hpos as (HN & HC & HH & HW).
  assert (forall idx n, scaledWeight fmul useScaleShift [] scaleWeights idx n = Undefined)
    as Hread by (intros; unfold scaledWeight; destruct useScaleShift; reflexivity).
  unfold convertWeights. cbv zeta.
  apply for_uint32_first_undefined; [exact HN |].
  destruct layout.
  - unfold emit_Default.
    rewrite for_uint32_first_undefined; [reflexivity | | rewrite Hread; reflexivity].
    rewrite mul32_assoc3, wrap32_small by lia. lia.
  - unfold emit_NHWC.
    rewrite for_uint32_first_undefined; [reflexivity | exact HH |].
    apply for_uint32_first_undefined; [exact HW |].
    apply for_uint32_first_undefined; [exact HC |].
    rewrite Hread. reflexivity.
Qed.

(** C4 (the code does not do this). A convolution layer name that is absent
    from the weight map raises no error in [CreateWeightTensors]: once the
    device has created the buffer, [operator[]] inserts an empty vector under
    the name, the weight map is used as if the layer were there, and the first
    weight is read out of the range of that empty vector. No exception is
    thrown and no assertion fires; the behaviour is undefined. *)
Theorem CreateWeightTensors_missing_layer_not_reported {float : Type}
    (fmul : float -> float -> float) (compress : float -> Z)
    (NDEBUG : bool) (device : ID3D12Device) (layout : TensorLayout)
    (weights : gmap string (list float)) (conv : string)
    (sizes : uint32x4) (uploadBatch : ResourceUploadBatch) (biasWeightResourceOut : bool)
    (filterResource : ID3D12Resource) :
  weights !! conv = None ->
  positive_dims sizes ->
  element_total sizes < 2 ^ 32 ->
  CreateWeightResource device layout sizes = Done filterResource ->
  CreateWeightTensors fmul compress NDEBUG device layout
    weights (Some conv) None None sizes uploadBatch biasWeightResourceOut
  = Undefined.
Proof.
  intros Hmissing Hpos Hfit Hcreate.
  unfold CreateWeightTensors. cbn [is_null].
  assert (assert NDEBUG true = Done tt) as -> by (destruct NDEBUG; reflexivity).
  rewrite !bind_Done. rewrite Hcreate, !bind_Done.
  change (mret None ≫= ?k) with (k None). cbv beta.
  unfold map_subscript at 1. rewrite Hmissing, !bind_Done.
  rewrite convertWeights_empty_filter by assumption. reflexivity.
Qed.

Lemma CreateWeightTensors_missing_layer_not_reported_witness :
  CreateWeightTensors Z.mul (fun x => x) false sample_device Default
    ∅ (Some "conv1/weights") None None (U4 1 1 1 1) [] false
  = Undefined.
Proof.
  apply (CreateWeightTensors_missing_layer_not_reported Z.mul (fun x => x) false
           sample_device Default ∅ "conv1/weights" (U4 1 1 1 1) [] false
           (Resource D3D12_HEAP_TYPE_DEFAULT D3D12_HEAP_FLAG_NONE
              (Buffer 4 D3D12_RESOURCE_FLAG_ALLOW_UNORDERED_ACCESS))).
  - reflexivity.
  - unfold positive_dims; cbn; lia.
  - unfold element_total; cbn; lia.
  - reflexivity.
Defined.

(** The same for an absent scale or shift layer, on a one-weight filter; and
    a shape whose C*H*W wraps to 0 lets the Default layout finish with an
    empty upload for an absent layer. *)
Example CreateWeightTensors_missing_scale_or_shift :
  CreateWeightTensors Z.mul (fun x => x) false sample_device Default
    {["conv1/weights" := [10]; "conv1/BatchNorm/shift" := [100]]}
    (Some "conv1/weights") (Some "conv1/BatchNorm/scale") (Some "conv1/BatchNorm/shift")
    (U4 1 1 1 1) [] true = Undefined /\
  CreateWeightTensors Z.mul (fun x => x) false sample_device Default
    {["conv1/weights" := [10]; "conv1/BatchNorm/scale" := [2]]}
    (Some "conv1/weights") (Some "conv1/BatchNorm/scale") (Some "conv1/BatchNorm/shift")
    (U4 1 1 1 1) [] true = Undefined /\
  uploadBatch_after <$>
    (match CreateWeightTensors Z.mul (fun x => x) false sample_device Default
             ∅ (Some "conv1/weights") None None (U4 1 65536 65536 1) [] false with
     | Done r => Some r
     | _ => None
     end)
  = Some [{| upload_resource :=
               Resource D3D12_HEAP_TYPE_DEFAULT D3D12_HEAP_FLAG_NONE
                 (Buffer 8589934592 D3D12_RESOURCE_FLAG_ALLOW_UNORDERED_ACCESS);
             upload_data := [] |}].
Proof. repeat split; vm_compute; reflexivity. Qed.

(** C10. [CreateWeightTensors] takes its scale and shift names both null or
    both non-null. With a null scale name and a non-null shift name (outside
    that precondition) the assertion fails in a build with assertions, and in
    a build with [NDEBUG] the shift name is never consulted: the call behaves
    as with a null shift name. Under the precondition the assertion never
    fails. The other unpaired call, a scale name with a null shift name, never
    returns normally. *)
Theorem scale_shift_names_precondition {float : Type}
    (fmul : float -> float -> float) (compress : float -> Z)
    (device : ID3D12Device) (layout : TensorLayout)
    (weights : gmap string (list float)) (conv : cstr)
    (sizes : uint32x4) (uploadBatch : ResourceUploadBatch) (biasWeightResourceOut : bool) :
  (forall shiftName : string,
     ~ names_paired None (Some shiftName) /\
     CreateWeightTensors fmul compress false device layout
       weights conv None (Some shiftName) sizes uploadBatch biasWeightResourceOut
     = AssertionFailed) /\
  (forall shift : cstr,
     CreateWeightTensors fmul compress true device layout
       weights conv None shift sizes uploadBatch biasWeightResourceOut
     = CreateWeightTensors fmul compress true device layout
         weights conv None None sizes uploadBatch biasWeightResourceOut) /\
  (forall (NDEBUG : bool) (scale shift : cstr),
     names_paired scale shift ->
     CreateWeightTensors fmul compress NDEBUG device layout
       weights conv scale shift sizes uploadBatch biasWeightResourceOut
     <> AssertionFailed) /\
  (forall (NDEBUG : bool) (scaleName : string) (r : WeightTensors),
     ~ names_paired (Some scaleName) None /\
     CreateWeightTensors fmul compress NDEBUG device layout
       weights conv (Some scaleName) None sizes uploadBatch biasWeightResourceOut
     <> Done r).
Proof.
  split; [| split; [| split]].
  - intros shiftName. split; [unfold names_paired; cbn; discriminate | reflexivity].
  - intros shift. reflexivity.
  - intros NDEBUG scale shift Hpaired Hfail.
    pose proof (CreateWeightTensors_error_paths fmul compress NDEBUG device layout weights
                  conv scale shift sizes uploadBatch biasWeightResourceOut) as Hpaths.
    rewrite Hfail in Hpaths. destruct Hpaths as (_ & -> & Hshift).
    unfold names_paired in Hpaired. destruct shift; [discriminate | congruence].
  - intros NDEBUG scaleName r. split; [unfold names_paired; cbn; discriminate |].
    unfold CreateWeightTensors. cbn [is_null]. rewrite bind_Done.
    destruct (CreateWeightResource_cases device layout sizes) as [[filterResource ->] | ->];
      [rewrite bind_Done | discriminate].
    destruct biasWeightResourceOut; [| discriminate].
    destruct (CreateWeightResource_cases device layout (U4 1 (at0 sizes) 1 1))
      as [[biasResource ->] | ->]; [rewrite !bind_Done | discriminate].
    destruct conv as [convName |]; [| discriminate].
    unfold map_subscript.
    destruct (weights !! convName) as [filterWeights |]; rewrite !bind_Done;
      repeat match goal with
             | |- context [?m !! scaleName] =>
                 destruct (m !! scaleName); rewrite ?bind_Done
             end;
      discriminate.
Qed.

(** The assertion and the release build on a call outside the precondition. *)
Example CreateWeightTensors_unpaired_names :
  CreateWeightTensors Z.mul (fun x => x) false sample_device Default
    {["conv_final/weights" := [10]]} (Some "conv_final/weights") None (Some "shift")
    (U4 1 1 1 1) [] false = AssertionFailed /\
  CreateWeightTensors Z.mul (fun x => x) true sample_device Default
    {["conv_final/weights" := [10]]} (Some "conv_final/weights") None (Some "shift")
    (U4 1 1 1 1) [] false
  = CreateWeightTensors Z.mul (fun x => x) true sample_device Default
      {["conv_final/weights" := [10]]} (Some "conv_final/weights") None None
      (U4 1 1 1 1) [] false.
Proof. split; reflexivity. Qed.

Lemma scale_shift_names_precondition_witness :
  names_paired None None /\
  CreateWeightTensors Z.mul (fun x => x) false sample_device Default
    {["conv_final/weights" := [10]]} (Some "conv_final/weights") None None
    (U4 1 1 1 1) [] false
  <> AssertionFailed.
Proof.
  split; [reflexivity |].
  apply (scale_shift_names_precondition Z.mul (fun x => x) sample_device Default
           {["conv_final/weights" := [10]]} (Some "conv_final/weights")
           (U4 1 1 1 1) [] false).
  reflexivity.
Defined.

(** ** Device loss (C5) *)

Lemma owned_Reset_same m this : owned (Reset m this) m = None.
Proof. unfold Reset, assign; cbn. apply fn_lookup_insert. Qed.

Lemma owned_Reset_other m m' this : m <> m' -> owned (Reset m this) m' = owned this m'.
Proof. intros Hne. unfold Reset, assign; cbn. apply fn_lookup_insert_ne, Hne. Qed.

Lemma owned_reset_weights_other count i this m :
  (forall j, m <> m_modelConvFilterWeights j) ->
  (forall j, m <> m_modelConvBiasWeights j) ->
  owned (reset_weights count i this) m = owned this m.
Proof.
  intros Hf Hb. revert i this. induction count as [| count IH]; intros i this; cbn.
  - reflexivity.
  - rewrite IH, !owned_Reset_other by (apply not_eq_sym; auto). reflexivity.
Qed.

Lemma owned_reset_weights_filter count i this j :
  (i <= j < i + count)%nat ->
  owned (reset_weights count i this) (m_modelConvFilterWeights j) = None.
Proof.
  revert i this. induction count as [| count IH]; intros i this Hj; cbn; [lia |].
  destruct (Nat.eq_dec i j) as [-> | Hne].
  - clear IH Hj. generalize (S j) at 1. intros i'.
    assert (forall count i' this',
              owned this' (m_modelConvFilterWeights j) = None ->
              owned (reset_weights count i' this') (m_modelConvFilterWeights j) = None) as Hkeep.
    { clear. induction count as [| count IH]; intros i' this' Hnone; cbn; [exact Hnone |].
      apply IH. destruct (Nat.eq_dec i' j) as [-> | Hne].
      - rewrite owned_Reset_other by discriminate. apply owned_Reset_same.
      - rewrite !owned_Reset_other by congruence. exact Hnone. }
    apply Hkeep. rewrite owned_Reset_other by discriminate. apply owned_Reset_same.
  - apply IH. lia.
Qed.

Lemma owned_reset_weights_bias count i this j :
  (i <= j < i + count)%nat ->
  owned (reset_weights count i this) (m_modelConvBiasWeights j) = None.
Proof.
  revert i this. induction count as [| count IH]; intros i this Hj; cbn; [lia |].
  destruct (Nat.eq_dec i j) as [-> | Hne].
  - clear IH Hj. generalize (S j) at 1. intros i'.
    assert (forall count i' this',
              owned this' (m_modelConvBiasWeights j) = None ->
              owned (reset_weights count i' this') (m_modelConvBiasWeights j) = None) as Hkeep.
    { clear. induction count as [| count IH]; intros i' this' Hnone; cbn; [exact Hnone |].
      apply IH. destruct (Nat.eq_dec i' j) as [-> | Hne].
      - apply owned_Reset_same.
      - rewrite !owned_Reset_other by congruence. exact Hnone. }
    apply Hkeep. apply owned_Reset_same.
  - apply IH. lia.
Qed.

(** [OnDeviceLost] never touches the binding table. *)
Lemma OnDeviceLost_binding_table this :
  owned (OnDeviceLost this) m_dmlBindingTable = owned this m_dmlBindingTable.
Proof.
  unfold OnDeviceLost. cbv zeta.
  rewrite owned_Reset_other by discriminate.
  rewrite owned_reset_weights_other by discriminate.
  rewrite !owned_Reset_other by discriminate. reflexivity.
Qed.

(** Every other device-dependent member is null afterwards. *)
Lemma OnDeviceLost_releases this m :
  m ∈ device_dependent -> m <> m_dmlBindingTable -> owned (OnDeviceLost this) m = None.
Proof.
  intros Hin Hne. unfold device_dependent in Hin. cbn in Hin.
  repeat (apply elem_of_cons in Hin as [-> | Hin]); try (exfalso; apply Hne; reflexivity);
    try (apply elem_of_nil in Hin; contradiction);
    unfold OnDeviceLost; cbv zeta;
    try (rewrite owned_Reset_other by discriminate;
         apply owned_reset_weights_filter; unfold c_numConvLayers; lia);
    try (rewrite owned_Reset_other by discriminate;
         apply owned_reset_weights_bias; unfold c_numConvLayers; lia);
    try apply owned_Reset_same;
    rewrite owned_Reset_other by discriminate;
    rewrite owned_reset_weights_other by discriminate;
    repeat first [apply owned_Reset_same | rewrite owned_Reset_other by discriminate].
Qed.

(** C5 (the code does not do this). [OnDeviceLost] resets every
    device-dependent member of the pipeline except the binding table of the
    compiled graph: [m_dmlBindingTable] still holds, after the call, the object
    it held before, so a pipeline with all its resources built is not left
    empty. [OnDeviceRestored] is [CreateDeviceDependentResources], the whole
    build sequence. *)
Theorem OnDeviceLost_leaves_binding_table (this : Upscaler) :
  (forall m, m ∈ device_dependent -> m <> m_dmlBindingTable ->
     owned (OnDeviceLost this) m = None) /\
  m_dmlBindingTable ∈ device_dependent /\
  owned (OnDeviceLost this) m_dmlBindingTable = owned this m_dmlBindingTable /\
  (all_built this ->
   ~ (forall m, m ∈ device_dependent -> owned (OnDeviceLost this) m = None)) /\
  (forall device create initialize,
     OnDeviceRestored device create initialize (OnDeviceLost this)
     = CreateDeviceDependentResources device create initialize (OnDeviceLost this)) /\
  (exists built handles,
     sample_pipeline = Done (built, handles.1, handles.2) /\
     owned (OnDeviceLost built) m_dmlBindingTable = Some DMLBindingTable).
Proof.
  assert (m_dmlBindingTable ∈ device_dependent) as Hin.
  { unfold device_dependent. rewrite !elem_of_app. right. right. right.
    rewrite !elem_of_cons. auto. }
  split; [intros m; apply OnDeviceLost_releases |].
  split; [exact Hin |].
  split; [apply OnDeviceLost_binding_table |].
  split; [| split].
  - intros Hbuilt Hall. specialize (Hall _ Hin). destruct (Hbuilt _ Hin) as [o Ho].
    rewrite OnDeviceLost_binding_table, Ho in Hall. discriminate.
  - intros. reflexivity.
  - eexists _, (_, _). split; [vm_compute; reflexivity |]. reflexivity.
Qed.

Lemma OnDeviceLost_leaves_binding_table_witness :
  all_built fully_built /\
  ~ (forall m, m ∈ device_dependent -> owned (OnDeviceLost fully_built) m = None) /\
  owned (OnDeviceLost fully_built) m_dmlBindingTable = Some DMLBindingTable.
Proof.
  assert (all_built fully_built) as Hbuilt by (intros m _; eexists; reflexivity).
  split; [exact Hbuilt |]. split.
  - apply (OnDeviceLost_leaves_binding_table fully_built), Hbuilt.
  - reflexivity.
Defined.

(** ** Destruction (C6) *)

Lemma Upscaler_destructor_waits_first this :
  is_Some (owned this m_deviceResources) ->
  exists releases,
    delete_expression pointer_to_Upscaler this
    = WaitForGpu :: (ReleaseMember <$> releases) ++ [OperatorDelete].
Proof.
  intros [o Ho]. unfold delete_expression, Upscaler_destructor. rewrite Ho.
  exists (reverse declared_members). reflexivity.
Qed.

(** C6 (the code does not do this). [DeleteUpscaler] applies [delete] to a
    [void*]: the destructor of [Upscaler] does not run, so the call neither
    waits for the GPU nor releases any member; only the storage is given back.
    The wait would come first, before every release, if the operand were an
    [Upscaler*]. *)
Theorem DeleteUpscaler_skips_the_wait (pUPScaler : Upscaler) :
  DeleteUpscaler pUPScaler = [OperatorDelete] /\
  (WaitForGpu ∉ DeleteUpscaler pUPScaler) /\
  (forall m, ~ (ReleaseMember m ∈ DeleteUpscaler pUPScaler)) /\
  (is_Some (owned pUPScaler m_deviceResources) ->
   exists releases,
     delete_expression pointer_to_Upscaler pUPScaler
     = WaitForGpu :: (ReleaseMember <$> releases) ++ [OperatorDelete]) /\
  (exists created handles,
     sample_pipeline = Done (created, handles.1, handles.2) /\
     DeleteUpscaler created = [OperatorDelete]).
Proof.
  split; [reflexivity |].
  split; [| split; [| split]].
  - unfold DeleteUpscaler, delete_expression. intros Hin.
    apply list_elem_of_singleton in Hin. discriminate.
  - intros m. unfold DeleteUpscaler, delete_expression. intros Hin.
    apply list_elem_of_singleton in Hin. discriminate.
  - apply Upscaler_destructor_waits_first.
  - eexists _, (_, _). split; [vm_compute; reflexivity | reflexivity].
Qed.

Lemma DeleteUpscaler_skips_the_wait_witness :
  is_Some (owned fully_built m_deviceResources) /\
  (exists releases,
     delete_expression pointer_to_Upscaler fully_built
     = WaitForGpu :: (ReleaseMember <$> releases) ++ [OperatorDelete]) /\
  DeleteUpscaler fully_built = [OperatorDelete].
Proof.
  assert (is_Some (owned fully_built m_deviceResources)) as Hsome
    by (eexists; reflexivity).
  split; [exact Hsome |]. split.
  - apply (DeleteUpscaler_skips_the_wait fully_built), Hsome.
  - apply (DeleteUpscaler_skips_the_wait fully_built).
Defined.

(** ** Building the pipeline *)

Lemma ThrowIfFailed_Done_inv {A : Type} (hr : option A) (a : A) :
  ThrowIfFailed hr = Done a -> hr = Some a.
Proof. destruct hr; cbn; intros Heq; [injection Heq as -> | discriminate]. reflexivity. Qed.

Lemma deref_Done_inv this m o : deref this m = Done o -> owned this m = Some o.
Proof.
  unfold deref. destruct (owned this m); intros Heq;
    [injection Heq as -> | discriminate].
  reflexivity.
Qed.

Lemma deref_Some this m o : owned this m = Some o -> deref this m = Done o.
Proof. unfold deref. intros ->. reflexivity. Qed.

Section Build.

Variable device : ID3D12Device.
Variable CreateDeviceResources : outcome unit.
Variable CreateDirectMLResources : Upscaler -> outcome Upscaler.
Variable InitializeDirectMLResources : Upscaler -> outcome Upscaler.

Hypothesis Hcreate : keeps_frame_state CreateDirectMLResources.
Hypothesis Hinitialize : keeps_frame_state InitializeDirectMLResources.
Hypothesis Hbuilds : builds_DirectML CreateDirectMLResources InitializeDirectMLResources.

(** [CreateTextureResources] keeps the source size and the heaps, and the
    device has accepted a texture of the source size. *)
Lemma CreateTextureResources_Done this this' :
  CreateTextureResources device this = Done this' ->
  m_srcTextureWidth this' = m_srcTextureWidth this /\
  m_srcTextureHeight this' = m_srcTextureHeight this /\
  owned this' m_deviceResources = owned this m_deviceResources /\
  owned this' m_SRVDescriptorHeap = owned this m_SRVDescriptorHeap /\
  owned this' m_RTVDescriptorHeap = owned this m_RTVDescriptorHeap /\
  exists r,
    CreateCommittedResource device D3D12_HEAP_TYPE_DEFAULT D3D12_HEAP_FLAG_SHARED
      (Texture2D (m_srcTextureWidth this) (m_srcTextureHeight this)
         D3D12_RESOURCE_FLAG_ALLOW_SIMULTANEOUS_ACCESS)
      D3D12_RESOURCE_STATE_NON_PIXEL_SHADER_RESOURCE = Some r.
Proof.
  unfold CreateTextureResources. cbv zeta. intros Hrun.
  apply bind_Done_inv in Hrun as (vertexBuffer & _ & Hrun).
  apply bind_Done_inv in Hrun as (_ & _ & Hrun).
  apply bind_Done_inv in Hrun as (indexBuffer & _ & Hrun).
  apply bind_Done_inv in Hrun as (_ & _ & Hrun).
  apply bind_Done_inv in Hrun as (videoTexture & Hvideo & Hrun).
  apply bind_Done_inv in Hrun as (_ & _ & Hrun).
  apply bind_Done_inv in Hrun as (handle & _ & Hrun).
  injection Hrun as <-.
  apply ThrowIfFailed_Done_inv in Hvideo. cbn in Hvideo.
  repeat split; try reflexivity. exists videoTexture. exact Hvideo.
Qed.

Lemma CreateDeviceDependentResources_Done this this' :
  CreateDeviceDependentResources device CreateDirectMLResources InitializeDirectMLResources this
  = Done this' ->
  m_srcTextureWidth this' = m_srcTextureWidth this /\
  m_srcTextureHeight this' = m_srcTextureHeight this /\
  is_Some (owned this' m_deviceResources) /\
  is_Some (owned this' m_SRVDescriptorHeap) /\
  is_Some (owned this' m_RTVDescriptorHeap) /\
  is_Some (owned this' m_dmlDescriptorHeap) /\
  is_Some (owned this' m_dmlCommandRecorder) /\
  exists r,
    CreateCommittedResource device D3D12_HEAP_TYPE_DEFAULT D3D12_HEAP_FLAG_SHARED
      (Texture2D (m_srcTextureWidth this) (m_srcTextureHeight this)
         D3D12_RESOURCE_FLAG_ALLOW_SIMULTANEOUS_ACCESS)
      D3D12_RESOURCE_STATE_NON_PIXEL_SHADER_RESOURCE = Some r.
Proof using Hcreate Hinitialize Hbuilds.
  unfold CreateDeviceDependentResources. cbv zeta. intros Hrun.
  apply bind_Done_inv in Hrun as (resources & Hresources & Hrun).
  apply deref_Done_inv in Hresources.
  apply bind_Done_inv in Hrun as (srv & _ & Hrun).
  apply bind_Done_inv in Hrun as (rtv & _ & Hrun).
  apply bind_Done_inv in Hrun as (this1 & Htextures & Hrun).
  apply bind_Done_inv in Hrun as (this2 & Hdml & Hrun).
  apply CreateTextureResources_Done in Htextures
    as (Hw1 & Hh1 & Hres1 & Hsrv1 & Hrtv1 & Htexture).
  destruct (Hcreate _ _ Hdml) as (Hw2 & Hh2 & Hres2 & Hsrv2 & Hrtv2).
  destruct (Hinitialize _ _ Hrun) as (Hw3 & Hh3 & Hres3 & Hsrv3 & Hrtv3).
  destruct (Hbuilds _ _ _ Hdml Hrun) as (Hheap & Hrecorder).
  cbn in Hw1, Hh1, Hres1, Hsrv1, Hrtv1, Htexture.
  rewrite !fn_lookup_insert_ne in Hres1 by discriminate.
  rewrite fn_lookup_insert_ne, fn_lookup_insert in Hsrv1 by discriminate.
  rewrite fn_lookup_insert in Hrtv1.
  split; [congruence |]. split; [congruence |].
  split; [rewrite Hres3, Hres2, Hres1, Hresources; eexists; reflexivity |].
  split; [rewrite Hsrv3, Hsrv2, Hsrv1; eexists; reflexivity |].
  split; [rewrite Hrtv3, Hrtv2, Hrtv1; eexists; reflexivity |].
  split; [exact Hheap |]. split; [exact Hrecorder |]. exact Htexture.
Qed.

(** What an initialised pipeline holds. *)
Lemma Initialize_Done this width height this' source target :
  Initialize device CreateDeviceResources CreateDirectMLResources
    InitializeDirectMLResources this width height = Done (this', source, target) ->
  m_srcTextureWidth this' = wrap32 width /\
  m_srcTextureHeight this' = wrap32 height /\
  is_Some (owned this' m_deviceResources) /\
  is_Some (owned this' m_SRVDescriptorHeap) /\
  is_Some (owned this' m_RTVDescriptorHeap) /\
  is_Some (owned this' m_dmlDescriptorHeap) /\
  is_Some (owned this' m_dmlCommandRecorder) /\
  exists r,
    CreateCommittedResource device D3D12_HEAP_TYPE_DEFAULT D3D12_HEAP_FLAG_SHARED
      (Texture2D (wrap32 width) (wrap32 height) D3D12_RESOURCE_FLAG_ALLOW_SIMULTANEOUS_ACCESS)
      D3D12_RESOURCE_STATE_NON_PIXEL_SHADER_RESOURCE = Some r.
Proof using Hcreate Hinitialize Hbuilds.
  unfold Initialize. cbv zeta. intros Hrun.
  apply bind_Done_inv in Hrun as (_ & _ & Hrun).
  apply bind_Done_inv in Hrun as (_ & _ & Hrun).
  apply bind_Done_inv in Hrun as (this1 & Hbuild & Hrun).
  injection Hrun as <- _ _.
  apply CreateDeviceDependentResources_Done in Hbuild. exact Hbuild.
Qed.

End Build.

(** ** Recording a frame (C7, C9) *)

(** The frame a pipeline records once its heaps and the command recorder are
    in place. *)
Lemma Render_built this inputWaitFence inputWaitFenceValue :
  is_Some (owned this m_deviceResources) ->
  is_Some (owned this m_SRVDescriptorHeap) ->
  is_Some (owned this m_RTVDescriptorHeap) ->
  is_Some (owned this m_dmlDescriptorHeap) ->
  is_Some (owned this m_dmlCommandRecorder) ->
  exists commands,
    Render this inputWaitFence inputWaitFenceValue = Done commands /\
    dispatches commands
    = [(DivUp (m_srcTextureWidth this) 32, DivUp (m_srcTextureHeight this) 16, 1)] /\
    viewports commands
    = [{| TopLeftX := 0; TopLeftY := 0;
          vp_Width := FLOAT_of_LONG (to_int32 (m_srcTextureWidth this *32 2));
          vp_Height := FLOAT_of_LONG (to_int32 (m_srcTextureHeight this *32 2));
          MinDepth := 0; MaxDepth := 0 |}] /\
    scissors commands
    = [{| rect_left := 0; rect_top := 0;
          rect_right := to_int32 (m_srcTextureWidth this *32 2);
          rect_bottom := to_int32 (m_srcTextureHeight this *32 2) |}] /\
    graphics_constants commands
    = [(e_rrpIdxCB, 3,
        {| Height := m_srcTextureHeight this *32 2;
           Width := m_srcTextureWidth this *32 2;
           UseNhwc := is_NHWC (m_tensorLayout this) |}, 0)].
Proof.
  intros [resources Hresources] [srv Hsrv] [rtv Hrtv] [heap Hheap] [recorder Hrecorder].
  unfold Render.
  rewrite (deref_Some _ _ _ Hresources), (deref_Some _ _ _ Hsrv),
    (deref_Some _ _ _ Hheap), (deref_Some _ _ _ Hrecorder), (deref_Some _ _ _ Hrtv).
  rewrite !bind_Done. cbv zeta.
  eexists. split; [reflexivity |]. repeat split.
Qed.

(** Doubling a size below 2^23 stays exact in [UINT], [LONG] and [FLOAT]. *)
Lemma double_exact (s : Z) :
  0 <= s < 2 ^ 23 ->
  s *32 2 = 2 * s /\
  to_int32 (s *32 2) = 2 * s /\
  FLOAT_of_LONG (to_int32 (s *32 2)) = 2 * s.
Proof.
  intros Hs.
  assert (s *32 2 = 2 * s) as Hmul.
  { unfold mul32. rewrite wrap32_small by lia. lia. }
  assert (to_int32 (2 * s) = 2 * s) as Hint.
  { unfold to_int32. cbv zeta. rewrite wrap32_small by lia.
    destruct (Z.ltb_spec (2 * s) (2 ^ 31)); [reflexivity | lia]. }
  rewrite Hmul, Hint. split; [reflexivity |]. split; [reflexivity |].
  unfold FLOAT_of_LONG. cbv zeta.
  destruct (Z.leb_spec (Z.log2 (Z.abs (2 * s)) - 23) 0) as [Hle | Hgt]; [reflexivity |].
  exfalso. rewrite Z.abs_eq in Hgt by lia.
  destruct (Z.eq_dec s 0) as [-> | Hnz]; [vm_compute in Hgt; discriminate |].
  assert (Z.log2 (2 * s) < 24) by (apply Z.log2_lt_pow2; lia). lia.
Qed.

(** An [int] that the device accepts as a texture size is stored unchanged: a
    negative one would be stored as a value of 2^31 or more. *)
Lemma accepted_size_is_stored (limit v : Z) :
  limit < 2 ^ 31 -> is_int32 v -> 1 <= wrap32 v <= limit -> wrap32 v = v.
Proof.
  unfold is_int32. intros Hlimit Hint Hok.
  destruct (Z.lt_ge_cases v 0) as [Hneg | Hnonneg].
  - exfalso. unfold wrap32 in Hok.
    replace v with (v + 2 ^ 32 + (-1) * 2 ^ 32) in Hok by ring.
    rewrite Z.mod_add in Hok by lia. rewrite Z.mod_small in Hok by lia. lia.
  - apply wrap32_small. lia.
Qed.

(** C7. For every pipeline that [Initialize] has built for a source of
    [width] x [height] (two [int]s), on a device that limits the size of its
    textures (below 2^23; Direct3D 12 stops at 16384), every [Render] records a
    tensor-to-image pass whose viewport, scissor rectangle and constant block
    are exactly (2 * width, 2 * height), twice the stored source size; the
    factor 2 is a constant of [Render], which reads nothing but the pipeline
    and the fence. *)
Theorem Render_targets_twice_the_source
    (device : ID3D12Device) (CreateDeviceResources : outcome unit)
    (CreateDirectMLResources InitializeDirectMLResources : Upscaler -> outcome Upscaler)
    (this this' : Upscaler) (width height : Z) (source target : HANDLE)
    (inputWaitFence : HANDLE) (inputWaitFenceValue : Z) (limit : Z) :
  limit < 2 ^ 23 ->
  respects_texture_limit limit device ->
  keeps_frame_state CreateDirectMLResources ->
  keeps_frame_state InitializeDirectMLResources ->
  builds_DirectML CreateDirectMLResources InitializeDirectMLResources ->
  is_int32 width -> is_int32 height ->
  Initialize device CreateDeviceResources CreateDirectMLResources
    InitializeDirectMLResources this width height = Done (this', source, target) ->
  m_srcTextureWidth this' = width /\
  m_srcTextureHeight this' = height /\
  exists commands,
    Render this' inputWaitFence inputWaitFenceValue = Done commands /\
    viewports commands
    = [{| TopLeftX := 0; TopLeftY := 0; vp_Width := 2 * width; vp_Height := 2 * height;
          MinDepth := 0; MaxDepth := 0 |}] /\
    scissors commands
    = [{| rect_left := 0; rect_top := 0;
          rect_right := 2 * width; rect_bottom := 2 * height |}] /\
    graphics_constants commands
    = [(e_rrpIdxCB, 3,
        {| Height := 2 * height; Width := 2 * width;
           UseNhwc := is_NHWC (m_tensorLayout this') |}, 0)].
Proof.
  intros Hbound Hlimit Hcreate Hinitialize Hbuilds Hwidth Hheight Hrun.
  destruct (Initialize_Done device CreateDeviceResources CreateDirectMLResources
              InitializeDirectMLResources Hcreate Hinitialize Hbuilds
              this width height this' source target Hrun)
    as (Hw & Hh & Hresources & Hsrv & Hrtv & Hheap & Hrecorder & r & Htexture).
  destruct (Hlimit _ _ _ _ _ _ _ Htexture) as (Hwok & Hhok).
  assert (limit < 2 ^ 31) as Hbound31 by lia.
  pose proof (accepted_size_is_stored limit width Hbound31 Hwidth Hwok) as Hwstored.
  pose proof (accepted_size_is_stored limit height Hbound31 Hheight Hhok) as Hhstored.
  rewrite Hwstored in Hw, Hwok. rewrite Hhstored in Hh, Hhok.
  split; [exact Hw |]. split; [exact Hh |].
  destruct (Render_built this' inputWaitFence inputWaitFenceValue
              Hresources Hsrv Hrtv Hheap Hrecorder)
    as (commands & Hrender & _ & Hviewports & Hscissors & Hconstants).
  exists commands. split; [exact Hrender |].
  rewrite Hw, Hh in Hviewports, Hscissors, Hconstants.
  destruct (double_exact width) as (Hw1 & Hw2 & Hw3); [lia |].
  destruct (double_exact height) as (Hh1 & Hh2 & Hh3); [lia |].
  rewrite Hw3, Hh3 in Hviewports. rewrite Hw2, Hh2 in Hscissors.
  rewrite Hw1, Hh1 in Hconstants. auto.
Qed.

Lemma sample_device_respects_texture_limit :
  respects_texture_limit D3D12_REQ_TEXTURE2D_U_OR_V_DIMENSION sample_device.
Proof.
  intros heap heapFlags width height flags state r. cbn.
  unfold D3D12_REQ_TEXTURE2D_U_OR_V_DIMENSION.
  destruct (Z.leb_spec 1 width), (Z.leb_spec width 16384),
    (Z.leb_spec 1 height), (Z.leb_spec height 16384); cbn; intros Heq;
    try discriminate; lia.
Qed.

Lemma sample_CreateDirectMLResources_keeps :
  keeps_frame_state sample_CreateDirectMLResources.
Proof. intros this this' Heq. injection Heq as <-. repeat split. Qed.

Lemma sample_InitializeDirectMLResources_keeps :
  keeps_frame_state sample_InitializeDirectMLResources.
Proof. intros this this' Heq. injection Heq as <-. repeat split. Qed.

Lemma sample_builds_DirectML :
  builds_DirectML sample_CreateDirectMLResources sample_InitializeDirectMLResources.
Proof.
  intros this this1 this2 Hcreate Hinitialize.
  injection Hcreate as <-. injection Hinitialize as <-.
  split; eexists; reflexivity.
Qed.

Lemma Render_targets_twice_the_source_witness :
  exists this' commands,
    sample_pipeline = Done (this', 1, 0) /\
    Render this' 7 1 = Done commands /\
    viewports commands
    = [{| TopLeftX := 0; TopLeftY := 0; vp_Width := 128; vp_Height := 128;
          MinDepth := 0; MaxDepth := 0 |}] /\
    scissors commands
    = [{| rect_left := 0; rect_top := 0; rect_right := 128; rect_bottom := 128 |}].
Proof.
  assert (exists this', sample_pipeline = Done (this', 1, 0)) as [this' Hrun]
    by (eexists; vm_compute; reflexivity).
  destruct (Render_targets_twice_the_source sample_device (Done tt)
              sample_CreateDirectMLResources sample_InitializeDirectMLResources
              (Upscaler_constructor 0) this' 64 64 1 0 7 1
              D3D12_REQ_TEXTURE2D_U_OR_V_DIMENSION)
    as (_ & _ & commands & Hrender & Hviewports & Hscissors & _).
  - unfold D3D12_REQ_TEXTURE2D_U_OR_V_DIMENSION; lia.
  - exact sample_device_respects_texture_limit.
  - exact sample_CreateDirectMLResources_keeps.
  - exact sample_InitializeDirectMLResources_keeps.
  - exact sample_builds_DirectML.
  - unfold is_int32; lia.
  - unfold is_int32; lia.
  - exact Hrun.
  - exists this', commands. auto.
Defined.

(** ** The dispatch grid (C9) *)

Lemma DivUp_exact (a b : Z) :
  0 <= a -> 0 < b -> a + b - 1 <= 2 ^ 32 - 1 ->
  DivUp a b = (a + b - 1) / b /\ ceiling_of a b (DivUp a b).
Proof.
  intros Ha Hb Hfit.
  assert (DivUp a b = (a + b - 1) / b) as Heq.
  { unfold DivUp, div32, sub32, add32, wrap32.
    rewrite Zminus_mod_idemp_l. rewrite Z.mod_small by lia. reflexivity. }
  split; [exact Heq |]. rewrite Heq. unfold ceiling_of.
  pose proof (Z.div_mod (a + b - 1) b) as Hdm.
  pose proof (Z.mod_pos_bound (a + b - 1) b Hb) as Hr.
  nia.
Qed.

(** C9. For every [Render] on a pipeline initialised with a positive source
    width and height (two [int]s), the image-to-tensor pass dispatches exactly
    one grid, of (ceil(width / 32), ceil(height / 16), 1) thread groups; and
    [DivUp a b], computed as (a + b - 1) / b on 32-bit unsigned values, is the
    ceiling of a / b whenever a + b - 1 does not exceed 2^32 - 1. *)
Theorem Render_dispatches_ceiling_grid
    (device : ID3D12Device) (CreateDeviceResources : outcome unit)
    (CreateDirectMLResources InitializeDirectMLResources : Upscaler -> outcome Upscaler)
    (this this' : Upscaler) (width height : Z) (source target : HANDLE)
    (inputWaitFence : HANDLE) (inputWaitFenceValue : Z) :
  keeps_frame_state CreateDirectMLResources ->
  keeps_frame_state InitializeDirectMLResources ->
  builds_DirectML CreateDirectMLResources InitializeDirectMLResources ->
  is_int32 width -> is_int32 height ->
  0 < width -> 0 < height ->
  Initialize device CreateDeviceResources CreateDirectMLResources
    InitializeDirectMLResources this width height = Done (this', source, target) ->
  (exists commands x y,
     Render this' inputWaitFence inputWaitFenceValue = Done commands /\
     dispatches commands = [(x, y, 1)] /\
     ceiling_of width 32 x /\ ceiling_of height 16 y) /\
  (forall a b, is_uint32 a -> is_uint32 b -> 0 < b -> a + b - 1 <= 2 ^ 32 - 1 ->
     DivUp a b = (a + b - 1) / b /\ ceiling_of a b (DivUp a b)).
Proof.
  intros Hcreate Hinitialize Hbuilds Hwidth Hheight Hwpos Hhpos Hrun.
  split.
  - destruct (Initialize_Done device CreateDeviceResources CreateDirectMLResources
                InitializeDirectMLResources Hcreate Hinitialize Hbuilds
                this width height this' source target Hrun)
      as (Hw & Hh & Hresources & Hsrv & Hrtv & Hheap & Hrecorder & _).
    unfold is_int32 in Hwidth, Hheight.
    rewrite wrap32_small in Hw, Hh by lia.
    destruct (Render_built this' inputWaitFence inputWaitFenceValue
                Hresources Hsrv Hrtv Hheap Hrecorder)
      as (commands & Hrender & Hdispatches & _).
    rewrite Hw, Hh in Hdispatches.
    exists commands, (DivUp width 32), (DivUp height 16).
    split; [exact Hrender |]. split; [exact Hdispatches |].
    split; apply DivUp_exact; lia.
  - intros a b Ha Hb Hbpos Hfit. apply DivUp_exact; [apply Ha | exact Hbpos | exact Hfit].
Qed.

Lemma Render_dispatches_ceiling_grid_witness :
  exists this' commands,
    sample_pipeline = Done (this', 1, 0) /\
    Render this' 7 1 = Done commands /\
    dispatches commands = [(2, 4, 1)] /\
    DivUp 4294967295 1 = 4294967295.
Proof.
  assert (exists this', sample_pipeline = Done (this', 1, 0)) as [this' Hrun]
    by (eexists; vm_compute; reflexivity).
  destruct (Render_dispatches_ceiling_grid sample_device (Done tt)
              sample_CreateDirectMLResources sample_InitializeDirectMLResources
              (Upscaler_constructor 0) this' 64 64 1 0 7 1)
    as ((commands & x & y & Hrender & Hdispatches & Hx & Hy) & Hdivup).
  - exact sample_CreateDirectMLResources_keeps.
  - exact sample_InitializeDirectMLResources_keeps.
  - exact sample_builds_DirectML.
  - unfold is_int32; lia.
  - unfold is_int32; lia.
  - lia.
  - lia.
  - exact Hrun.
  - exists this', commands. split; [exact Hrun |]. split; [exact Hrender |].
    split.
    + unfold ceiling_of in Hx, Hy.
      assert (x = 2) as -> by lia. assert (y = 4) as -> by lia. exact Hdispatches.
    + destruct (Hdivup 4294967295 1) as (Heq & _); try (unfold is_uint32; lia).
      rewrite Heq. reflexivity.
Defined.

(** Without the bound the formula is not the ceiling: the sum wraps. *)
Example DivUp_wraps : DivUp 4294967295 32 = 0.
Proof. reflexivity. Qed.
(** * Further properties *)

(** ** Strides address every element once *)

Lemma tensor_offset_GetStrides sizes layout n c h w :
  positive_dims sizes -> element_total sizes < 2 ^ 32 ->
  tensor_offset (GetStrides sizes layout) n c h w
  = match layout with
    | Default => indexNCHW sizes n c h w
    | NHWC => indexNHWC sizes n c h w
    end.
Proof.
  intros Hpos Hfit. pose proof (channel_total_bounds sizes Hpos Hfit) as Hchw.
  destruct sizes as [N C H W]. cbn [at0 at1 at2 at3] in Hchw.
  destruct (inner_products_fit N C H W Hpos) as (H1 & H2 & H3); [lia |].
  unfold tensor_offset. destruct layout.
  - rewrite GetStrides_Default_wrapped. cbn [at0 at1 at2 at3].
    rewrite !wrap32_small by lia. unfold indexNCHW. cbn [at0 at1 at2 at3]. ring.
  - rewrite GetStrides_NHWC_wrapped. cbn [at0 at1 at2 at3].
    rewrite !wrap32_small by lia. unfold indexNHWC. cbn [at0 at1 at2 at3]. ring.
Qed.

(** A number written as digit-and-rest in base [B] has one such writing. *)
Lemma radix_inj (B q r q' r' : Z) :
  0 <= r < B -> 0 <= r' < B -> q * B + r = q' * B + r' -> q = q' /\ r = r'.
Proof.
  intros Hr Hr' Heq.
  assert (q = q') as -> by (destruct (Z.lt_trichotomy q q') as [Hlt | [Heq' | Hgt]]; nia).
  split; [reflexivity | lia].
Qed.

Lemma indexNCHW_inj sizes n c h w n' c' h' w' :
  in_shape sizes n c h w -> in_shape sizes n' c' h' w' ->
  indexNCHW sizes n c h w = indexNCHW sizes n' c' h' w' ->
  n = n' /\ c = c' /\ h = h' /\ w = w'.
Proof.
  destruct sizes as [N C H W]. unfold in_shape, indexNCHW. cbn [at0 at1 at2 at3].
  intros (Hn & Hc & Hh & Hw) (Hn' & Hc' & Hh' & Hw') Heq.
  destruct (radix_inj W ((n * C + c) * H + h) w ((n' * C + c') * H + h') w')
    as (Heq1 & Hweq); [lia | lia | lia |].
  destruct (radix_inj H (n * C + c) h (n' * C + c') h') as (Heq2 & Hheq); [lia | lia | lia |].
  destruct (radix_inj C n c n' c') as (Hneq & Hceq); [lia | lia | lia |].
  auto.
Qed.

Lemma indexNHWC_inj sizes n c h w n' c' h' w' :
  in_shape sizes n c h w -> in_shape sizes n' c' h' w' ->
  indexNHWC sizes n c h w = indexNHWC sizes n' c' h' w' ->
  n = n' /\ c = c' /\ h = h' /\ w = w'.
Proof.
  destruct sizes as [N C H W]. unfold in_shape, indexNHWC. cbn [at0 at1 at2 at3].
  intros (Hn & Hc & Hh & Hw) (Hn' & Hc' & Hh' & Hw') Heq.
  destruct (radix_inj C ((n * H + h) * W + w) c ((n' * H + h') * W + w') c')
    as (Heq1 & Hceq); [lia | lia | lia |].
  destruct (radix_inj W (n * H + h) w (n' * H + h') w') as (Heq2 & Hweq); [lia | lia | lia |].
  destruct (radix_inj H n h n' h') as (Hneq & Hheq); [lia | lia | lia |].
  auto.
Qed.

(** X1. For a shape of positive dimensions whose N*C*H*W fits in 32 bits, the
    strides [GetStrides] returns, for either layout, give every coordinate
    (n, c, h, w) of the tensor an offset below N*C*H*W, and give two different
    coordinates two different offsets: the elements fill the buffer without
    gap or overlap. *)
Theorem GetStrides_offsets_one_to_one (sizes : uint32x4) (layout : TensorLayout)
    (n c h w n' c' h' w' : Z) :
  positive_dims sizes -> element_total sizes < 2 ^ 32 ->
  in_shape sizes n c h w -> in_shape sizes n' c' h' w' ->
  0 <= tensor_offset (GetStrides sizes layout) n c h w < element_total sizes /\
  (tensor_offset (GetStrides sizes layout) n c h w
   = tensor_offset (GetStrides sizes layout) n' c' h' w' ->
   n = n' /\ c = c' /\ h = h' /\ w = w').
Proof.
  intros Hpos Hfit Hin Hin'.
  rewrite !tensor_offset_GetStrides by assumption.
  destruct (in_shape_index_bounds sizes n c h w Hin) as (_ & HD & HA).
  destruct layout.
  - split; [exact HD | apply indexNCHW_inj; assumption].
  - split; [exact HA | apply indexNHWC_inj; assumption].
Qed.

Lemma GetStrides_offsets_one_to_one_witness :
  0 <= tensor_offset (GetStrides (U4 2 3 4 5) NHWC) 1 2 3 4 < 120 /\
  (tensor_offset (GetStrides (U4 2 3 4 5) NHWC) 1 2 3 4
   = tensor_offset (GetStrides (U4 2 3 4 5) NHWC) 0 1 2 3 ->
   1 = 0 /\ 2 = 1 /\ 3 = 2 /\ 4 = 3).
Proof.
  apply (GetStrides_offsets_one_to_one (U4 2 3 4 5) NHWC 1 2 3 4 0 1 2 3);
    unfold positive_dims, element_total, in_shape; cbn; lia.
Defined.

(** ** The upload order is the order of the strides *)

(** X2. The conversion loops of [CreateWeightTensors] and [GetStrides] agree on
    the layout: for a filter of positive dimensions whose N*C*H*W weights a
    32-bit index can address, the value emitted at the offset that
    [GetStrides] gives coordinate (n, c, h, w) is the converted source weight
    of NCHW index n*C*H*W + c*H*W + h*W + w (times scale[n] with scale and
    shift), under both layouts; and the bias of channel n is emitted at the
    offset the strides of the bias shape (1, N, 1, 1) give it. *)
Theorem emitted_order_follows_GetStrides {float : Type}
    (fmul : float -> float -> float) (compress : float -> Z)
    (layout : TensorLayout) (useScaleShift : bool)
    (filterWeights scaleWeights shiftWeights : list float) (sizes : uint32x4) :
  positive_dims sizes ->
  element_total sizes < 2 ^ 32 ->
  length filterWeights = Z.to_nat (element_total sizes) ->
  (useScaleShift = true ->
   (Z.to_nat (at0 sizes) <= length scaleWeights)%nat /\
   (Z.to_nat (at0 sizes) <= length shiftWeights)%nat) ->
  exists filterWeightsFP16 biasWeightsFP16 : list Z,
    convertWeights fmul compress layout useScaleShift
      filterWeights scaleWeights shiftWeights sizes
    = Done (filterWeightsFP16, biasWeightsFP16) /\
    (forall n c h w, in_shape sizes n c h w ->
       exists v, filterWeights !! Z.to_nat (indexNCHW sizes n c h w) = Some v /\
         (useScaleShift = false ->
          filterWeightsFP16 !! Z.to_nat (tensor_offset (GetStrides sizes layout) n c h w)
          = Some (compress v)) /\
         (useScaleShift = true ->
          exists s, scaleWeights !! Z.to_nat n = Some s /\
            filterWeightsFP16 !! Z.to_nat (tensor_offset (GetStrides sizes layout) n c h w)
            = Some (compress (fmul v s)))) /\
    (useScaleShift = true ->
     forall n, 0 <= n < at0 sizes ->
       exists b, shiftWeights !! Z.to_nat n = Some b /\
         biasWeightsFP16
           !! Z.to_nat (tensor_offset (GetStrides (U4 1 (at0 sizes) 1 1) layout) 0 n 0 0)
         = Some (compress b)).
Proof.
  intros Hpos Hfit Hfilter Hscale.
  destruct (filterWeights_inhabited filterWeights sizes Hpos Hfilter) as [d _].
  eexists _, _. split; [| split].
  - apply (convertWeights_layout fmul compress _ _ _ _ sizes Hpos Hfit Hfilter Hscale d layout).
  - intros n c h w Hin.
    destruct (emittedAt_in_shape fmul compress useScaleShift filterWeights scaleWeights
                shiftWeights sizes Hpos Hfit Hfilter Hscale d n c h w Hin)
      as (v & Hv & Hplain & Hfused).
    pose proof (lookup_emitted_layout fmul compress useScaleShift filterWeights scaleWeights
                  sizes d layout n c h w Hpos Hin) as Hat.
    assert (emitted_position layout sizes n c h w
            = Z.to_nat (tensor_offset (GetStrides sizes layout) n c h w)) as Hposn.
    { rewrite tensor_offset_GetStrides by assumption. destruct layout; reflexivity. }
    rewrite Hposn in Hat.
    exists v. split; [exact Hv |]. split.
    + intros Huse. rewrite Hat, (Hplain Huse). reflexivity.
    + intros Huse. destruct (Hfused Huse) as (s & Hs & Hval).
      exists s. split; [exact Hs |]. rewrite Hat, Hval. reflexivity.
  - intros Huse n Hn.
    destruct (lookup_biasAt compress useScaleShift scaleWeights shiftWeights sizes Hscale d n
                Huse Hn) as (b & Hb & Hat).
    exists b. split; [exact Hb |].
    assert (tensor_offset (GetStrides (U4 1 (at0 sizes) 1 1) layout) 0 n 0 0 = n) as ->.
    { unfold tensor_offset. destruct layout; cbn [GetStrides at0 at1 at2 at3].
      - change (1 *32 1) with 1. lia.
      - lia. }
    exact Hat.
Qed.

Lemma emitted_order_follows_GetStrides_witness :
  exists filterWeightsFP16 biasWeightsFP16 : list Z,
    convertWeights Z.mul (fun x => x) NHWC true
      [10; 11; 12; 13; 14; 15; 16; 17; 18; 19; 20; 21] [2; 3] [100; 200] (U4 2 3 1 2)
    = Done (filterWeightsFP16, biasWeightsFP16) /\
    filterWeightsFP16
      !! Z.to_nat (tensor_offset (GetStrides (U4 2 3 1 2) NHWC) 1 2 0 1) = Some 63 /\
    biasWeightsFP16
      !! Z.to_nat (tensor_offset (GetStrides (U4 1 2 1 1) NHWC) 0 1 0 0) = Some 200.
Proof.
  destruct (emitted_order_follows_GetStrides Z.mul (fun x => x) NHWC true
              [10; 11; 12; 13; 14; 15; 16; 17; 18; 19; 20; 21] [2; 3] [100; 200] (U4 2 3 1 2))
    as (filterWeightsFP16 & biasWeightsFP16 & Hrun & Hfilter & Hbias).
  - unfold positive_dims; cbn; lia.
  - unfold element_total; cbn; lia.
  - reflexivity.
  - intros _. cbn. lia.
  - exists filterWeightsFP16, biasWeightsFP16. split; [exact Hrun |]. split.
    + destruct (Hfilter 1 2 0 1) as (v & Hv & _ & Hfused); [unfold in_shape; cbn; lia |].
      destruct (Hfused eq_refl) as (s & Hs & Hval).
      cbn in Hv, Hs. injection Hv as <-. injection Hs as <-. exact Hval.
    + destruct (Hbias eq_refl 1) as (b & Hb & Hval); [cbn; lia |].
      cbn in Hb. injection Hb as <-. exact Hval.
Defined.

(** ** How many values the loops emit *)

Lemma for_range_measure {S : Type} (measure : S -> nat) (k : nat)
    (body : Z -> S -> outcome S) (count : nat) (i : Z) (s s' : S) :
  (forall i s s', body i s = Done s' -> measure s' = (measure s + k)%nat) ->
  for_range count i body s = Done s' -> measure s' = (measure s + count * k)%nat.
Proof.
  intros Hbody. revert i s. induction count as [| count IH]; intros i s Hrun;
    cbn [for_range] in Hrun.
  - injection Hrun as <-. lia.
  - apply bind_Done_inv in Hrun as (s1 & H1 & Hrun).
    apply IH in Hrun. apply Hbody in H1. lia.
Qed.

Lemma for_uint32_measure {S : Type} (measure : S -> nat) (k : nat)
    (body : Z -> S -> outcome S) (bound : Z) (s s' : S) :
  (forall i s s', body i s = Done s' -> measure s' = (measure s + k)%nat) ->
  for_uint32 bound body s = Done s' -> measure s' = (measure s + Z.to_nat bound * k)%nat.
Proof. intros Hbody. apply for_range_measure, Hbody. Qed.

Section Counts.

Context {float : Type}.
Variable fmul : float -> float -> float.
Variable compress : float -> Z.
Variable useScaleShift : bool.
Variables filterWeights scaleWeights shiftWeights : list float.

Lemma push_scaledWeight_length idx n (acc acc' : list Z) :
  (scaledWeight ← scaledWeight fmul useScaleShift filterWeights scaleWeights idx n;
   mret (push_back acc (compress scaledWeight))) = Done acc' ->
  length acc' = (length acc + 1)%nat.
Proof.
  intros Hrun. apply bind_Done_inv in Hrun as (x & _ & Hrun).
  injection Hrun as <-. unfold push_back. rewrite length_app. reflexivity.
Qed.

Lemma emit_NHWC_length C H W n acc acc' :
  emit_NHWC fmul compress useScaleShift filterWeights scaleWeights C H W n acc = Done acc' ->
  length acc' = (length acc + Z.to_nat H * (Z.to_nat W * (Z.to_nat C * 1)))%nat.
Proof.
  unfold emit_NHWC. apply for_uint32_measure. intros h acc1 acc1'.
  apply for_uint32_measure. intros w acc2 acc2'.
  apply for_uint32_measure. intros c acc3 acc3'.
  apply push_scaledWeight_length.
Qed.

Lemma emit_Default_length C H W n acc acc' :
  emit_Default fmul compress useScaleShift filterWeights scaleWeights C H W n acc = Done acc' ->
  length acc' = (length acc + Z.to_nat (wrap32 (C * H * W)) * 1)%nat.
Proof.
  unfold emit_Default. rewrite mul32_assoc3.
  apply for_uint32_measure. intros i acc1 acc1'. apply push_scaledWeight_length.
Qed.

End Counts.

(** X3. Whenever the conversion loops of [CreateWeightTensors] end normally,
    for any shape at all, the NHWC layout has emitted N*H*W*C filter values
    and the Default layout N * ((C*H*W) mod 2^32), the bound of its one loop
    being a [uint32_t] product; the bias vector has N values with scale and
    shift and none without. *)
Theorem convertWeights_emitted_counts {float : Type}
    (fmul : float -> float -> float) (compress : float -> Z)
    (layout : TensorLayout) (useScaleShift : bool)
    (filterWeights scaleWeights shiftWeights : list float) (sizes : uint32x4)
    (filterWeightsFP16 biasWeightsFP16 : list Z) :
  convertWeights fmul compress layout useScaleShift
    filterWeights scaleWeights shiftWeights sizes
  = Done (filterWeightsFP16, biasWeightsFP16) ->
  length filterWeightsFP16
  = (Z.to_nat (at0 sizes) *
     match layout with
     | NHWC => Z.to_nat (at2 sizes) * Z.to_nat (at3 sizes) * Z.to_nat (at1 sizes)
     | Default => Z.to_nat (wrap32 (at1 sizes * at2 sizes * at3 sizes))
     end)%nat /\
  length biasWeightsFP16 = (if useScaleShift then Z.to_nat (at0 sizes) else 0)%nat.
Proof.
  unfold convertWeights. cbv zeta. intros Hrun. split.
  - apply (for_uint32_measure (fun s : list Z * list Z => length s.1)
             (match layout with
              | NHWC => Z.to_nat (at2 sizes) * (Z.to_nat (at3 sizes) * (Z.to_nat (at1 sizes) * 1))
              | Default => Z.to_nat (wrap32 (at1 sizes * at2 sizes * at3 sizes)) * 1
              end)%nat) in Hrun.
    { cbn [fst length] in Hrun. rewrite Hrun.
      destruct layout; rewrite ?Nat.mul_1_r, ?Nat.mul_assoc; reflexivity. }
    intros n [acc bias] [acc' bias'] Hbody. cbn [fst].
    apply bind_Done_inv in Hbody as (acc1 & Hemit & Hbody).
    assert (acc' = acc1) as ->.
    { destruct useScaleShift.
      - apply bind_Done_inv in Hbody as (x & _ & Hbody). injection Hbody as <- _. reflexivity.
      - injection Hbody as <- _. reflexivity. }
    destruct layout.
    + apply emit_Default_length in Hemit. exact Hemit.
    + apply emit_NHWC_length in Hemit. exact Hemit.
  - apply (for_uint32_measure (fun s : list Z * list Z => length s.2)
             (if useScaleShift then 1 else 0)%nat) in Hrun.
    + cbn [snd length] in Hrun. destruct useScaleShift; lia.
    + intros n [acc bias] [acc' bias'] Hbody. cbn [snd].
      apply bind_Done_inv in Hbody as (acc1 & _ & Hbody).
      destruct useScaleShift.
      * apply bind_Done_inv in Hbody as (x & _ & Hbody). injection Hbody as _ <-.
        unfold push_back. rewrite length_app. reflexivity.
      * injection Hbody as _ <-. lia.
Qed.

Lemma convertWeights_emitted_counts_witness :
  length (@nil Z) = (Z.to_nat 1 * Z.to_nat (wrap32 (65536 * 65536 * 1)))%nat /\
  length (@nil Z) = 0%nat.
Proof.
  apply (convertWeights_emitted_counts Z.mul (fun x => x) Default false
           filter_65536x65536 [] [] (U4 1 65536 65536 1) [] []).
  reflexivity.
Defined.

(** ** Weight vectors that are too long or too short *)

Lemma vector_at_prefix {A : Type} (v v' : list A) (idx : Z) (x : A) :
  v `prefix_of` v' -> vector_at v idx = Done x -> vector_at v' idx = Done x.
Proof.
  intros [k ->]. unfold vector_at.
  destruct (v !! Z.to_nat idx) as [y |] eqn:Hy; [| discriminate].
  intros Heq. injection Heq as ->. rewrite (lookup_app_l_Some _ _ _ _ Hy). reflexivity.
Qed.

Lemma vector_at_Done_lt {A : Type} (v : list A) (idx : Z) (x : A) :
  vector_at v idx = Done x -> (Z.to_nat idx < length v)%nat.
Proof.
  unfold vector_at. destruct (v !! Z.to_nat idx) as [y |] eqn:Hy; [| discriminate].
  intros _. apply (lookup_lt_Some _ _ _ Hy).
Qed.

(** A loop that ends normally still does with a body that ends as the first
    one does wherever the first one ends normally. *)
Lemma for_range_transfer {S : Type} (body1 body2 : Z -> S -> outcome S)
    (count : nat) (i : Z) (s s' : S) :
  (forall i s s', body1 i s = Done s' -> body2 i s = Done s') ->
  for_range count i body1 s = Done s' -> for_range count i body2 s = Done s'.
Proof.
  intros Hbody. revert i s. induction count as [| count IH]; intros i s Hrun;
    cbn [for_range] in *.
  - exact Hrun.
  - apply bind_Done_inv in Hrun as (s1 & H1 & Hrun).
    rewrite (Hbody _ _ _ H1), bind_Done. apply IH, Hrun.
Qed.

(** A loop that ends normally has run each of its iterations to its end. *)
Lemma for_range_Done_iteration {S : Type} (body : Z -> S -> outcome S)
    (count : nat) (i0 : Z) (s s' : S) (k : nat) :
  for_range count i0 body s = Done s' -> (k < count)%nat ->
  exists s1 s2, body (i0 + Z.of_nat k) s1 = Done s2.
Proof.
  revert i0 s k. induction count as [| count IH]; intros i0 s k Hrun Hk; [lia |].
  cbn [for_range] in Hrun. apply bind_Done_inv in Hrun as (s1 & H1 & Hrun).
  destruct k as [| k].
  - exists s, s1. rewrite Z.add_0_r. exact H1.
  - destruct (IH (i0 + 1) s1 k Hrun) as (t1 & t2 & Ht); [lia |].
    exists t1, t2. rewrite <- Ht. f_equal. lia.
Qed.

Lemma for_uint32_Done_iteration {S : Type} (body : Z -> S -> outcome S)
    (bound : Z) (s s' : S) (k : Z) :
  for_uint32 bound body s = Done s' -> 0 <= k < bound ->
  exists s1 s2, body k s1 = Done s2.
Proof.
  unfold for_uint32. intros Hrun Hk.
  destruct (for_range_Done_iteration body _ 0 s s' (Z.to_nat k) Hrun) as (s1 & s2 & Hb);
    [lia |].
  exists s1, s2. rewrite <- Hb. f_equal. lia.
Qed.

Section Prefix.

Context {float : Type}.
Variable fmul : float -> float -> float.
Variable compress : float -> Z.
Variable layout : TensorLayout.
Variable useScaleShift : bool.
Variables filterWeights scaleWeights shiftWeights : list float.
Variables filterWeights' scaleWeights' shiftWeights' : list float.

Hypothesis Hfilter : filterWeights `prefix_of` filterWeights'.
Hypothesis Hscale : scaleWeights `prefix_of` scaleWeights'.
Hypothesis Hshift : shiftWeights `prefix_of` shiftWeights'.

Lemma scaledWeight_prefix idx n x :
  scaledWeight fmul useScaleShift filterWeights scaleWeights idx n = Done x ->
  scaledWeight fmul useScaleShift filterWeights' scaleWeights' idx n = Done x.
Proof using Hfilter Hscale.
  unfold scaledWeight. destruct useScaleShift.
  - intros Hrun. apply bind_Done_inv in Hrun as (f & Hf & Hrun).
    apply bind_Done_inv in Hrun as (s & Hs & Hrun).
    rewrite (vector_at_prefix _ _ _ _ Hfilter Hf), bind_Done.
    rewrite (vector_at_prefix _ _ _ _ Hscale Hs), bind_Done. exact Hrun.
  - apply vector_at_prefix, Hfilter.
Qed.

Lemma push_scaledWeight_prefix idx n (acc acc' : list Z) :
  (scaledWeight ← scaledWeight fmul useScaleShift filterWeights scaleWeights idx n;
   mret (push_back acc (compress scaledWeight))) = Done acc' ->
  (scaledWeight ← scaledWeight fmul useScaleShift filterWeights' scaleWeights' idx n;
   mret (push_back acc (compress scaledWeight))) = Done acc'.
Proof using Hfilter Hscale.
  intros Hrun. apply bind_Done_inv in Hrun as (x & Hx & Hrun).
  rewrite (scaledWeight_prefix _ _ _ Hx), bind_Done. exact Hrun.
Qed.

Lemma convertWeights_prefix sizes r :
  convertWeights fmul compress layout useScaleShift
    filterWeights scaleWeights shiftWeights sizes = Done r ->
  convertWeights fmul compress layout useScaleShift
    filterWeights' scaleWeights' shiftWeights' sizes = Done r.
Proof using Hfilter Hscale Hshift.
  unfold convertWeights. cbv zeta. unfold for_uint32.
  apply for_range_transfer. intros n [acc bias] [acc' bias'] Hbody.
  apply bind_Done_inv in Hbody as (acc1 & Hemit & Hbody).
  assert (match layout with
          | NHWC => emit_NHWC fmul compress useScaleShift filterWeights' scaleWeights'
                      (at1 sizes) (at2 sizes) (at3 sizes) n acc
          | Default => emit_Default fmul compress useScaleShift filterWeights' scaleWeights'
                         (at1 sizes) (at2 sizes) (at3 sizes) n acc
          end = Done acc1) as ->.
  { destruct layout.
    - revert Hemit. unfold emit_Default, for_uint32. apply for_range_transfer.
      intros i a a'. apply push_scaledWeight_prefix.
    - revert Hemit. unfold emit_NHWC, for_uint32. apply for_range_transfer.
      intros h a a'. apply for_range_transfer.
      intros w b b'. apply for_range_transfer.
      intros c e e'. apply push_scaledWeight_prefix. }
  rewrite bind_Done. destruct useScaleShift; [| exact Hbody].
  apply bind_Done_inv in Hbody as (x & Hx & Hbody).
  rewrite (vector_at_prefix _ _ _ _ Hshift Hx), bind_Done. exact Hbody.
Qed.

End Prefix.

(** X4. Values past the ones the loops read are ignored: if the conversion
    loops of [CreateWeightTensors] end normally on three weight vectors, they
    end with the same two sequences on any vectors that extend them. A layer
    with more weights than the shape has elements is accepted silently. *)
Theorem convertWeights_ignores_trailing_values {float : Type}
    (fmul : float -> float -> float) (compress : float -> Z)
    (layout : TensorLayout) (useScaleShift : bool)
    (filterWeights scaleWeights shiftWeights : list float)
    (moreFilter moreScale moreShift : list float) (sizes : uint32x4)
    (r : list Z * list Z) :
  convertWeights fmul compress layout useScaleShift
    filterWeights scaleWeights shiftWeights sizes = Done r ->
  convertWeights fmul compress layout useScaleShift
    (filterWeights ++ moreFilter) (scaleWeights ++ moreScale) (shiftWeights ++ moreShift)
    sizes = Done r.
Proof.
  apply convertWeights_prefix; eexists; reflexivity.
Qed.

Lemma convertWeights_ignores_trailing_values_witness :
  convertWeights Z.mul (fun x => x) NHWC true
    ([10; 11; 12; 13] ++ [99; 98]) ([2; 3] ++ [97]) ([100; 200] ++ [96; 95]) (U4 2 2 1 1)
  = Done ([20; 22; 36; 39], [100; 200]).
Proof.
  apply (convertWeights_ignores_trailing_values Z.mul (fun x => x) NHWC true
           [10; 11; 12; 13] [2; 3] [100; 200] [99; 98] [97] [96; 95] (U4 2 2 1 1)).
  reflexivity.
Defined.

Section LastRead.

Context {float : Type}.
Variable fmul : float -> float -> float.
Variable compress : float -> Z.
Variable useScaleShift : bool.
Variables filterWeights scaleWeights shiftWeights : list float.
Variable sizes : uint32x4.

Hypothesis Hpos : positive_dims sizes.
Hypothesis Hfit : element_total sizes < 2 ^ 32.

Lemma scaledWeight_Done_lt idx n x :
  scaledWeight fmul useScaleShift filterWeights scaleWeights idx n = Done x ->
  (Z.to_nat idx < length filterWeights)%nat /\
  (useScaleShift = true -> (Z.to_nat n < length scaleWeights)%nat).
Proof.
  clear Hpos Hfit.
  unfold scaledWeight. destruct useScaleShift.
  - intros Hrun. apply bind_Done_inv in Hrun as (f & Hf & Hrun).
    apply bind_Done_inv in Hrun as (s & Hs & _).
    split; [apply (vector_at_Done_lt _ _ _ Hf) | intros _; apply (vector_at_Done_lt _ _ _ Hs)].
  - intros Hf. split; [apply (vector_at_Done_lt _ _ _ Hf) | discriminate].
Qed.

(** The last weight of the last channel is read under both layouts. *)
Lemma emit_reads_last layout acc acc' :
  match layout with
  | NHWC => emit_NHWC fmul compress useScaleShift filterWeights scaleWeights
              (at1 sizes) (at2 sizes) (at3 sizes) (at0 sizes - 1) acc
  | Default => emit_Default fmul compress useScaleShift filterWeights scaleWeights
                 (at1 sizes) (at2 sizes) (at3 sizes) (at0 sizes - 1) acc
  end = Done acc' ->
  (Z.to_nat (element_total sizes - 1) < length filterWeights)%nat /\
  (useScaleShift = true -> (Z.to_nat (at0 sizes - 1) < length scaleWeights)%nat).
Proof using Hpos Hfit.
  pose proof (channel_total_bounds sizes Hpos Hfit) as Hchw.
  pose proof (element_total_pos sizes Hpos) as Htot.
  destruct sizes as [N C H W]. unfold positive_dims, element_total in *.
  cbn [at0 at1 at2 at3] in *. destruct Hpos as (HN & HC & HH & HW).
  destruct layout.
  - unfold emit_Default. rewrite mul32_assoc3, wrap32_small by lia. intros Hrun.
    destruct (for_uint32_Done_iteration _ _ _ _ (C * H * W - 1) Hrun) as (a & a' & Hbody);
      [lia |].
    apply bind_Done_inv in Hbody as (x & Hx & _).
    rewrite idx_Default_wrapped in Hx.
    replace ((N - 1) * C * H * W + (C * H * W - 1)) with (N * C * H * W - 1) in Hx by ring.
    rewrite wrap32_small in Hx by lia.
    apply scaledWeight_Done_lt in Hx. exact Hx.
  - unfold emit_NHWC. intros Hrun.
    destruct (for_uint32_Done_iteration _ _ _ _ (H - 1) Hrun) as (a & a' & Hrun1); [lia |].
    destruct (for_uint32_Done_iteration _ _ _ _ (W - 1) Hrun1) as (b & b' & Hrun2); [lia |].
    destruct (for_uint32_Done_iteration _ _ _ _ (C - 1) Hrun2) as (e & e' & Hbody); [lia |].
    apply bind_Done_inv in Hbody as (x & Hx & _).
    rewrite idx_NHWC_wrapped in Hx.
    replace ((N - 1) * C * H * W + (C - 1) * H * W + (H - 1) * W + (W - 1))
      with (N * C * H * W - 1) in Hx by ring.
    rewrite wrap32_small in Hx by lia.
    apply scaledWeight_Done_lt in Hx. exact Hx.
Qed.

Lemma convertWeights_Done_suffice layout r :
  convertWeights fmul compress layout useScaleShift
    filterWeights scaleWeights shiftWeights sizes = Done r ->
  weights_suffice useScaleShift filterWeights scaleWeights shiftWeights sizes.
Proof using Hpos Hfit.
  pose proof (element_total_pos sizes Hpos) as Htot.
  pose proof Hpos as (HN & _).
  unfold convertWeights. cbv zeta. intros Hrun.
  destruct (for_uint32_Done_iteration _ _ _ _ (at0 sizes - 1) Hrun) as ([a b] & s2 & Hbody);
    [lia |].
  apply bind_Done_inv in Hbody as (acc1 & Hemit & Hbody).
  assert ((Z.to_nat (element_total sizes - 1) < length filterWeights)%nat /\
          (useScaleShift = true -> (Z.to_nat (at0 sizes - 1) < length scaleWeights)%nat))
    as (Hf & Hs).
  { apply (emit_reads_last layout a acc1). destruct layout; exact Hemit. }
  split; [lia |]. intros Huse. split; [specialize (Hs Huse); lia |].
  rewrite Huse in Hbody. apply bind_Done_inv in Hbody as (x & Hx & _).
  apply vector_at_Done_lt in Hx. lia.
Qed.

Lemma convertWeights_suffice_Done layout :
  weights_suffice useScaleShift filterWeights scaleWeights shiftWeights sizes ->
  exists r, convertWeights fmul compress layout useScaleShift
              filterWeights scaleWeights shiftWeights sizes = Done r.
Proof using Hpos Hfit.
  intros (Hf & Hs).
  set (firstWeights := take (Z.to_nat (element_total sizes)) filterWeights).
  assert (length firstWeights = Z.to_nat (element_total sizes)) as Hlen
    by (unfold firstWeights; rewrite length_take; lia).
  destruct (filterWeights_inhabited firstWeights sizes Hpos Hlen) as [d _].
  eexists.
  apply (convertWeights_prefix fmul compress layout useScaleShift
           firstWeights scaleWeights shiftWeights filterWeights scaleWeights shiftWeights).
  - exists (drop (Z.to_nat (element_total sizes)) filterWeights).
    unfold firstWeights. symmetry. apply take_drop.
  - reflexivity.
  - reflexivity.
  - apply (convertWeights_layout fmul compress useScaleShift firstWeights scaleWeights
             shiftWeights
             sizes Hpos Hfit Hlen Hs d layout).
Qed.

End LastRead.

(** X5. For a shape of positive dimensions whose N*C*H*W fits in 32 bits, the
    conversion loops of [CreateWeightTensors] end normally exactly when the
    filter vector has at least N*C*H*W values and, with scale and shift, the
    scale and shift vectors at least N each. On any shorter vector a weight is
    read past the end of the vector: the loops check no length, and the
    behaviour is undefined. *)
Theorem convertWeights_returns_iff_weights_suffice {float : Type}
    (fmul : float -> float -> float) (compress : float -> Z)
    (layout : TensorLayout) (useScaleShift : bool)
    (filterWeights scaleWeights shiftWeights : list float) (sizes : uint32x4) :
  positive_dims sizes ->
  element_total sizes < 2 ^ 32 ->
  ((exists r, convertWeights fmul compress layout useScaleShift
                filterWeights scaleWeights shiftWeights sizes = Done r) <->
   weights_suffice useScaleShift filterWeights scaleWeights shiftWeights sizes) /\
  (~ weights_suffice useScaleShift filterWeights scaleWeights shiftWeights sizes ->
   convertWeights fmul compress layout useScaleShift
     filterWeights scaleWeights shiftWeights sizes = Undefined).
Proof.
  intros Hpos Hfit.
  assert ((exists r, convertWeights fmul compress layout useScaleShift
                       filterWeights scaleWeights shiftWeights sizes = Done r) <->
          weights_suffice useScaleShift filterWeights scaleWeights shiftWeights sizes) as Hiff.
  { split.
    - intros [r Hrun]. apply (convertWeights_Done_suffice fmul compress useScaleShift
        filterWeights scaleWeights shiftWeights sizes Hpos Hfit layout r Hrun).
    - apply convertWeights_suffice_Done; assumption. }
  split; [exact Hiff |]. intros Hshort.
  pose proof (benign_convertWeights fmul compress layout useScaleShift
                filterWeights scaleWeights shiftWeights sizes) as Hbenign.
  destruct (convertWeights fmul compress layout useScaleShift
              filterWeights scaleWeights shiftWeights sizes) as [r | | |] eqn:Hrun;
    try contradiction; [| reflexivity].
  exfalso. apply Hshort, Hiff. exists r. reflexivity.
Qed.

Lemma convertWeights_returns_iff_weights_suffice_witness :
  convertWeights Z.mul (fun x => x) NHWC false
    [10; 11; 12; 13; 14; 15; 16; 17; 18; 19; 20] [] [] (U4 2 3 1 2) = Undefined.
Proof.
  apply (convertWeights_returns_iff_weights_suffice Z.mul (fun x => x) NHWC false
           [10; 11; 12; 13; 14; 15; 16; 17; 18; 19; 20] [] [] (U4 2 3 1 2)).
  - unfold positive_dims; cbn; lia.
  - unfold element_total; cbn; lia.
  - unfold weights_suffice, element_total. cbn. lia.
Defined.

(** ** What a call of [CreateWeightTensors] that returns has done *)

(** The steps of a call that returns: the buffers the device created, the
    vectors found in the weight map, the conversion, the uploads. *)
Lemma CreateWeightTensors_Done_inv {float : Type}
    (fmul : float -> float -> float) (compress : float -> Z)
    (NDEBUG : bool) (device : ID3D12Device) (layout : TensorLayout)
    (weights : gmap string (list float)) (conv scale shift : cstr)
    (sizes : uint32x4) (uploadBatch : ResourceUploadBatch) (biasOut : bool)
    (r : WeightTensors) :
  CreateWeightTensors fmul compress NDEBUG device layout
    weights conv scale shift sizes uploadBatch biasOut = Done r ->
  exists filterWeights weights1 scaleWeights shiftWeights filterWeightsFP16 biasWeightsFP16,
    CreateWeightResource device layout sizes = Done (filterWeightResource r) /\
    map_subscript weights conv = Done (filterWeights, weights1) /\
    match scale with
    | None =>
        scaleWeights = [] /\ shiftWeights = [] /\ weights_after r = weights1 /\
        biasWeightResource r = None
    | Some _ =>
        exists weights2 bias,
          map_subscript weights1 scale = Done (scaleWeights, weights2) /\
          map_subscript weights2 shift = Done (shiftWeights, weights_after r) /\
          CreateWeightResource device layout (U4 1 (at0 sizes) 1 1) = Done bias /\
          biasWeightResource r = Some bias
    end /\
    convertWeights fmul compress layout (negb (is_null scale))
      filterWeights scaleWeights shiftWeights sizes
    = Done (filterWeightsFP16, biasWeightsFP16) /\
    uploadBatch_after r
    = uploadBatch
      ++ {| upload_resource := filterWeightResource r; upload_data := filterWeightsFP16 |}
      :: match biasWeightResource r with
         | Some bias => [{| upload_resource := bias; upload_data := biasWeightsFP16 |}]
         | None => []
         end.
Proof.
  unfold CreateWeightTensors. intros Hrun.
  apply bind_Done_inv in Hrun as (useScaleShift & Huse & Hrun).
  assert (useScaleShift = negb (is_null scale)) as ->.
  { destruct scale; cbn in Huse.
    - injection Huse as <-. reflexivity.
    - apply bind_Done_inv in Huse as (_ & _ & Huse). injection Huse as <-. reflexivity. }
  apply bind_Done_inv in Hrun as (filterResource & Hfilter & Hrun).
  apply bind_Done_inv in Hrun as (biasResource & Hbias & Hrun).
  apply bind_Done_inv in Hrun as ([filterWeights weights1] & Hconv & Hrun).
  apply bind_Done_inv in Hrun as ([[scaleWeights shiftWeights] weights3] & Hlayers & Hrun).
  apply bind_Done_inv in Hrun as ([filterWeightsFP16 biasWeightsFP16] & Hloops & Hrun).
  apply bind_Done_inv in Hrun as (batch & Hbatch & Hrun).
  injection Hrun as <-. cbn [weights_after uploadBatch_after filterWeightResource
                               biasWeightResource].
  exists filterWeights, weights1, scaleWeights, shiftWeights,
    filterWeightsFP16, biasWeightsFP16.
  split; [exact Hfilter |]. split; [exact Hconv |].
  destruct scale as [scaleName |]; cbn [is_null negb] in *.
  - destruct biasOut; [| discriminate].
    apply bind_Done_inv in Hbias as (bias & Hbias & Hsome). injection Hsome as <-.
    apply bind_Done_inv in Hlayers as ([scaleWeights' weights2] & Hscale & Hlayers).
    apply bind_Done_inv in Hlayers as ([shiftWeights' weights3'] & Hshift & Hlayers).
    injection Hlayers as -> -> ->. injection Hbatch as <-.
    split; [exists weights2, bias; auto |]. split; [exact Hloops |].
    unfold push_back. rewrite <- app_assoc. reflexivity.
  - injection Hbias as <-. injection Hlayers as <- <- <-. injection Hbatch as <-.
    split; [auto |]. split; [exact Hloops | reflexivity].
Qed.

(** X6. A call of [CreateWeightTensors] that returns leaves the uploads that
    were pending in the batch as they were, in order, and appends one upload
    for the filter buffer, then, with a scale name, one for the bias buffer:
    each targets the buffer the device has just created for it (for the filter
    shape, and for the bias shape (1, N, 1, 1)). With no scale name no bias
    buffer is created or stored. *)
Theorem CreateWeightTensors_appends_its_uploads {float : Type}
    (fmul : float -> float -> float) (compress : float -> Z)
    (NDEBUG : bool) (device : ID3D12Device) (layout : TensorLayout)
    (weights : gmap string (list float)) (conv scale shift : cstr)
    (sizes : uint32x4) (uploadBatch : ResourceUploadBatch) (biasWeightResourceOut : bool)
    (r : WeightTensors) :
  CreateWeightTensors fmul compress NDEBUG device layout
    weights conv scale shift sizes uploadBatch biasWeightResourceOut = Done r ->
  CreateWeightResource device layout sizes = Done (filterWeightResource r) /\
  exists filterWeightsFP16 biasWeightsFP16 : list Z,
    (scale = None /\ biasWeightResource r = None /\
     uploadBatch_after r
     = uploadBatch ++
       [{| upload_resource := filterWeightResource r; upload_data := filterWeightsFP16 |}]) \/
    (scale <> None /\
     exists bias,
       biasWeightResource r = Some bias /\
       CreateWeightResource device layout (U4 1 (at0 sizes) 1 1) = Done bias /\
       uploadBatch_after r
       = uploadBatch ++
         [{| upload_resource := filterWeightResource r; upload_data := filterWeightsFP16 |};
          {| upload_resource := bias; upload_data := biasWeightsFP16 |}]).
Proof.
  intros Hrun.
  destruct (CreateWeightTensors_Done_inv _ _ _ _ _ _ _ _ _ _ _ _ _ Hrun)
    as (filterWeights & weights1 & scaleWeights & shiftWeights & filterWeightsFP16 &
        biasWeightsFP16 & Hfilter & _ & Hlayers & _ & Hbatch).
  split; [exact Hfilter |]. exists filterWeightsFP16, biasWeightsFP16.
  destruct scale as [scaleName |].
  - right. split; [discriminate |].
    destruct Hlayers as (weights2 & bias & _ & _ & Hbias & Hstored).
    exists bias. rewrite Hstored in Hbatch. auto.
  - left. destruct Hlayers as (_ & _ & _ & Hnone). rewrite Hnone in Hbatch. auto.
Qed.

Lemma CreateWeightTensors_appends_its_uploads_witness :
  exists r,
    CreateWeightTensors Z.mul (fun x => x) false sample_device Default
      {["conv1/weights" := [10; 11]; "conv1/BatchNorm/scale" := [2];
        "conv1/BatchNorm/shift" := [100]]}
      (Some "conv1/weights") (Some "conv1/BatchNorm/scale") (Some "conv1/BatchNorm/shift")
      (U4 1 2 1 1)
      [{| upload_resource :=
            Resource D3D12_HEAP_TYPE_DEFAULT D3D12_HEAP_FLAG_NONE
              (Buffer 16 D3D12_RESOURCE_FLAG_ALLOW_UNORDERED_ACCESS);
          upload_data := [1; 2; 3] |}] true = Done r /\
    CreateWeightResource sample_device Default (U4 1 2 1 1) = Done (filterWeightResource r) /\
    upload_data <$> uploadBatch_after r = [[1; 2; 3]; [20; 22]; [100]].
Proof.
  eexists. split; [vm_compute; reflexivity |]. split; [| vm_compute; reflexivity].
  eapply (CreateWeightTensors_appends_its_uploads Z.mul (fun x => x) false sample_device
            Default
            {["conv1/weights" := [10; 11]; "conv1/BatchNorm/scale" := [2];
              "conv1/BatchNorm/shift" := [100]]}
            (Some "conv1/weights") (Some "conv1/BatchNorm/scale")
            (Some "conv1/BatchNorm/shift") (U4 1 2 1 1)
            [{| upload_resource :=
                  Resource D3D12_HEAP_TYPE_DEFAULT D3D12_HEAP_FLAG_NONE
                    (Buffer 16 D3D12_RESOURCE_FLAG_ALLOW_UNORDERED_ACCESS);
                upload_data := [1; 2; 3] |}] true).
  vm_compute. reflexivity.
Defined.

(** ** The weight map after the call *)

Lemma map_subscript_Done {float : Type} (weights weights' : gmap string (list float))
    (name : cstr) (v : list float) :
  map_subscript weights name = Done (v, weights') ->
  exists key, name = Some key /\
    ((weights !! key = Some v /\ weights' = weights) \/
     (weights !! key = None /\ v = [] /\ weights' = <[key := []]> weights)).
Proof.
  unfold map_subscript. destruct name as [key |]; [| discriminate].
  destruct (weights !! key) as [x |] eqn:Hkey; intros Heq; injection Heq as <- <-;
    exists key; auto.
Qed.

Lemma grown_by_refl {float : Type} (names : list cstr) (weights : gmap string (list float)) :
  grown_by names weights weights.
Proof. split; auto. Qed.

Lemma grown_by_map_subscript {float : Type} (names : list cstr)
    (before weights weights' : gmap string (list float)) (name : cstr) (v : list float) :
  name ∈ names ->
  grown_by names before weights ->
  map_subscript weights name = Done (v, weights') ->
  grown_by names before weights'.
Proof.
  intros Hname (Hkeep & Hnew) Hlookup.
  apply map_subscript_Done in Hlookup as (key & -> & [(_ & ->) | (Hnone & -> & ->)]);
    [split; assumption |].
  split.
  - intros k x Hk. destruct (decide (k = key)) as [-> | Hne].
    + rewrite (Hkeep _ _ Hk) in Hnone. discriminate.
    + rewrite lookup_insert_ne by congruence. apply Hkeep, Hk.
  - intros k x Hk. destruct (decide (k = key)) as [-> | Hne].
    + rewrite lookup_insert_eq in Hk. injection Hk as <-.
      destruct (before !! key) as [y |] eqn:Hbefore.
      * rewrite (Hkeep _ _ Hbefore) in Hnone. discriminate.
      * right. auto.
    + rewrite lookup_insert_ne in Hk by congruence. apply Hnew, Hk.
Qed.

(** X7. [CreateWeightTensors] takes the weight map by non-const reference and
    looks its layers up with [operator[]]: a call that returns has removed and
    changed no layer of the map, and every layer it has added is one of the
    names it was given, absent before, now holding an empty vector. *)
Theorem CreateWeightTensors_weight_map_only_grows {float : Type}
    (fmul : float -> float -> float) (compress : float -> Z)
    (NDEBUG : bool) (device : ID3D12Device) (layout : TensorLayout)
    (weights : gmap string (list float)) (conv scale shift : cstr)
    (sizes : uint32x4) (uploadBatch : ResourceUploadBatch) (biasWeightResourceOut : bool)
    (r : WeightTensors) :
  CreateWeightTensors fmul compress NDEBUG device layout
    weights conv scale shift sizes uploadBatch biasWeightResourceOut = Done r ->
  (forall key v, weights !! key = Some v -> weights_after r !! key = Some v) /\
  (forall key v, weights_after r !! key = Some v ->
     weights !! key = Some v \/
     (weights !! key = None /\ v = [] /\
      (conv = Some key \/ scale = Some key \/ shift = Some key))).
Proof.
  intros Hrun.
  destruct (CreateWeightTensors_Done_inv _ _ _ _ _ _ _ _ _ _ _ _ _ Hrun)
    as (filterWeights & weights1 & scaleWeights & shiftWeights & filterWeightsFP16 &
        biasWeightsFP16 & _ & Hconv & Hlayers & _ & _).
  assert (grown_by [conv; scale; shift] weights (weights_after r)) as (Hkeep & Hnew).
  { pose proof (grown_by_refl [conv; scale; shift] weights) as H0.
    pose proof (grown_by_map_subscript [conv; scale; shift] _ _ _ conv _
                  ltac:(set_solver) H0 Hconv) as H1.
    destruct scale as [scaleName |].
    - destruct Hlayers as (weights2 & bias & Hscale & Hshift & _ & _).
      pose proof (grown_by_map_subscript [conv; Some scaleName; shift] _ _ _
                    (Some scaleName) _ ltac:(set_solver) H1 Hscale) as H2.
      apply (grown_by_map_subscript [conv; Some scaleName; shift] _ _ _ shift _
               ltac:(set_solver) H2 Hshift).
    - destruct Hlayers as (_ & _ & -> & _). exact H1. }
  split; [exact Hkeep |]. intros key v Hkey.
  destruct (Hnew key v Hkey) as [Hold | (Hnone & -> & Hin)]; [left; exact Hold | right].
  split; [exact Hnone |]. split; [reflexivity |].
  rewrite !elem_of_cons in Hin. destruct Hin as [<- | [<- | [<- | Hin]]]; auto.
  apply elem_of_nil in Hin. contradiction.
Qed.

Lemma CreateWeightTensors_weight_map_only_grows_witness :
  exists r,
    CreateWeightTensors Z.mul (fun x => x) false sample_device Default
      {["conv1/weights" := [10]]} (Some "conv_final/weights") None None
      (U4 0 1 1 1) [] false = Done r /\
    weights_after r !! "conv1/weights" = Some [10] /\
    weights_after r !! "conv_final/weights" = Some [].
Proof.
  eexists. split; [vm_compute; reflexivity |]. split; [| vm_compute; reflexivity].
  eapply (CreateWeightTensors_weight_map_only_grows Z.mul (fun x => x) false sample_device
            Default {["conv1/weights" := [10]]} (Some "conv_final/weights") None None
            (U4 0 1 1 1) [] false).
  - vm_compute. reflexivity.
  - reflexivity.
Defined.



(** ** When [CreateWeightTensors] throws *)




(** ** Which pipelines can record a frame *)

Lemma Render_cases (this : Upscaler) (inputWaitFence : HANDLE) (inputWaitFenceValue : Z) :
  (is_Some (owned this m_deviceResources) /\ is_Some (owned this m_SRVDescriptorHeap) /\
   is_Some (owned this m_dmlDescriptorHeap) /\ is_Some (owned this m_dmlCommandRecorder) /\
   is_Some (owned this m_RTVDescriptorHeap) /\
   exists commands, Render this inputWaitFence inputWaitFenceValue = Done commands) \/
  ((owned this m_deviceResources = None \/ owned this m_SRVDescriptorHeap = None \/
    owned this m_dmlDescriptorHeap = None \/ owned this m_dmlCommandRecorder = None \/
    owned this m_RTVDescriptorHeap = None) /\
   Render this inputWaitFence inputWaitFenceValue = Undefined).
Proof.
  unfold Render, deref.
  destruct (owned this m_deviceResources) as [o1 |];
    [| right; split; [auto 6 | reflexivity]].
  destruct (owned this m_SRVDescriptorHeap) as [o2 |];
    [| right; split; [auto 6 | reflexivity]].
  destruct (owned this m_dmlDescriptorHeap) as [o3 |];
    [| right; split; [auto 6 | reflexivity]].
  destruct (owned this m_dmlCommandRecorder) as [o4 |];
    [| right; split; [auto 6 | reflexivity]].
  destruct (owned this m_RTVDescriptorHeap) as [o5 |];
    [| right; split; [auto 6 | reflexivity]].
  left. repeat (split; [eexists; reflexivity |]). eexists. reflexivity.
Qed.


(** X11. After [OnDeviceLost], and before [Initialize], no frame can be
    recorded: [Render] (and [RenderUpscale]) dereferences the SRV descriptor
    heap, which is null; its behaviour is undefined, whatever the pipeline held
    before the loss. *)
Theorem Render_undefined_on_lost_or_new_pipeline
    (this : Upscaler) (indeterminate inputWaitFence : HANDLE) (inputWaitFenceValue : Z) :
  Render (OnDeviceLost this) inputWaitFence inputWaitFenceValue = Undefined /\
  RenderUpscale (OnDeviceLost this) inputWaitFence inputWaitFenceValue = Undefined /\
  Render (Upscaler_constructor indeterminate) inputWaitFence inputWaitFenceValue
  = Undefined.
Proof.
  assert (Render (OnDeviceLost this) inputWaitFence inputWaitFenceValue = Undefined) as Hlost.
  { unfold Render, deref.
    destruct (owned (OnDeviceLost this) m_deviceResources); [| reflexivity].
    rewrite bind_Done.
    rewrite (OnDeviceLost_releases this m_SRVDescriptorHeap);
      [reflexivity | | discriminate].
    unfold device_dependent. rewrite !elem_of_app, !elem_of_cons. auto 10. }
  split; [exact Hlost |]. split; [exact Hlost | reflexivity].
Qed.

(** ** Device loss and restoration *)

Lemma owned_reset_weights_filter_outside count i this j :
  (j < i \/ i + count <= j)%nat ->
  owned (reset_weights count i this) (m_modelConvFilterWeights j)
  = owned this (m_modelConvFilterWeights j).
Proof.
  revert i this. induction count as [| count IH]; intros i this Hj; cbn; [reflexivity |].
  rewrite IH by lia. rewrite owned_Reset_other by discriminate.
  apply owned_Reset_other. intros Heq. injection Heq as ->. lia.
Qed.

Lemma owned_reset_weights_bias_outside count i this j :
  (j < i \/ i + count <= j)%nat ->
  owned (reset_weights count i this) (m_modelConvBiasWeights j)
  = owned this (m_modelConvBiasWeights j).
Proof.
  revert i this. induction count as [| count IH]; intros i this Hj; cbn; [reflexivity |].
  rewrite IH by lia. rewrite owned_Reset_other by (intros Heq; injection Heq as ->; lia).
  apply owned_Reset_other. discriminate.
Qed.

(** Each owning member is either null after every [OnDeviceLost], or left as
    it is by every [OnDeviceLost]. *)
Lemma OnDeviceLost_member_cases (m : member) :
  (forall this, owned (OnDeviceLost this) m = None) \/
  (forall this, owned (OnDeviceLost this) m = owned this m).
Proof.
  assert (forall this m', (forall j, m' <> m_modelConvFilterWeights j) ->
            (forall j, m' <> m_modelConvBiasWeights j) ->
            m' <> m_tensorRenderPipelineState -> m' <> m_tensorRenderRootSignature ->
            m' <> m_videoTexture -> m' <> m_finalResultTexture -> m' <> m_indexBuffer ->
            m' <> m_vertexBuffer -> m' <> m_SRVDescriptorHeap -> m' <> m_RTVDescriptorHeap ->
            m' <> m_computePSO -> m' <> m_computeRootSignature -> m' <> m_dmlDevice ->
            m' <> m_dmlCommandRecorder -> m' <> m_modelInput -> m' <> m_modelOutput ->
            m' <> m_dmlOpInitializer -> m' <> m_dmlGraph -> m' <> m_modelTemporaryResource ->
            m' <> m_modelPersistentResource -> m' <> m_dmlDescriptorHeap ->
            owned (OnDeviceLost this) m' = owned this m') as Hkept.
  { intros this m' Hf Hb. intros. unfold OnDeviceLost. cbv zeta.
    rewrite owned_Reset_other by auto.
    rewrite owned_reset_weights_other by auto.
    rewrite !owned_Reset_other by auto. reflexivity. }
  assert (forall m', m' ∈ device_dependent -> m' <> m_dmlBindingTable ->
            forall this, owned (OnDeviceLost this) m' = None) as Hlost
    by (intros m' Hin Hne this; apply OnDeviceLost_releases; assumption).
  assert (forall m', In m' [m_videoTexture; m_finalResultTexture; m_vertexBuffer; m_indexBuffer;
                            m_SRVDescriptorHeap; m_RTVDescriptorHeap; m_dmlDescriptorHeap;
                            m_tensorRenderPipelineState; m_computePSO;
                            m_tensorRenderRootSignature; m_computeRootSignature;
                            m_dmlDevice; m_dmlCommandRecorder; m_modelInput; m_modelOutput;
                            m_modelPersistentResource; m_modelTemporaryResource;
                            m_dmlGraph; m_dmlOpInitializer] ->
            forall this, owned (OnDeviceLost this) m' = None) as Hfixed.
  { intros m' Hin. apply Hlost.
    - unfold device_dependent. rewrite !elem_of_app, !elem_of_cons.
      cbn in Hin. repeat (destruct Hin as [<- | Hin]; [auto 25 |]).
      contradiction.
    - intros ->. cbn in Hin.
      repeat (destruct Hin as [Hin | Hin]; [discriminate |]). try contradiction. }
  destruct m as [| | | | | | | | | | | | | | | | i | i | | | | |];
    try (left; apply Hfixed; cbn; auto 25; fail);
    try (right; intros this; apply Hkept; discriminate).
  - destruct (le_lt_dec c_numConvLayers i) as [Hge | Hlt].
    + right. intros this. unfold OnDeviceLost. cbv zeta.
      rewrite owned_Reset_other by discriminate.
      rewrite owned_reset_weights_filter_outside by lia.
      rewrite !owned_Reset_other by discriminate. reflexivity.
    + left. intros this. unfold OnDeviceLost. cbv zeta.
      rewrite owned_Reset_other by discriminate.
      apply owned_reset_weights_filter. lia.
  - destruct (le_lt_dec c_numConvLayers i) as [Hge | Hlt].
    + right. intros this. unfold OnDeviceLost. cbv zeta.
      rewrite owned_Reset_other by discriminate.
      rewrite owned_reset_weights_bias_outside by lia.
      rewrite !owned_Reset_other by discriminate. reflexivity.
    + left. intros this. unfold OnDeviceLost. cbv zeta.
      rewrite owned_Reset_other by discriminate.
      apply owned_reset_weights_bias. lia.
Qed.

(** X12. [OnDeviceLost] releases the video texture and the vertex and index
    buffers but keeps what was derived from them: the shared handle of the
    video texture and the two buffer views (GPU addresses) stay as they were,
    as do the source size, the layout and the device resources. A second
    [OnDeviceLost] changes nothing more. *)
Theorem OnDeviceLost_keeps_handles_and_views (this : Upscaler) :
  owned (OnDeviceLost this) m_videoTexture = None /\
  owned (OnDeviceLost this) m_vertexBuffer = None /\
  owned (OnDeviceLost this) m_indexBuffer = None /\
  m_VideoTextureHandle (OnDeviceLost this) = m_VideoTextureHandle this /\
  m_finalResultTextureHandle (OnDeviceLost this) = m_finalResultTextureHandle this /\
  m_vertexBufferView (OnDeviceLost this) = m_vertexBufferView this /\
  m_indexBufferView (OnDeviceLost this) = m_indexBufferView this /\
  m_srcTextureWidth (OnDeviceLost this) = m_srcTextureWidth this /\
  m_srcTextureHeight (OnDeviceLost this) = m_srcTextureHeight this /\
  m_tensorLayout (OnDeviceLost this) = m_tensorLayout this /\
  owned (OnDeviceLost this) m_deviceResources = owned this m_deviceResources /\
  (forall m, owned (OnDeviceLost (OnDeviceLost this)) m = owned (OnDeviceLost this) m).
Proof.
  assert (forall m, m ∈ [m_videoTexture; m_vertexBuffer; m_indexBuffer] ->
            owned (OnDeviceLost this) m = None) as Hreleased.
  { intros m Hin. rewrite !elem_of_cons in Hin. apply OnDeviceLost_releases.
    - unfold device_dependent. rewrite !elem_of_app, !elem_of_cons.
      destruct Hin as [-> | [-> | [-> | Hin]]];
        first [solve [auto 25] | apply elem_of_nil in Hin; contradiction].
    - destruct Hin as [-> | [-> | [-> | Hin]]];
        first [discriminate | apply elem_of_nil in Hin; contradiction]. }
  split; [apply Hreleased; rewrite !elem_of_cons; auto |].
  split; [apply Hreleased; rewrite !elem_of_cons; auto |].
  split; [apply Hreleased; rewrite !elem_of_cons; auto |].
  do 7 (split; [reflexivity |]).
  split.
  - unfold OnDeviceLost. cbv zeta.
    rewrite owned_Reset_other by discriminate.
    rewrite owned_reset_weights_other by discriminate.
    rewrite !owned_Reset_other by discriminate. reflexivity.
  - intros m. destruct (OnDeviceLost_member_cases m) as [Hnone | Hkept].
    + rewrite !Hnone. reflexivity.
    + apply Hkept.
Qed.

(** X13. Restoring after a device loss rebuilds the pipeline for the source
    size it had: if [OnDeviceRestored] returns on a pipeline that
    [OnDeviceLost] has emptied, the stored source size is the one from before
    the loss, the device has granted a video texture of that size, and
    [Render] records a frame again, with the dispatch grid and the doubled
    constant block of that size. [CreateDirectMLResources] and
    [InitializeDirectMLResources] are taken to leave the source size and the
    frame heaps alone and to build the DirectML heap and command recorder. *)
Theorem OnDeviceRestored_rebuilds_for_the_same_source
    (device : ID3D12Device)
    (CreateDirectMLResources InitializeDirectMLResources : Upscaler -> outcome Upscaler)
    (this this' : Upscaler) (inputWaitFence : HANDLE) (inputWaitFenceValue : Z) :
  keeps_frame_state CreateDirectMLResources ->
  keeps_frame_state InitializeDirectMLResources ->
  builds_DirectML CreateDirectMLResources InitializeDirectMLResources ->
  OnDeviceRestored device CreateDirectMLResources InitializeDirectMLResources
    (OnDeviceLost this) = Done this' ->
  m_srcTextureWidth this' = m_srcTextureWidth this /\
  m_srcTextureHeight this' = m_srcTextureHeight this /\
  (exists r,
     CreateCommittedResource device D3D12_HEAP_TYPE_DEFAULT D3D12_HEAP_FLAG_SHARED
       (Texture2D (m_srcTextureWidth this) (m_srcTextureHeight this)
          D3D12_RESOURCE_FLAG_ALLOW_SIMULTANEOUS_ACCESS)
       D3D12_RESOURCE_STATE_NON_PIXEL_SHADER_RESOURCE = Some r) /\
  exists commands,
    Render this' inputWaitFence inputWaitFenceValue = Done commands /\
    dispatches commands
    = [(DivUp (m_srcTextureWidth this) 32, DivUp (m_srcTextureHeight this) 16, 1)] /\
    graphics_constants commands
    = [(e_rrpIdxCB, 3,
        {| Height := m_srcTextureHeight this *32 2;
           Width := m_srcTextureWidth this *32 2;
           UseNhwc := is_NHWC (m_tensorLayout this') |}, 0)].
Proof.
  intros Hcreate Hinitialize Hbuilds. unfold OnDeviceRestored. intros Hrun.
  apply (CreateDeviceDependentResources_Done device CreateDirectMLResources
           InitializeDirectMLResources Hcreate Hinitialize Hbuilds) in Hrun
    as (Hw & Hh & Hresources & Hsrv & Hrtv & Hheap & Hrecorder & Htexture).
  change (m_srcTextureWidth (OnDeviceLost this)) with (m_srcTextureWidth this) in *.
  change (m_srcTextureHeight (OnDeviceLost this)) with (m_srcTextureHeight this) in *.
  split; [exact Hw |]. split; [exact Hh |]. split; [exact Htexture |].
  destruct (Render_built this' inputWaitFence inputWaitFenceValue
              Hresources Hsrv Hrtv Hheap Hrecorder)
    as (commands & Hrender & Hdispatches & _ & _ & Hconstants).
  exists commands. rewrite Hw, Hh in Hdispatches, Hconstants. auto.
Qed.

Lemma OnDeviceRestored_rebuilds_for_the_same_source_witness :
  exists this' commands,
    OnDeviceRestored sample_device sample_CreateDirectMLResources
      sample_InitializeDirectMLResources (OnDeviceLost fully_built) = Done this' /\
    m_srcTextureWidth this' = 64 /\
    Render this' 7 1 = Done commands /\
    dispatches commands = [(2, 4, 1)].
Proof.
  assert (exists this',
            OnDeviceRestored sample_device sample_CreateDirectMLResources
              sample_InitializeDirectMLResources (OnDeviceLost fully_built) = Done this')
    as [this' Hrun] by (eexists; vm_compute; reflexivity).
  destruct (OnDeviceRestored_rebuilds_for_the_same_source sample_device
              sample_CreateDirectMLResources sample_InitializeDirectMLResources
              fully_built this' 7 1 sample_CreateDirectMLResources_keeps
              sample_InitializeDirectMLResources_keeps sample_builds_DirectML Hrun)
    as (Hw & _ & _ & commands & Hrender & Hdispatches & _).
  exists this', commands. auto.
Defined.

(** ** Sizes the device refuses *)

(** X14. [Initialize] checks nothing about the size it is given; the check is
    the device's. On a device that refuses 2D textures that are empty or
    larger than a limit, [CreateUpscaler] with a width or height that is zero,
    negative or above the limit ends by throwing (at the latest when the video
    texture is refused, through [DX::ThrowIfFailed]): no pipeline is handed
    out. A negative [int] reaches the device as a value of 2^31 or more. *)
Theorem CreateUpscaler_throws_on_refused_size
    (device : ID3D12Device) (CreateDeviceResources : outcome unit)
    (CreateDirectMLResources InitializeDirectMLResources : Upscaler -> outcome Upscaler)
    (indeterminate : HANDLE) (src_width src_height : Z) (limit : Z) :
  limit < 2 ^ 31 ->
  respects_texture_limit limit device ->
  is_int32 src_width -> is_int32 src_height ->
  src_width <= 0 \/ limit < src_width \/ src_height <= 0 \/ limit < src_height ->
  CreateDeviceResources = Done tt \/ CreateDeviceResources = Thrown ->
  CreateUpscaler device CreateDeviceResources CreateDirectMLResources
    InitializeDirectMLResources indeterminate src_width src_height = Thrown.
Proof.
  intros Hbound Hlimit Hwidth Hheight Hbad Hresources.
  unfold CreateUpscaler, Initialize. cbv zeta.
  change (deref (set_source_size (wrap32 src_width) (wrap32 src_height)
                   (Upscaler_constructor indeterminate)) m_deviceResources)
    with (Done (A := object) (DeviceResources c_backBufferCount)).
  rewrite bind_Done.
  destruct Hresources as [-> | ->]; [rewrite bind_Done | reflexivity].
  unfold CreateDeviceDependentResources. cbv zeta.
  change (deref (set_source_size (wrap32 src_width) (wrap32 src_height)
                   (Upscaler_constructor indeterminate)) m_deviceResources)
    with (Done (A := object) (DeviceResources c_backBufferCount)).
  rewrite bind_Done. unfold make_DescriptorHeap.
  destruct (CreateDescriptorHeap device D3D12_DESCRIPTOR_HEAP_TYPE_CBV_SRV_UAV _ _);
    [cbn [ThrowIfFailed]; rewrite !bind_Done | reflexivity].
  destruct (CreateDescriptorHeap device D3D12_DESCRIPTOR_HEAP_TYPE_RTV _ _);
    [cbn [ThrowIfFailed]; rewrite !bind_Done | reflexivity].
  unfold CreateTextureResources. cbv zeta.
  destruct (CreateCommittedResource device D3D12_HEAP_TYPE_UPLOAD D3D12_HEAP_FLAG_NONE
              (Buffer sizeof_s_vertexData _) _) as [vertexBuffer |];
    [cbn [ThrowIfFailed]; rewrite !bind_Done | reflexivity].
  destruct (Map device vertexBuffer);
    [cbn [ThrowIfFailed]; rewrite !bind_Done | reflexivity].
  destruct (CreateCommittedResource device D3D12_HEAP_TYPE_UPLOAD D3D12_HEAP_FLAG_NONE
              (Buffer sizeof_s_indexData _) _) as [indexBuffer |];
    [cbn [ThrowIfFailed]; rewrite !bind_Done | reflexivity].
  destruct (Map device indexBuffer);
    [cbn [ThrowIfFailed]; rewrite !bind_Done | reflexivity].
  cbn [m_srcTextureWidth m_srcTextureHeight assign set_source_size
         set_vertexBufferView set_indexBufferView].
  destruct (CreateCommittedResource device D3D12_HEAP_TYPE_DEFAULT D3D12_HEAP_FLAG_SHARED
              (Texture2D (wrap32 src_width) (wrap32 src_height) _) _)
    as [videoTexture |] eqn:Htexture; [exfalso | reflexivity].
  destruct (Hlimit _ _ _ _ _ _ _ Htexture) as (Hw & Hh).
  pose proof (accepted_size_is_stored limit src_width Hbound Hwidth Hw) as Hws.
  pose proof (accepted_size_is_stored limit src_height Hbound Hheight Hh) as Hhs.
  lia.
Qed.

Lemma CreateUpscaler_throws_on_refused_size_witness :
  CreateUpscaler sample_device (Done tt) sample_CreateDirectMLResources
    sample_InitializeDirectMLResources 0 (-1) 64 = Thrown.
Proof.
  apply (CreateUpscaler_throws_on_refused_size sample_device (Done tt)
           sample_CreateDirectMLResources sample_InitializeDirectMLResources 0 (-1) 64
           D3D12_REQ_TEXTURE2D_U_OR_V_DIMENSION).
  - unfold D3D12_REQ_TEXTURE2D_U_OR_V_DIMENSION; lia.
  - exact sample_device_respects_texture_limit.
  - unfold is_int32; lia.
  - unfold is_int32; lia.
  - lia.
  - left; reflexivity.
Defined.

(** ** The resources of the texture passes *)



(** ** The order of destruction *)

(** X16. Deleting an [Upscaler] through a pointer of its own type (what
    [DeleteUpscaler] does not do) waits for the GPU first when the device
    resources are set, then releases every owning member exactly once, the
    device-dependent ones among them, and the device resources last, as the
    member declared first; the storage is given back at the end. *)
Theorem Upscaler_destruction_order (this : Upscaler) :
  exists releases,
    delete_expression pointer_to_Upscaler this
    = match owned this m_deviceResources with
      | Some _ => [WaitForGpu]
      | None => []
      end
      ++ (ReleaseMember <$> releases)
      ++ [ReleaseMember m_deviceResources; OperatorDelete] /\
    NoDup releases /\
    (m_deviceResources ∉ releases) /\
    (forall m, m ∈ device_dependent -> m ∈ releases).
Proof.
  exists (reverse (tail declared_members)).
  split; [| split; [| split]].
  - unfold delete_expression, Upscaler_destructor.
    destruct (owned this m_deviceResources); reflexivity.
  - apply (bool_decide_unpack _). vm_compute. reflexivity.
  - apply (bool_decide_unpack _). vm_compute. reflexivity.
  - apply Forall_forall. apply (bool_decide_unpack _). vm_compute. reflexivity.
Qed.

(** ** Where the doubling and the rounding up stop being exact *)

Lemma mul32_2_exact_iff (s : Z) : is_uint32 s -> (s *32 2 = 2 * s <-> s < 2 ^ 31).
Proof.
  unfold is_uint32, mul32, wrap32. intros Hs. split.
  - intros Heq. pose proof (Z.mod_pos_bound (s * 2) (2 ^ 32)). lia.
  - intros Hlt. rewrite Z.mod_small by lia. lia.
Qed.

Lemma to_int32_double_exact_iff (s : Z) :
  is_uint32 s -> (to_int32 (s *32 2) = 2 * s <-> s < 2 ^ 30).
Proof.
  unfold is_uint32. intros Hs. unfold to_int32, mul32. cbv zeta. rewrite wrap32_idemp.
  assert (wrap32 (s * 2) = if s <? 2 ^ 31 then 2 * s else 2 * s - 2 ^ 32) as ->.
  { destruct (Z.ltb_spec s (2 ^ 31)) as [Hlt | Hge].
    - rewrite wrap32_small by lia. lia.
    - unfold wrap32. replace (s * 2) with (2 * s - 2 ^ 32 + 1 * 2 ^ 32) by ring.
      rewrite Z.mod_add by lia. apply Z.mod_small. lia. }
  destruct (Z.ltb_spec s (2 ^ 31)) as [Hlt | Hge].
  - destruct (Z.ltb_spec (2 * s) (2 ^ 31)); lia.
  - destruct (Z.ltb_spec (2 * s - 2 ^ 32) (2 ^ 31)); lia.
Qed.

(** An even integer up to 2^25 is a [FLOAT]. *)
Lemma FLOAT_of_LONG_double (s : Z) : 0 <= s <= 2 ^ 24 -> FLOAT_of_LONG (2 * s) = 2 * s.
Proof.
  intros Hs. unfold FLOAT_of_LONG. cbv zeta. rewrite Z.abs_eq by lia.
  destruct (Z.leb_spec (Z.log2 (2 * s) - 23) 0) as [Hle | Hgt]; [reflexivity |].
  destruct (Z.eq_dec s (2 ^ 24)) as [-> | Hne]; [reflexivity |].
  assert (0 < s) as Hpos
    by (destruct (Z.eq_dec s 0) as [-> | ?]; [vm_compute in Hgt; discriminate | lia]).
  assert (Z.log2 (2 * s) < 25) as Hlog by (apply Z.log2_lt_pow2; lia).
  replace (Z.log2 (2 * s) - 23) with 1 by lia.
  change (2 ^ 1) with 2. change (2 ^ (1 - 1)) with 1.
  replace (2 * s) with (s * 2) by ring.
  rewrite Z.div_mul, Z.mod_mul by lia. cbn [Z.ltb Z.compare].
  rewrite Z.sgn_pos by lia. lia.
Qed.

(** X17. The factor 2 of [Render] is applied in 32-bit arithmetic. On a
    pipeline that records a frame, with stored sizes w and h: the constant
    block of the tensor-to-image pass holds exactly (2w, 2h) if and only if w
    and h are below 2^31 ([UINT] product); the scissor rectangle is exactly
    (2w, 2h) if and only if they are below 2^30 ([LONG], beyond it the product
    is stored as a negative number or wraps); and the viewport, the [FLOAT] of
    the scissor value, is exactly (2w, 2h) for sizes up to 2^24. *)
Theorem Render_doubling_exact_ranges
    (this : Upscaler) (inputWaitFence : HANDLE) (inputWaitFenceValue : Z)
    (commands : list Command) :
  is_uint32 (m_srcTextureWidth this) -> is_uint32 (m_srcTextureHeight this) ->
  Render this inputWaitFence inputWaitFenceValue = Done commands ->
  (graphics_constants commands
   = [(e_rrpIdxCB, 3,
       {| Height := 2 * m_srcTextureHeight this; Width := 2 * m_srcTextureWidth this;
          UseNhwc := is_NHWC (m_tensorLayout this) |}, 0)]
   <-> m_srcTextureWidth this < 2 ^ 31 /\ m_srcTextureHeight this < 2 ^ 31) /\
  (scissors commands
   = [{| rect_left := 0; rect_top := 0;
         rect_right := 2 * m_srcTextureWidth this;
         rect_bottom := 2 * m_srcTextureHeight this |}]
   <-> m_srcTextureWidth this < 2 ^ 30 /\ m_srcTextureHeight this < 2 ^ 30) /\
  (m_srcTextureWidth this <= 2 ^ 24 -> m_srcTextureHeight this <= 2 ^ 24 ->
   viewports commands
   = [{| TopLeftX := 0; TopLeftY := 0;
         vp_Width := 2 * m_srcTextureWidth this; vp_Height := 2 * m_srcTextureHeight this;
         MinDepth := 0; MaxDepth := 0 |}]).
Proof.
  intros Hw Hh Hrun.
  destruct (Render_cases this inputWaitFence inputWaitFenceValue)
    as [(S1 & S2 & S3 & S4 & S5 & _) | (_ & Hundefined)]; [| congruence].
  destruct (Render_built this inputWaitFence inputWaitFenceValue S1 S2 S5 S3 S4)
    as (commands' & Hrun' & _ & Hviewports & Hscissors & Hconstants).
  assert (commands' = commands) as -> by congruence.
  rewrite Hviewports, Hscissors, Hconstants.
  pose proof (mul32_2_exact_iff _ Hw) as Hw31. pose proof (mul32_2_exact_iff _ Hh) as Hh31.
  pose proof (to_int32_double_exact_iff _ Hw) as Hw30.
  pose proof (to_int32_double_exact_iff _ Hh) as Hh30.
  split; [| split].
  - split.
    + intros Heq. injection Heq as Hheight Hwidth. rewrite <- Hw31, <- Hh31. auto.
    + intros (Hwlt & Hhlt). apply Hw31 in Hwlt. apply Hh31 in Hhlt.
      rewrite Hwlt, Hhlt. reflexivity.
  - split.
    + intros Heq. injection Heq as Hright Hbottom. rewrite <- Hw30, <- Hh30. auto.
    + intros (Hwlt & Hhlt). apply Hw30 in Hwlt. apply Hh30 in Hhlt.
      rewrite Hwlt, Hhlt. reflexivity.
  - intros Hwle Hhle. unfold is_uint32 in Hw, Hh.
    assert (m_srcTextureWidth this < 2 ^ 30) as Hwlt by lia.
    assert (m_srcTextureHeight this < 2 ^ 30) as Hhlt by lia.
    apply Hw30 in Hwlt. apply Hh30 in Hhlt. rewrite Hwlt, Hhlt.
    rewrite !FLOAT_of_LONG_double by lia. reflexivity.
Qed.

Lemma Render_doubling_exact_ranges_witness :
  exists commands,
    Render fully_built 7 1 = Done commands /\
    scissors commands
    = [{| rect_left := 0; rect_top := 0; rect_right := 128; rect_bottom := 128 |}].
Proof.
  assert (exists commands, Render fully_built 7 1 = Done commands) as [commands Hrun]
    by (eexists; vm_compute; reflexivity).
  exists commands. split; [exact Hrun |].
  apply (Render_doubling_exact_ranges fully_built 7 1 commands).
  - unfold is_uint32; cbn; lia.
  - unfold is_uint32; cbn; lia.
  - exact Hrun.
  - cbn; lia.
Defined.

(** X18. [DivUp a b], computed as (a + b - 1) / b on [UINT]s, is the ceiling of
    a / b if and only if the sum a + b - 1 fits in 32 bits; when the sum wraps,
    the quotient is that of a + b - 1 - 2^32, and b times it falls short of
    a. *)
Theorem DivUp_is_ceiling_iff_sum_fits (a b : Z) :
  is_uint32 a -> is_uint32 b -> 0 < b ->
  (ceiling_of a b (DivUp a b) <-> a + b - 1 <= 2 ^ 32 - 1) /\
  (2 ^ 32 - 1 < a + b - 1 ->
   DivUp a b = (a + b - 1 - 2 ^ 32) / b /\ b * DivUp a b < a).
Proof.
  unfold is_uint32. intros Ha Hb Hbpos.
  assert (2 ^ 32 - 1 < a + b - 1 ->
          DivUp a b = (a + b - 1 - 2 ^ 32) / b /\ b * DivUp a b < a) as Hwrap.
  { intros Hover.
    assert (DivUp a b = (a + b - 1 - 2 ^ 32) / b) as Heq.
    { unfold DivUp, div32, sub32, add32, wrap32. rewrite Zminus_mod_idemp_l.
      replace (a + b - 1) with (a + b - 1 - 2 ^ 32 + 1 * 2 ^ 32) at 1 by ring.
      rewrite Z.mod_add by lia. rewrite Z.mod_small by lia. reflexivity. }
    split; [exact Heq |]. rewrite Heq.
    pose proof (Z.mul_div_le (a + b - 1 - 2 ^ 32) b Hbpos). lia. }
  split; [| exact Hwrap]. split.
  - intros Hceil. destruct (Z.le_gt_cases (a + b - 1) (2 ^ 32 - 1)) as [Hfit | Hover];
      [exact Hfit |].
    destruct Hwrap as (_ & Hshort); [lia |]. unfold ceiling_of in Hceil. lia.
  - intros Hfit. apply DivUp_exact; lia.
Qed.

Lemma DivUp_is_ceiling_iff_sum_fits_witness :
  DivUp 4294967295 32 = (4294967295 + 32 - 1 - 2 ^ 32) / 32 /\
  32 * DivUp 4294967295 32 < 4294967295.
Proof.
  apply (DivUp_is_ceiling_iff_sum_fits 4294967295 32); unfold is_uint32; lia.
Defined.

(** ** The descriptors of a frame *)

Section Heaps.

Variable device : ID3D12Device.
Variable CreateDirectMLResources : Upscaler -> outcome Upscaler.
Variable InitializeDirectMLResources : Upscaler -> outcome Upscaler.

Hypothesis Hcreate : keeps_frame_state CreateDirectMLResources.
Hypothesis Hinitialize : keeps_frame_state InitializeDirectMLResources.

(** The two heaps of the texture passes, as [CreateDeviceDependentResources]
    makes them. *)
Lemma CreateDeviceDependentResources_heaps this this' :
  CreateDeviceDependentResources device CreateDirectMLResources InitializeDirectMLResources this
  = Done this' ->
  owned this' m_SRVDescriptorHeap
  = Some (DescriptorHeap D3D12_DESCRIPTOR_HEAP_TYPE_CBV_SRV_UAV
            D3D12_DESCRIPTOR_HEAP_FLAG_SHADER_VISIBLE e_srvDescCount) /\
  owned this' m_RTVDescriptorHeap
  = Some (DescriptorHeap D3D12_DESCRIPTOR_HEAP_TYPE_RTV
            D3D12_DESCRIPTOR_HEAP_FLAG_NONE e_rtvDescCount).
Proof using Hcreate Hinitialize.
  unfold CreateDeviceDependentResources. cbv zeta. intros Hrun.
  apply bind_Done_inv in Hrun as (resources & _ & Hrun).
  apply bind_Done_inv in Hrun as (srv & Hsrv & Hrun).
  apply bind_Done_inv in Hrun as (rtv & Hrtv & Hrun).
  apply bind_Done_inv in Hrun as (this1 & Htextures & Hrun).
  apply bind_Done_inv in Hrun as (this2 & Hdml & Hrun).
  unfold make_DescriptorHeap in Hsrv, Hrtv.
  apply bind_Done_inv in Hsrv as (_ & _ & Hsrv). injection Hsrv as <-.
  apply bind_Done_inv in Hrtv as (_ & _ & Hrtv). injection Hrtv as <-.
  apply CreateTextureResources_Done in Htextures as (_ & _ & _ & Hsrv1 & Hrtv1 & _).
  destruct (Hcreate _ _ Hdml) as (_ & _ & _ & Hsrv2 & Hrtv2).
  destruct (Hinitialize _ _ Hrun) as (_ & _ & _ & Hsrv3 & Hrtv3).
  cbn in Hsrv1, Hrtv1.
  rewrite fn_lookup_insert_ne, fn_lookup_insert in Hsrv1 by discriminate.
  rewrite fn_lookup_insert in Hrtv1.
  split; congruence.
Qed.

End Heaps.

(** X19. Every descriptor a frame binds exists in its heap: on a pipeline that
    [Initialize] has built, the SRV heap has [e_srvDescCount] = 4 descriptors
    and the RTV heap [e_rtvDescCount] = 1, as [CreateDeviceDependentResources]
    made them, and every index [Render] takes from the SRV heap (the video
    texture, the model input, the model output) and from the RTV heap (the
    result texture) is below that count. [CreateDirectMLResources] and
    [InitializeDirectMLResources] are taken to leave the two heaps alone and to
    build the DirectML heap and command recorder. *)
Theorem Render_descriptors_within_heaps
    (device : ID3D12Device) (CreateDeviceResources : outcome unit)
    (CreateDirectMLResources InitializeDirectMLResources : Upscaler -> outcome Upscaler)
    (this this' : Upscaler) (width height : Z) (source target : HANDLE)
    (inputWaitFence : HANDLE) (inputWaitFenceValue : Z) :
  keeps_frame_state CreateDirectMLResources ->
  keeps_frame_state InitializeDirectMLResources ->
  builds_DirectML CreateDirectMLResources InitializeDirectMLResources ->
  Initialize device CreateDeviceResources CreateDirectMLResources
    InitializeDirectMLResources this width height = Done (this', source, target) ->
  owned this' m_SRVDescriptorHeap
  = Some (DescriptorHeap D3D12_DESCRIPTOR_HEAP_TYPE_CBV_SRV_UAV
            D3D12_DESCRIPTOR_HEAP_FLAG_SHADER_VISIBLE e_srvDescCount) /\
  owned this' m_RTVDescriptorHeap
  = Some (DescriptorHeap D3D12_DESCRIPTOR_HEAP_TYPE_RTV
            D3D12_DESCRIPTOR_HEAP_FLAG_NONE e_rtvDescCount) /\
  exists commands,
    Render this' inputWaitFence inputWaitFenceValue = Done commands /\
    srv_descriptors commands = [e_descTexture; e_descModelInput; e_descModelOutput] /\
    rtv_descriptors commands = [e_descFinalResultTextureRtv; e_descFinalResultTextureRtv] /\
    Forall (fun descriptor => 0 <= descriptor < e_srvDescCount) (srv_descriptors commands) /\
    Forall (fun descriptor => 0 <= descriptor < e_rtvDescCount) (rtv_descriptors commands).
Proof.
  intros Hcreate Hinitialize Hbuilds Hrun.
  destruct (Initialize_Done device CreateDeviceResources CreateDirectMLResources
              InitializeDirectMLResources Hcreate Hinitialize Hbuilds
              this width height this' source target Hrun)
    as (_ & _ & (resources & Hresources) & _ & _ & (heap & Hheap) & (recorder & Hrecorder) & _).
  unfold Initialize in Hrun. cbv zeta in Hrun.
  apply bind_Done_inv in Hrun as (_ & _ & Hrun).
  apply bind_Done_inv in Hrun as (_ & _ & Hrun).
  apply bind_Done_inv in Hrun as (this1 & Hbuild & Hrun).
  injection Hrun as <- _ _.
  destruct (CreateDeviceDependentResources_heaps device CreateDirectMLResources
              InitializeDirectMLResources Hcreate Hinitialize _ _ Hbuild) as (Hsrv & Hrtv).
  split; [exact Hsrv |]. split; [exact Hrtv |].
  unfold Render.
  rewrite (deref_Some _ _ _ Hresources), (deref_Some _ _ _ Hsrv),
    (deref_Some _ _ _ Hheap), (deref_Some _ _ _ Hrecorder), (deref_Some _ _ _ Hrtv).
  rewrite !bind_Done. cbv zeta.
  eexists. split; [reflexivity |].
  split; [reflexivity |]. split; [reflexivity |].
  split; cbn; repeat constructor; unfold e_descTexture, e_descModelInput, e_descModelOutput,
    e_descFinalResultTextureRtv, e_srvDescCount, e_rtvDescCount; lia.
Qed.

Lemma Render_descriptors_within_heaps_witness :
  exists this' commands,
    sample_pipeline = Done (this', 1, 0) /\
    Render this' 7 1 = Done commands /\
    srv_descriptors commands = [0; 1; 2] /\
    rtv_descriptors commands = [0; 0].
Proof.
  assert (exists this', sample_pipeline = Done (this', 1, 0)) as [this' Hrun]
    by (eexists; vm_compute; reflexivity).
  destruct (Render_descriptors_within_heaps sample_device (Done tt)
              sample_CreateDirectMLResources sample_InitializeDirectMLResources
              (Upscaler_constructor 0) this' 64 64 1 0 7 1
              sample_CreateDirectMLResources_keeps sample_InitializeDirectMLResources_keeps
              sample_builds_DirectML Hrun)
    as (_ & _ & commands & Hrender & Hsrv & Hrtv & _).
  exists this', commands. auto.
Defined.
